(** * FOOD_extractor: a shallow embedding of the backend services

    The development follows the Python sources under [backend/]:

    - [text_processor.py]   (class [TextProcessor]): the field extractors,
      built on Python's [re] module;
    - [barcode_service.py]  (class [BarcodeService]): barcode decoding, the
      OpenFoodFacts lookup and the mapping of a product to our record;
    - [ocr_service_advanced.py] (class [OCRServiceAdvanced]): multi-pass OCR
      and the choice of the best pass;
    - [image_processor_advanced.py] ([check_image_quality], resizing and
      deskewing), [image_processor.py] (resizing);
    - [ocr_service.py] (class [OCRService]): the plain and the detailed
      extraction;
    - [main.py] ([upload_image]): barcode first, OCR as the fallback.

    Modelling conventions.

    - Python [str] is [str], a sequence of code points ([char]).  What
      Python does with a character depends on its Unicode database:
      [\s], [\d], [\w], [str.strip], [str.lower], [int], [float] and
      [re.IGNORECASE] all look characters up in it.  Within ASCII these
      are written out here; from code point 128 on they are taken from the
      interpreter, [CPython.runtime], which every definition that needs it
      has as a parameter.  So what is proved holds whatever the database
      says about the other scripts.
    - Python values that travel through JSON are [pyval]; a [dict] is an
      association list in insertion order, as Python keeps it.
    - Python [float]s that come from dividing or parsing integers are kept
      as exact rationals ([Q]); rounding to binary64 is not modelled.
    - Exceptions are the left summand of [exn + A].
    - OpenCV, numpy, pyzbar, pytesseract and requests are collaborators:
      they are [Variable]s of the section that models their caller. *)

From Stdlib Require Import List Bool Arith NArith ZArith QArith Lia.
From Stdlib Require Import Qabs Lqa.
From Stdlib.Strings Require Byte.
Import ListNotations.

Set Warnings "-register-all".

(** ** Characters and strings *)

(** A character is a code point. *)
Inductive char : Type := CodePoint (n : N).

Inductive str : Type :=
| Empty
| Cons (c : char) (s : str).

Declare Scope char_scope.
Delimit Scope char_scope with char.
Bind Scope char_scope with char.

Declare Scope str_scope.
Delimit Scope str_scope with str.
Bind Scope str_scope with str.

(** Literals are written between double quotes and hold ASCII only; any
    other character is written by its code point. *)
Module Literal.

Definition char_of_byte (b : Byte.byte) : option char :=
  let n := Stdlib.Strings.Byte.to_N b in
  if (n <? 128)%N then Some (CodePoint n) else None.

Definition char_of_bytes (bs : list Byte.byte) : option char :=
  match bs with
  | [b] => char_of_byte b
  | _ => None
  end.

Definition byte_of_char (c : char) : option Byte.byte :=
  let (n) := c in
  if (n <? 128)%N then Stdlib.Strings.Byte.of_N n else None.

Definition bytes_of_char (c : char) : option (list Byte.byte) :=
  match byte_of_char c with
  | Some b => Some [b]
  | None => None
  end.

Fixpoint str_of_bytes (bs : list Byte.byte) : option str :=
  match bs with
  | [] => Some Empty
  | b :: bs' =>
      match char_of_byte b, str_of_bytes bs' with
      | Some c, Some s => Some (Cons c s)
      | _, _ => None
      end
  end.

Fixpoint bytes_of_str (s : str) : option (list Byte.byte) :=
  match s with
  | Empty => Some []
  | Cons c s' =>
      match byte_of_char c, bytes_of_str s' with
      | Some b, Some bs => Some (b :: bs)
      | _, _ => None
      end
  end.

End Literal.

String Notation char Literal.char_of_bytes Literal.bytes_of_char : char_scope.
String Notation str Literal.str_of_bytes Literal.bytes_of_str : str_scope.

Local Open Scope str_scope.
Local Open Scope list_scope.

(** ** The interpreter

    What the services take from the interpreter they run on: the Unicode
    database of its version, for the code points from 128 on, and the
    limit it puts on [int]. *)

Module CPython.

Class runtime : Type := Runtime {
  (** [str.isspace]: what [\s] matches and [str.strip] takes off. *)
  isspace : char -> bool;
  (** [unicodedata.decimal(c, None)]: the value of a decimal digit, which
      is what [\d] matches and what [int] and [float] read. *)
  decimal : char -> option nat;
  (** [str.isalnum]: with the underscore, what [\w] matches. *)
  isalnum : char -> bool;
  (** [str.lower] of one character where it stands in a text, between
      what comes [before] it (nearest first) and what comes after: one
      character can become several, and a capital sigma is lowered by
      its neighbours. *)
  lower : str -> char -> str -> str;
  (** [re.IGNORECASE]: whether the pattern character (the first) matches
      the text character (the second) when one of them is not ASCII. *)
  ignorecase : char -> char -> bool;
  (** [sys.get_int_max_str_digits()]: 0 when [int] has no limit. *)
  int_max_str_digits : nat
}.

End CPython.

Module Char.

Definition code (c : char) : N := let (n) := c in n.

Definition eqb (c d : char) : bool := (code c =? code d)%N.

Definition is_ascii (c : char) : bool := (code c <? 128)%N.

Definition between (lo hi : N) (c : char) : bool :=
  (lo <=? code c)%N && (code c <=? hi)%N.

(** [\n] *)
Definition newline : char := CodePoint 10.

Definition is_upper (c : char) : bool := between 65 90 c.   (* A-Z *)
Definition is_lower (c : char) : bool := between 97 122 c.  (* a-z *)
Definition is_letter (c : char) : bool := is_upper c || is_lower c.

(** The two cases of an ASCII letter; any other character is left. *)
Definition ascii_lower (c : char) : char :=
  if is_upper c then CodePoint (code c + 32) else c.

Definition ascii_upper (c : char) : char :=
  if is_lower c then CodePoint (code c - 32) else c.

(** The characters from [lo] to [hi]: [n + 1] of them from [lo] on. *)
Fixpoint span (lo : N) (n : nat) : list char :=
  match n with
  | O => [CodePoint lo]
  | S n' => CodePoint lo :: span (lo + 1) n'
  end.

Definition range (lo hi : char) : list char :=
  if (code hi <? code lo)%N then []
  else span (code lo) (N.to_nat (code hi - code lo)).

Section Classes.

Context {py : CPython.runtime}.

(** [str.isspace]: within ASCII, TAB..CR, FS..US and the space. *)
Definition is_space (c : char) : bool :=
  if is_ascii c then between 9 13 c || between 28 32 c
  else CPython.isspace c.

(** The value of a decimal digit: within ASCII, of [0]..[9]. *)
Definition digit (c : char) : option nat :=
  if is_ascii c then
    if between 48 57 c then Some (N.to_nat (code c - 48)) else None
  else CPython.decimal c.

Definition is_digit (c : char) : bool :=
  match digit c with
  | Some _ => true
  | None => false
  end.

Definition digit_value (c : char) : Z :=
  match digit c with
  | Some v => Z.of_nat v
  | None => 0%Z
  end.

(** [\w]: within ASCII, letters, digits and the underscore. *)
Definition is_word (c : char) : bool :=
  if is_ascii c then is_letter c || between 48 57 c || (code c =? 95)%N
  else CPython.isalnum c.

End Classes.

End Char.

(** ** Strings: the [str] methods the services call *)

Module Str.

Fixpoint length (s : str) : nat :=
  match s with
  | Empty => O
  | Cons _ s' => S (length s')
  end.

(** [s + t] *)
Fixpoint app (s t : str) : str :=
  match s with
  | Empty => t
  | Cons c s' => Cons c (app s' t)
  end.

#[local] Infix "++" := app (right associativity, at level 60) : str_scope.

(** [s == t] *)
Fixpoint eqb (s t : str) : bool :=
  match s, t with
  | Empty, Empty => true
  | Cons c s', Cons d t' => Char.eqb c d && eqb s' t'
  | _, _ => false
  end.

Fixpoint map (f : char -> char) (s : str) : str :=
  match s with
  | Empty => Empty
  | Cons c s' => Cons (f c) (map f s')
  end.

Fixpoint filter (p : char -> bool) (s : str) : str :=
  match s with
  | Empty => Empty
  | Cons c s' => if p c then Cons c (filter p s') else filter p s'
  end.

Fixpoint rev_onto (s acc : str) : str :=
  match s with
  | Empty => acc
  | Cons c s' => rev_onto s' (Cons c acc)
  end.

Definition rev (s : str) : str := rev_onto s Empty.

Definition is_empty (s : str) : bool :=
  match s with Empty => true | Cons _ _ => false end.

(** [s.startswith(p)] *)
Fixpoint startswith (p s : str) : bool :=
  match p, s with
  | Empty, _ => true
  | Cons a p', Cons b s' => Char.eqb a b && startswith p' s'
  | Cons _ _, Empty => false
  end.

(** [p in s] for strings *)
Fixpoint contains (p s : str) : bool :=
  startswith p s ||
  match s with
  | Empty => false
  | Cons _ s' => contains p s'
  end.

Fixpoint drop (n : nat) (s : str) : str :=
  match n, s with
  | O, _ => s
  | S n', Cons _ s' => drop n' s'
  | S _, Empty => Empty
  end.

Fixpoint take (n : nat) (s : str) : str :=
  match n, s with
  | O, _ => Empty
  | S n', Cons c s' => Cons c (take n' s')
  | S _, Empty => Empty
  end.

(** [s.replace(old, new)] for a non-empty [old]: occurrences are found
    from the left and do not overlap.  [skip] counts the characters of an
    occurrence that are still to be passed over. *)
Fixpoint replace_from (old new : str) (skip : nat) (s : str) : str :=
  match s with
  | Empty => Empty
  | Cons c s' =>
      match skip with
      | S n => replace_from old new n s'
      | O =>
          if startswith old s
          then new ++ replace_from old new (length old - 1) s'
          else Cons c (replace_from old new 0 s')
      end
  end.

Definition replace (old new s : str) : str := replace_from old new 0 s.

(** Splitting at every character of a separator class, empty pieces
    kept: [s.split(',')] and [re.split(r'[,;]', s)]. *)
Fixpoint split_on (sep : char -> bool) (s : str) : list str :=
  match s with
  | Empty => [Empty]
  | Cons c s' =>
      if sep c then Empty :: split_on sep s'
      else match split_on sep s' with
           | t :: ts => Cons c t :: ts
           | [] => [Cons c Empty]
           end
  end.

Definition is_char (c : char) : char -> bool := Char.eqb c.

(** The last character of [Cons c s]. *)
Fixpoint last_char (c : char) (s : str) : char :=
  match s with
  | Empty => c
  | Cons d s' => last_char d s'
  end.

(** The characters of a string, one string each: what iterating over a
    [str] yields. *)
Fixpoint chars (s : str) : list str :=
  match s with
  | Empty => []
  | Cons c s' => Cons c Empty :: chars s'
  end.

Section Methods.

Context {py : CPython.runtime}.

(** [s.lower()], character by character: an ASCII letter becomes its
    lower case wherever it stands, any other ASCII character stays; a
    character from 128 on becomes what the database says for the place it
    stands in. *)
Definition lower_char (before : str) (c : char) (after : str) : str :=
  if Char.is_ascii c then Cons (Char.ascii_lower c) Empty
  else CPython.lower before c after.

(** The stretch [s] of a text lowered where it stands: [before] is the
    text in front of it, nearest character first, [after] the text that
    follows it. *)
Fixpoint lower_in (before s after : str) : str :=
  match s with
  | Empty => Empty
  | Cons c s' =>
      lower_char before c (s' ++ after) ++ lower_in (Cons c before) s' after
  end.

(** [s.lower()] *)
Definition lower (s : str) : str := lower_in Empty s Empty.

Fixpoint lstrip (s : str) : str :=
  match s with
  | Empty => Empty
  | Cons c s' => if Char.is_space c then lstrip s' else s
  end.

Definition rstrip (s : str) : str := rev (lstrip (rev s)).

(** [s.strip()] *)
Definition strip (s : str) : str := rstrip (lstrip s).

(** The number a string of decimal digits writes. *)
Fixpoint digits_value (acc : Z) (s : str) : option Z :=
  match s with
  | Empty => Some acc
  | Cons c s' =>
      if Char.is_digit c
      then digits_value (10 * acc + Char.digit_value c)%Z s'
      else None
  end.

(** [int] refuses a string of more digits than the interpreter's limit,
    when there is a limit and the string has more than 640. *)
Definition over_int_limit (s : str) : bool :=
  (640 <? length s)%nat &&
  (0 <? CPython.int_max_str_digits)%nat &&
  (CPython.int_max_str_digits <? length s)%nat.

(** [int(s)] for a string of decimal digits (what [\d+] captures);
    [None] stands for the [ValueError]. *)
Definition to_int (s : str) : option Z :=
  match s with
  | Empty => None
  | Cons _ _ => if over_int_limit s then None else digits_value 0%Z s
  end.

(** [float(s)] for digits, an optional point and more digits (what
    [\d+\.?\d*] captures), as the exact decimal value. *)
Fixpoint span_digits (s : str) : str * str :=
  match s with
  | Empty => (Empty, Empty)
  | Cons c s' =>
      if Char.is_digit c
      then let (d, r) := span_digits s' in (Cons c d, r)
      else (Empty, s)
  end.

Definition to_float (s : str) : option Q :=
  let (ip, r) := span_digits s in
  match r with
  | Empty =>
      match ip with
      | Empty => None
      | Cons _ _ =>
          match digits_value 0%Z ip with
          | Some n => Some (inject_Z n)
          | None => None
          end
      end
  | Cons c fp =>
      if Char.eqb c "." then
        match digits_value 0%Z ip, digits_value 0%Z fp with
        | Some n, Some f =>
            if is_empty ip && is_empty fp then None
            else Some (Qred (inject_Z n +
                             inject_Z f / inject_Z (10 ^ Z.of_nat (length fp))))
        | _, _ => None
        end
      else None
  end.

End Methods.

End Str.

Infix "++" := Str.app (right associativity, at level 60) : str_scope.

(** ** Regular expressions: the fragment of Python's [re] the services use

    A backtracking matcher in continuation-passing style: alternatives are
    tried from the left, [*] is greedy, and the first way of matching that
    lets the rest of the pattern succeed is the match, as in [re].
    [re.search] tries the start positions from the left. *)

Module Re.

(** What stands between the brackets of a class. *)
Inductive item : Type :=
| One (c : char)              (* a character *)
| Range (lo hi : char)        (* lo-hi *)
| Space                       (* \s *)
| Digit                       (* \d *)
| Word.                       (* \w *)

Inductive regex : Type :=
| Eps
| Chr (c : char)                        (* a literal character *)
| Cls (neg : bool) (items : list item)  (* [...] and [^...], \s, \d, \w *)
| Seq (r1 r2 : regex)
| Alt (r1 r2 : regex)                   (* r1|r2 *)
| Star (r : regex)                      (* r*, greedy *)
| Group (r : regex)                     (* (r): capturing group 1 *)
| NotAhead (r : regex)                  (* (?!r) *)
| WordB.                                (* \b *)

(** What a match object is asked for: [group(1)] and where the match ends. *)
Record match_obj : Type := MatchObj {
  m_rest : str;
  m_group1 : option str
}.

Definition kont : Type := option char -> str -> option str -> option match_obj.

Definition accept : kont := fun _ s cap => Some (MatchObj s cap).

(** [match.group(1)].  Every pattern of [TextProcessor] that is asked for
    group 1 has it outside any alternative, so a match always sets it. *)
Definition group1 (m : match_obj) : str :=
  match m_group1 m with Some g => g | None => Empty end.

(** *** Pattern syntax *)

Fixpoint lit (s : str) : regex :=
  match s with
  | Empty => Eps
  | Cons c Empty => Chr c
  | Cons c s' => Seq (Chr c) (lit s')
  end.

Definition opt (r : regex) : regex := Alt r Eps.          (* r? *)
Definition plus (r : regex) : regex := Seq r (Star r).    (* r+ *)
Definition two_or_more (r : regex) : regex := Seq r (Seq r (Star r)). (* r{2,} *)

Definition ws : regex := Cls false [Space].               (* \s *)
Definition digit : regex := Cls false [Digit].            (* \d *)
Definition not_newline : regex := Cls true [One Char.newline]. (* [^\n] *)
Definition capital : regex := Cls false [Range "A" "Z"].  (* [A-Z] *)

Fixpoint seqs (rs : list regex) : regex :=
  match rs with
  | [] => Eps
  | [r] => r
  | r :: rs' => Seq r (seqs rs')
  end.

Section Matcher.

Context {py : CPython.runtime}.

(** A literal under [re.IGNORECASE]: only a letter is matched in either
    case, and between ASCII characters the cases are the ASCII ones;
    whether a character from 128 on is a case of another is for the
    database to say. *)
Definition chr_matches (icase : bool) (c d : char) : bool :=
  if icase then
    if Char.is_ascii c && Char.is_ascii d then
      Char.eqb (Char.ascii_lower c) (Char.ascii_lower d)
    else if Char.is_ascii c && negb (Char.is_letter c) then Char.eqb c d
    else CPython.ignorecase c d
  else Char.eqb c d.

(** A range under [re.IGNORECASE] holds the characters that one of its
    own, as a literal, would match. *)
Definition item_matches (icase : bool) (d : char) (i : item) : bool :=
  match i with
  | One c => chr_matches icase c d
  | Range lo hi =>
      if icase then existsb (fun c => chr_matches true c d) (Char.range lo hi)
      else Char.between (Char.code lo) (Char.code hi) d
  | Space => Char.is_space d
  | Digit => Char.is_digit d
  | Word => Char.is_word d
  end.

(** A class holds a character that one of its items matches; a negated
    class is the complement of that. *)
Definition cls_matches (icase neg : bool) (items : list item) (d : char) : bool :=
  xorb neg (existsb (item_matches icase d) items).

Definition word_before (prev : option char) : bool :=
  match prev with Some c => Char.is_word c | None => false end.

Definition word_after (s : str) : bool :=
  match s with Cons c _ => Char.is_word c | Empty => false end.

(** [rmatch icase r prev s cap k]: match [r] at the front of [s] ([prev] is
    the character before it, [cap] the capture so far) and hand what is
    left to [k]; [None] makes the matcher backtrack. *)
Fixpoint rmatch (icase : bool) (r : regex) (prev : option char) (s : str)
    (cap : option str) (k : kont) {struct r} : option match_obj :=
  match r with
  | Eps => k prev s cap
  | Chr c =>
      match s with
      | Cons d s' => if chr_matches icase c d then k (Some d) s' cap else None
      | Empty => None
      end
  | Cls neg items =>
      match s with
      | Cons d s' => if cls_matches icase neg items d then k (Some d) s' cap else None
      | Empty => None
      end
  | Seq r1 r2 =>
      rmatch icase r1 prev s cap (fun prev' s' cap' => rmatch icase r2 prev' s' cap' k)
  | Alt r1 r2 =>
      match rmatch icase r1 prev s cap k with
      | Some m => Some m
      | None => rmatch icase r2 prev s cap k
      end
  | Star r1 =>
      (fix star (n : nat) (prev : option char) (s : str) (cap : option str)
         {struct n} : option match_obj :=
         match n with
         | O => k prev s cap
         | S n' =>
             match rmatch icase r1 prev s cap
                     (fun prev' s' cap' =>
                        if (Str.length s' <? Str.length s)%nat
                        then star n' prev' s' cap' else None) with
             | Some m => Some m
             | None => k prev s cap
             end
         end) (Str.length s) prev s cap
  | Group r1 =>
      rmatch icase r1 prev s cap
        (fun prev' s' _ =>
           k prev' s' (Some (Str.take (Str.length s - Str.length s') s)))
  | NotAhead r1 =>
      match rmatch icase r1 prev s cap (fun _ s' cap' => Some (MatchObj s' cap')) with
      | Some _ => None
      | None => k prev s cap
      end
  | WordB =>
      if xorb (word_before prev) (word_after s) then k prev s cap else None
  end.

(** [re.match]-like: a match that starts exactly at the front of [s]. *)
Definition match_here (icase : bool) (r : regex) (prev : option char) (s : str)
  : option match_obj :=
  rmatch icase r prev s None accept.

(** The start positions from the left, the end of the text included. *)
Fixpoint search_from (icase : bool) (r : regex) (prev : option char) (s : str)
  : option match_obj :=
  match match_here icase r prev s with
  | Some m => Some m
  | None =>
      match s with
      | Cons c s' => search_from icase r (Some c) s'
      | Empty => None
      end
  end.

(** [re.search(r, s)] and [re.search(r, s, re.IGNORECASE)].  ([re.MULTILINE]
    changes [^] and [$] only, which no pattern here uses.) *)
Definition search (icase : bool) (r : regex) (s : str) : option match_obj :=
  search_from icase r None s.

(** [re.sub(r, repl, s)] for a pattern that matches no empty string: the
    matches are replaced from the left; where none starts the character is
    copied. *)
Fixpoint sub_fuel (fuel : nat) (r : regex) (repl : str) (prev : option char)
    (s : str) : str :=
  match fuel with
  | O => s
  | S fuel' =>
      match s with
      | Empty => Empty
      | Cons c s' =>
          match match_here false r prev s with
          | Some m =>
              if (Str.length (m_rest m) <? Str.length s)%nat
              then repl ++ sub_fuel fuel' r repl
                             (Some (Str.last_char c (Str.take (Str.length s' - Str.length (m_rest m)) s')))
                             (m_rest m)
              else Cons c (sub_fuel fuel' r repl (Some c) s')
          | None => Cons c (sub_fuel fuel' r repl (Some c) s')
          end
      end
  end.

Definition sub (r : regex) (repl s : str) : str :=
  sub_fuel (Str.length s) r repl None s.

End Matcher.

End Re.

(** ** Python values *)

Inductive pyval : Type :=
| PNone
| PBool (b : bool)
| PInt (z : Z)
| PFloat (q : Q)
| PStr (s : str)
| PList (l : list pyval)
| PDict (d : list (str * pyval)).

(** Exceptions, as far as the services tell them apart; [msg] is [str(e)]. *)
Inductive exn : Type :=
| AttributeError (msg : str)
| TypeError (msg : str)
| Timeout (msg : str)          (* requests.exceptions.Timeout *)
| Exception (msg : str).

Definition str_of_exn (e : exn) : str :=
  match e with
  | AttributeError msg | TypeError msg | Timeout msg | Exception msg => msg
  end.

Definition result (A : Type) : Type := (exn + A)%type.

Definition ret {A : Type} (a : A) : result A := inr a.
Definition raise {A : Type} (e : exn) : result A := inl e.

Definition bind {A B : Type} (m : result A) (f : A -> result B) : result B :=
  match m with
  | inl e => inl e
  | inr a => f a
  end.

Notation "x <- m ;; k" := (bind m (fun x => k))
  (at level 61, m at next level, right associativity).

(** [for x in xs: ys.append(f(x))] where [f] may raise. *)
Fixpoint mapM {A B : Type} (f : A -> result B) (l : list A) : result (list B) :=
  match l with
  | [] => ret []
  | a :: l' => b <- f a ;; bs <- mapM f l' ;; ret (b :: bs)
  end.

Module Py.

(** [bool(v)] *)
Definition truthy (v : pyval) : bool :=
  match v with
  | PNone => false
  | PBool b => b
  | PInt z => negb (z =? 0)%Z
  | PFloat q => negb (Qeq_bool q 0)
  | PStr s => negb (Str.is_empty s)
  | PList l => match l with [] => false | _ :: _ => true end
  | PDict d => match d with [] => false | _ :: _ => true end
  end.

(** [a or b] *)
Definition or (a b : pyval) : pyval := if truthy a then a else b.

(** [v is not None] *)
Definition is_not_none (v : pyval) : bool :=
  match v with PNone => false | _ => true end.

(** [v == 1]: Python equates [1], [1.0] and [True]. *)
Definition eq_one (v : pyval) : bool :=
  match v with
  | PInt z => (z =? 1)%Z
  | PFloat q => Qeq_bool q 1
  | PBool b => b
  | _ => false
  end.

End Py.

(** A [dict] in insertion order. *)
Module Dict.

Definition t : Type := list (str * pyval).

Fixpoint lookup (k : str) (d : t) : option pyval :=
  match d with
  | [] => None
  | (k', v) :: d' => if Str.eqb k k' then Some v else lookup k d'
  end.

(** [d.get(k, default)] *)
Definition get_or (d : t) (k : str) (default : pyval) : pyval :=
  match lookup k d with Some v => v | None => default end.

(** [d.get(k)] *)
Definition get (d : t) (k : str) : pyval := get_or d k PNone.

(** [d[k] = v]: a present key keeps its place, a new one goes last. *)
Fixpoint set (d : t) (k : str) (v : pyval) : t :=
  match d with
  | [] => [(k, v)]
  | (k', v') :: d' =>
      if Str.eqb k k' then (k', v) :: d' else (k', v') :: set d' k v
  end.

(** [list(d.keys())] *)
Definition keys (d : t) : list str := List.map fst d.

End Dict.

(** [v.get(k, default)] on any value: only a [dict] has [get]. *)
Definition py_get (v : pyval) (k : str) (default : pyval) : result pyval :=
  match v with
  | PDict d => ret (Dict.get_or d k default)
  | _ => raise (AttributeError "object has no attribute 'get'")
  end.

(** The top-level keys of a record. *)
Definition keys_of (v : pyval) : list str :=
  match v with
  | PDict d => Dict.keys d
  | _ => []
  end.

(** [v[k]] read back from a record, when it is a [dict] holding [k]. *)
Definition field (k : str) (v : pyval) : option pyval :=
  match v with
  | PDict d => Dict.lookup k d
  | _ => None
  end.

(** [v[k1][k2]], likewise. *)
Definition field2 (k1 k2 : str) (v : pyval) : option pyval :=
  match field k1 v with
  | Some inner => field k2 inner
  | None => None
  end.

(** ** [text_processor.py]: class [TextProcessor] *)

Module TextProcessor.

Import Re.

Definition ws_star : regex := Star ws.                                (* \s* *)
Definition colon_opt : regex := opt (Chr ":").                         (* :? *)
Definition sep : regex := seqs [ws_star; colon_opt; ws_star].          (* \s*:?\s* *)
Definition digits : regex := plus digit.                               (* \d+ *)
Definition number : regex := seqs [plus digit; opt (Chr "."); Star digit]. (* \d+\.?\d* *)
Definition rest_of_line : regex := plus not_newline.                   (* [^\n]+ *)
Definition kcal_or_cal : regex := Alt (lit "kcal") (lit "cal").        (* (?:kcal|cal) *)

(** [self.calorie_patterns] *)
Definition calorie_patterns : list regex :=
  [ seqs [lit "calorie"; opt (Chr "s"); sep; Group digits];
    seqs [lit "energy"; sep; Group digits; ws_star; kcal_or_cal];
    seqs [Group digits; ws_star; kcal_or_cal];
    seqs [lit "caloric"; plus ws; lit "value"; sep; Group digits] ].

(** [self.serving_patterns] *)
Definition serving_patterns : list regex :=
  [ seqs [lit "serving"; plus ws; lit "size"; sep; Group rest_of_line];
    seqs [lit "portion"; sep; Group rest_of_line];
    seqs [lit "per"; plus ws;
          Group (seqs [digits; ws_star;
                       Alt (lit "g") (Alt (lit "ml") (Alt (lit "oz") (lit "cup")))])] ].

(** [self.ingredient_patterns] *)
Definition ingredient_patterns : list regex :=
  [ seqs [lit "ingredient"; opt (Chr "s"); sep;
          Group (seqs [rest_of_line;
                       Star (seqs [Chr Char.newline; NotAhead (two_or_more capital);
                                   rest_of_line])])];
    seqs [lit "contain"; opt (Chr "s"); sep; Group rest_of_line] ].

(** The class [_clean_text] keeps: [\w\s\.\,\:\;\-\(\)\%\/]. *)
Definition kept_class : list item :=
  [ Word; Space; One "."; One ","; One ":"; One ";"; One "-"; One "("; One ")";
    One "%"; One "/" ].

Section Extractors.

Context {py : CPython.runtime}.

Definition _clean_text (text : str) : str :=
  let text := sub (plus ws) " " text in
  let text := sub (Cls true kept_class) "" text in
  Str.strip text.

Definition calories_found (v : Z) : pyval :=
  PDict [("value", PInt v); ("unit", PStr "kcal"); ("found", PBool true)].

Definition calories_missing : pyval :=
  PDict [("value", PNone); ("unit", PStr "kcal"); ("found", PBool false)].

(** The loop of [_extract_calories]: the first pattern that matches and
    whose group converts with [int] decides; a [ValueError] moves on. *)
Fixpoint calories_loop (patterns : list regex) (text_lower : str) : pyval :=
  match patterns with
  | [] => calories_missing
  | pattern :: patterns' =>
      match search true pattern text_lower with
      | Some m =>
          match Str.to_int (group1 m) with
          | Some calorie_value => calories_found calorie_value
          | None => calories_loop patterns' text_lower
          end
      | None => calories_loop patterns' text_lower
      end
  end.

Definition _extract_calories (text : str) : pyval :=
  let text_lower := Str.lower text in
  calories_loop calorie_patterns text_lower.

Fixpoint serving_loop (patterns : list regex) (text_lower : str) : pyval :=
  match patterns with
  | [] => PDict [("value", PNone); ("found", PBool false)]
  | pattern :: patterns' =>
      match search true pattern text_lower with
      | Some m =>
          let serving := Str.strip (group1 m) in
          PDict [("value", PStr serving); ("found", PBool true)]
      | None => serving_loop patterns' text_lower
      end
  end.

Definition _extract_serving_size (text : str) : pyval :=
  let text_lower := Str.lower text in
  serving_loop serving_patterns text_lower.

Definition is_separator (c : char) : bool :=
  Char.eqb c "," || Char.eqb c ";".

(** [[ing.strip() for ing in re.split(r'[,;]', t) if ing.strip()]] *)
Definition ingredient_tokens (ingredients_text : str) : list str :=
  List.map Str.strip
    (List.filter (fun ing => negb (Str.is_empty (Str.strip ing)))
       (Str.split_on is_separator ingredients_text)).

Fixpoint ingredients_loop (patterns : list regex) (text : str) : pyval :=
  match patterns with
  | [] => PDict [("list", PList []); ("raw", PNone); ("found", PBool false)]
  | pattern :: patterns' =>
      match search true pattern text with
      | Some m =>
          let ingredients_text := Str.strip (group1 m) in
          let ingredient_list := ingredient_tokens ingredients_text in
          PDict [("list", PList (List.map PStr ingredient_list));
                 ("raw", PStr ingredients_text);
                 ("found", PBool true)]
      | None => ingredients_loop patterns' text
      end
  end.

Definition _extract_ingredients (text : str) : pyval :=
  ingredients_loop ingredient_patterns text.

Definition total_opt : regex := opt (seqs [lit "total"; plus ws]).     (* (?:total\s+)? *)
Definition grams : regex := seqs [ws_star; Chr "g"].                   (* \s*g *)

(** The [nutrients] table of [_extract_nutrition_facts], in its order. *)
Definition nutrients : list (str * list regex) :=
  [ ("protein",
      [ seqs [lit "protein"; sep; Group number; grams];
        seqs [lit "protein"; opt (Chr "s"); ws_star; Group number] ]);
    ("fat",
      [ seqs [total_opt; lit "fat"; sep; Group number; grams];
        seqs [lit "fat"; opt (Chr "s"); ws_star; Group number] ]);
    ("carbohydrates",
      [ seqs [total_opt; lit "carbohydrate"; sep; Group number; grams];
        seqs [lit "carb"; opt (Chr "s"); ws_star; Group number] ]);
    ("sugar",
      [ seqs [lit "sugar"; opt (Chr "s"); sep; Group number; grams];
        seqs [lit "sugar"; ws_star; Group number] ]);
    ("fiber",
      [ seqs [opt (seqs [lit "dietary"; plus ws]); lit "fiber"; sep; Group number; grams];
        seqs [lit "fibre"; ws_star; Group number] ]);
    ("sodium",
      [ seqs [lit "sodium"; sep; Group number; ws_star; Alt (lit "mg") (lit "g")];
        seqs [lit "salt"; ws_star; Group number] ]) ].

(** The inner loop: the first pattern that matches and whose group
    converts with [float] gives the value. *)
Fixpoint nutrient_value (patterns : list regex) (text_lower : str) : option Q :=
  match patterns with
  | [] => None
  | pattern :: patterns' =>
      match search true pattern text_lower with
      | Some m =>
          match Str.to_float (group1 m) with
          | Some value => Some value
          | None => nutrient_value patterns' text_lower
          end
      | None => nutrient_value patterns' text_lower
      end
  end.

Definition nutrient_unit (nutrient : str) : str :=
  if negb (Str.eqb nutrient "sodium") then "g" else "mg".

Definition nutrient_entry (nutrient : str) (value : Q) : pyval :=
  PDict [("value", PFloat value); ("unit", PStr (nutrient_unit nutrient))].

(** The outer loop, over the table. *)
Fixpoint nutrition_loop (table : list (str * list regex)) (text_lower : str)
    (nutrition : Dict.t) : Dict.t :=
  match table with
  | [] => nutrition
  | (nutrient, patterns) :: table' =>
      match nutrient_value patterns text_lower with
      | Some value =>
          nutrition_loop table' text_lower
            (Dict.set nutrition nutrient (nutrient_entry nutrient value))
      | None => nutrition_loop table' text_lower nutrition
      end
  end.

Definition nutrition_of (text : str) : Dict.t :=
  let text_lower := Str.lower text in
  nutrition_loop nutrients text_lower [].

Definition _extract_nutrition_facts (text : str) : pyval :=
  PDict (nutrition_of text).

Definition common_allergens : list str :=
  [ "milk"; "eggs"; "fish"; "shellfish"; "tree nuts"; "peanuts";
    "wheat"; "soybeans"; "soy"; "gluten"; "sesame"; "mustard" ].

Definition allergen_section_pattern : regex :=
  seqs [ Alt (seqs [lit "contain"; opt (Chr "s")])
             (Alt (seqs [lit "allergen"; opt (Chr "s")]) (lit "may contain"));
         sep; Group rest_of_line ].

(** [list(set(xs))]: the members once each.  Python leaves their order
    open; the model keeps the order of first occurrence. *)
Fixpoint dedup (xs : list str) : list str :=
  match xs with
  | [] => []
  | x :: xs' => x :: List.filter (fun y => negb (Str.eqb x y)) (dedup xs')
  end.

Definition _extract_allergens (text : str) : pyval :=
  let text_lower := Str.lower text in
  let found_allergens :=
    match search true allergen_section_pattern text_lower with
    | Some allergen_section =>
        let allergen_text := group1 allergen_section in
        List.filter (fun allergen => Str.contains allergen allergen_text)
          common_allergens
    | None =>
        List.filter
          (fun allergen =>
             match search false (seqs [WordB; lit allergen; WordB]) text_lower with
             | Some _ => true
             | None => false
             end)
          common_allergens
    end in
  PDict [("list", PList (List.map PStr (dedup found_allergens)));
         ("found", PBool (0 <? List.length found_allergens)%nat)].

(** The dict [extract_food_data] builds, as its items. *)
Definition food_data (text : str) : Dict.t :=
  let cleaned_text := _clean_text text in
  let calories := _extract_calories cleaned_text in
  let serving_size := _extract_serving_size cleaned_text in
  let ingredients := _extract_ingredients cleaned_text in
  let nutrition_facts := _extract_nutrition_facts cleaned_text in
  let allergens := _extract_allergens cleaned_text in
  [("calories", calories);
   ("serving_size", serving_size);
   ("ingredients", ingredients);
   ("nutrition_facts", nutrition_facts);
   ("allergens", allergens)].

Definition extract_food_data (text : str) : pyval := PDict (food_data text).

End Extractors.

End TextProcessor.

(** [str(n)] for a natural number, as an f-string prints it. *)
Fixpoint str_of_uint (d : Decimal.uint) : str :=
  match d with
  | Decimal.Nil => Empty
  | Decimal.D0 d' => Cons "0" (str_of_uint d')
  | Decimal.D1 d' => Cons "1" (str_of_uint d')
  | Decimal.D2 d' => Cons "2" (str_of_uint d')
  | Decimal.D3 d' => Cons "3" (str_of_uint d')
  | Decimal.D4 d' => Cons "4" (str_of_uint d')
  | Decimal.D5 d' => Cons "5" (str_of_uint d')
  | Decimal.D6 d' => Cons "6" (str_of_uint d')
  | Decimal.D7 d' => Cons "7" (str_of_uint d')
  | Decimal.D8 d' => Cons "8" (str_of_uint d')
  | Decimal.D9 d' => Cons "9" (str_of_uint d')
  end.

Definition str_of_nat (n : nat) : str := str_of_uint (Nat.to_uint n).

Definition Qlt_bool (x y : Q) : bool := negb (Qle_bool y x).

(** ** [ocr_service_advanced.py]: class [OCRServiceAdvanced] *)

Module OCRServiceAdvanced.

(** What [pytesseract.image_to_data(..., output_type=Output.DICT)] gives
    and the service reads: [data['conf']], each entry as [int(c)] reads it,
    and [data['text']]. *)
Record ocr_data : Type := OcrData {
  data_conf : list Z;
  data_text : list str
}.

(** The dict a pass returns. *)
Record ocr_result : Type := OcrResult {
  text : str;
  confidence : Q;
  word_count : Z;
  method : str
}.

(** [self.psm_modes] *)
Definition psm_modes : list nat := [6; 3; 4; 11; 12]%nat.

(** [sum(xs)]: Python adds from the left, starting at 0. *)
Definition py_sum (xs : list Z) : Z := fold_left Z.add xs 0%Z.

(** [[int(c) for c in data['conf'] if int(c) > 0]] *)
Definition positive_confidences (conf : list Z) : list Z :=
  List.filter (fun c => (0 <? c)%Z) conf.

(** [sum(confidences) / len(confidences) if confidences else 0] *)
Definition avg_of (confidences : list Z) : Q :=
  match confidences with
  | [] => 0
  | _ :: _ =>
      inject_Z (py_sum confidences) / inject_Z (Z.of_nat (List.length confidences))
  end.

(** [if result:] on what a pass returned: [None] is falsy, and the dict of
    a pass has four keys, so it is truthy whatever they hold. *)
Definition result_truthy (result : option ocr_result) : bool :=
  match result with
  | Some _ => true
  | None => false
  end.

(** [max(results, key=lambda x: x['confidence'])] on a non-empty list: the
    running maximum is replaced only by a strictly greater key. *)
Fixpoint max_by_confidence (best : ocr_result) (rest : list ocr_result) : ocr_result :=
  match rest with
  | [] => best
  | r :: rest' =>
      max_by_confidence (if Qlt_bool (confidence best) (confidence r) then r else best)
        rest'
  end.

(** Lines 52-60 of [extract_text_robust]: the choice among the results. *)
Definition best_text (results : list ocr_result) : str :=
  match results with
  | [] => Empty
  | r :: rest => text (max_by_confidence r rest)
  end.

(** [f'--oem 3 --psm {psm_mode} -l eng'] *)
Definition pass_config (psm_mode : nat) : str :=
  ("--oem 3 --psm " ++ str_of_nat psm_mode ++ " -l eng")%str.

Section Service.

Context {py : CPython.runtime}.

Variable image : Type.

(** [pytesseract.image_to_string] and [image_to_data] on an image with a
    config string; either may raise. *)
Variable image_to_string : image -> str -> result str.
Variable image_to_data : image -> str -> result ocr_data.

(** [len([w for w in data['text'] if w.strip()])] *)
Definition count_words (words : list str) : Z :=
  Z.of_nat (List.length
              (List.filter (fun w => negb (Str.is_empty (Str.strip w))) words)).

Definition _ocr_single_pass (img : image) (psm_mode : nat) (method_name : str)
  : option ocr_result :=
  let config := pass_config psm_mode in
  let attempt : result ocr_result :=
    text <- image_to_string img config ;;
    data <- image_to_data img config ;;
    let confidences := positive_confidences (data_conf data) in
    let avg_confidence := avg_of confidences in
    let word_count := count_words (data_text data) in
    ret (OcrResult text avg_confidence word_count
           (method_name ++ "_psm" ++ str_of_nat psm_mode)%str) in
  match attempt with
  | inr r => Some r
  | inl _ => None
  end.

(** One turn of the inner loop: [results.append(result)] under [if result:]. *)
Definition pass_results (img : image) (method_name : str) (psm : nat)
  : list ocr_result :=
  let result := _ocr_single_pass img psm method_name in
  if result_truthy result
  then match result with Some r => [r] | None => [] end
  else [].

(** Lines 36-50 of [extract_text_robust]: all passes, in generation order.
    [preprocessed_variations] is a dict of named images or [None]. *)
Definition run_passes (img : image)
    (preprocessed_variations : option (list (str * image))) : list ocr_result :=
  match preprocessed_variations with
  | Some ((_ :: _) as variations) =>
      List.flat_map
        (fun '(method_name, img') =>
           List.flat_map (pass_results img' method_name) psm_modes)
        variations
  | _ => List.flat_map (pass_results img "default") psm_modes
  end.

Definition extract_text_robust (img : image)
    (preprocessed_variations : option (list (str * image))) : str :=
  best_text (run_passes img preprocessed_variations).

End Service.

End OCRServiceAdvanced.

(** ** [image_processor_advanced.py]: [check_image_quality] *)

Module ImageProcessorAdvanced.

Record metrics : Type := Metrics {
  brightness : Q;
  blur_score : Q;
  contrast : Q;
  resolution : str
}.

Record quality_report : Type := QualityReport {
  suitable : bool;
  quality_score : Z;
  issues : list str;
  report_metrics : metrics
}.

(** [xs.append(x)] under [if c:] *)
Definition append_if (c : bool) (x : str) (xs : list str) : list str :=
  if c then xs ++ [x] else xs.

Definition deduct (c : bool) (d score : Z) : Z :=
  if c then (score - d)%Z else score.

Section Quality.

(** A raster is a decoded image, grey (two axes) or colour (three). *)
Variable raster : Type.
Variable is_color : raster -> bool.          (* len(image.shape) == 3 *)
Variable cvtColor_gray : raster -> raster.   (* cv2.cvtColor(image, COLOR_BGR2GRAY) *)
Variable np_mean : raster -> Q.              (* np.mean(gray) *)
Variable laplacian_variance : raster -> Q.   (* cv2.Laplacian(gray, CV_64F).var() *)
Variable np_std : raster -> Q.               (* gray.std() *)
Variable shape : raster -> nat * nat.        (* height, width = gray.shape *)
Variable round2 : Q -> Q.                    (* round(x, 2) *)

Definition check_image_quality (image : raster) : quality_report :=
  let issues := [] in
  let gray := if is_color image then cvtColor_gray image else image in
  let mean_brightness := np_mean gray in
  let issues :=
    if Qlt_bool mean_brightness 40
    then issues ++ ["Image too dark - use better lighting"]
    else if Qlt_bool 215 mean_brightness
    then issues ++ ["Image too bright/overexposed - reduce lighting"]
    else issues in
  let laplacian_var := laplacian_variance gray in
  let issues :=
    append_if (Qlt_bool laplacian_var 100)
      "Image too blurry - hold camera steady and focus on text" issues in
  let contrast := np_std gray in
  let issues :=
    append_if (Qlt_bool contrast 30)
      "Low contrast - improve lighting or try different angle" issues in
  let '(height, width) := shape gray in
  let issues :=
    append_if ((width <? 800)%nat || (height <? 600)%nat)
      "Image resolution too low - get closer to the text" issues in
  let quality_score := 100%Z in
  let quality_score :=
    deduct (Qlt_bool mean_brightness 40 || Qlt_bool 215 mean_brightness) 30
      quality_score in
  let quality_score := deduct (Qlt_bool laplacian_var 100) 40 quality_score in
  let quality_score := deduct (Qlt_bool contrast 30) 20 quality_score in
  let quality_score := deduct (width <? 800)%nat 10 quality_score in
  QualityReport
    (List.length issues =? 0)%nat
    (Z.max 0 quality_score)
    issues
    (Metrics (round2 mean_brightness) (round2 laplacian_var) (round2 contrast)
       (str_of_nat width ++ "x" ++ str_of_nat height)%str).

End Quality.

End ImageProcessorAdvanced.

(** ** [barcode_service.py]: class [BarcodeService] *)

Module BarcodeService.

Definition api_base_url : str := "https://tr.openfoodfacts.org/api/v2/product".

(** A symbol [pyzbar.decode] found: [data.decode('utf-8')] (which may
    raise) and [type]. *)
Record symbol : Type := Symbol {
  symbol_data : result str;
  symbol_type : str
}.

(** What [requests.get(url, timeout=5)] comes to: it raises (a [Timeout]
    among others), or there is a response with its [status_code] and what
    [response.json()] gives, which raises on a body that is not JSON. *)
Inductive http_outcome : Type :=
| Raises (e : exn)
| Response (status_code : Z) (json : result pyval).

(** [nutrient_map] of [_extract_nutrition_facts], in its order. *)
Definition nutrient_map : list (str * list str) :=
  [ ("protein", ["proteins_100g"; "proteins"]);
    ("fat", ["fat_100g"; "fat"]);
    ("saturated_fat", ["saturated-fat_100g"; "saturated-fat"]);
    ("carbohydrates", ["carbohydrates_100g"; "carbohydrates"]);
    ("sugars", ["sugars_100g"; "sugars"]);
    ("fiber", ["fiber_100g"; "fiber"]);
    ("sodium", ["sodium_100g"; "sodium"]);
    ("salt", ["salt_100g"; "salt"]) ].

(** The inner loop: the first key whose value is not [None]. *)
Fixpoint first_present (nutriments : pyval) (keys : list str)
  : result (option pyval) :=
  match keys with
  | [] => ret None
  | key :: keys' =>
      value <- py_get nutriments key PNone ;;
      if Py.is_not_none value then ret (Some value)
      else first_present nutriments keys'
  end.

Definition nutrient_unit (nutrient : str) : str :=
  if Str.eqb nutrient "sodium" || Str.eqb nutrient "salt" then "mg" else "g".

Fixpoint nutrition_loop (table : list (str * list str)) (nutriments : pyval)
    (nutrition : Dict.t) : result Dict.t :=
  match table with
  | [] => ret nutrition
  | (nutrient, keys) :: table' =>
      found <- first_present nutriments keys ;;
      match found with
      | Some value =>
          nutrition_loop table' nutriments
            (Dict.set nutrition nutrient
               (PDict [("value", value); ("unit", PStr (nutrient_unit nutrient))]))
      | None => nutrition_loop table' nutriments nutrition
      end
  end.

Definition _extract_nutrition_facts (nutriments : pyval) : result pyval :=
  nutrition <- nutrition_loop nutrient_map nutriments [] ;;
  ret (PDict nutrition).

Section Mapper.

Context {py : CPython.runtime}.

(** [[ing.strip() for ing in t.replace(';', ',').split(',')]] *)
Definition ingredient_tokens (ingredients_text : str) : list str :=
  List.map Str.strip
    (Str.split_on (Str.is_char ",") (Str.replace ";" "," ingredients_text)).

(** The ingredients list: empty unless the text is truthy; only a [str]
    has [replace]. *)
Definition ingredients_list_of (ingredients_text : pyval) : result (list pyval) :=
  if Py.truthy ingredients_text then
    match ingredients_text with
    | PStr t => ret (List.map PStr (ingredient_tokens t))
    | _ => raise (AttributeError "object has no attribute 'replace'")
    end
  else ret [].

(** [for tag in v]: a list gives its items, a [str] its characters, a
    [dict] its keys; nothing else can be iterated. *)
Definition py_iter (v : pyval) : result (list pyval) :=
  match v with
  | PList l => ret l
  | PStr s => ret (List.map PStr (Str.chars s))
  | PDict d => ret (List.map PStr (Dict.keys d))
  | _ => raise (TypeError "object is not iterable")
  end.

(** [tag.replace('en:', '').replace('-', ' ')] *)
Definition normalize_tag (tag : pyval) : result pyval :=
  match tag with
  | PStr t => ret (PStr (Str.replace "-" " " (Str.replace "en:" "" t)))
  | _ => raise (AttributeError "object has no attribute 'replace'")
  end.

Definition _extract_product_data (product : pyval) : result pyval :=
  nutriments <- py_get product "nutriments" (PDict []) ;;
  kcal_100g <- py_get nutriments "energy-kcal_100g" PNone ;;
  kcal <- py_get nutriments "energy-kcal" PNone ;;
  let calories_value := Py.or kcal_100g kcal in
  calories_serving <- py_get nutriments "energy-kcal_serving" PNone ;;
  size <- py_get product "serving_size" PNone ;;
  quantity <- py_get product "serving_quantity" PNone ;;
  let serving_size := Py.or size quantity in
  text <- py_get product "ingredients_text" PNone ;;
  text_tr <- py_get product "ingredients_text_tr" PNone ;;
  let ingredients_text := Py.or text text_tr in
  ingredients_list <- ingredients_list_of ingredients_text ;;
  allergens_tags <- py_get product "allergens_tags" (PList []) ;;
  tags <- py_iter allergens_tags ;;
  allergens_list <- mapM normalize_tag tags ;;
  code <- py_get product "code" PNone ;;
  name <- py_get product "product_name" PNone ;;
  name_tr <- py_get product "product_name_tr" PNone ;;
  brands <- py_get product "brands" PNone ;;
  categories <- py_get product "categories" PNone ;;
  image_url <- py_get product "image_url" PNone ;;
  nutrition_facts <- _extract_nutrition_facts nutriments ;;
  labels <- py_get product "labels_tags" (PList []) ;;
  nova_group <- py_get product "nova_group" PNone ;;
  nutriscore_grade <- py_get product "nutriscore_grade" PNone ;;
  ret (PDict
    [ ("source", PStr "openfoodfacts");
      ("barcode", code);
      ("product_name", Py.or name name_tr);
      ("brands", brands);
      ("categories", categories);
      ("image_url", image_url);
      ("calories",
        PDict [ ("value", calories_value);
                ("value_serving", calories_serving);
                ("unit", PStr "kcal");
                ("found", PBool (Py.is_not_none calories_value)) ]);
      ("serving_size",
        PDict [ ("value", serving_size);
                ("found", PBool (Py.is_not_none serving_size)) ]);
      ("ingredients",
        PDict [ ("list", PList ingredients_list);
                ("raw", ingredients_text);
                ("found", PBool (Py.truthy ingredients_text)) ]);
      ("nutrition_facts", nutrition_facts);
      ("allergens",
        PDict [ ("list", PList allergens_list);
                ("found", PBool (Py.truthy (PList allergens_list))) ]);
      ("labels", labels);
      ("nova_group", nova_group);
      ("nutriscore_grade", nutriscore_grade) ]).

(** The body of [get_product_info] once a response with status 200 is
    there; whatever it raises is caught by the caller's [except]. *)
Definition product_of_body (json : result pyval) : result pyval :=
  data <- json ;;
  status <- py_get data "status" PNone ;;
  if Py.eq_one status then
    product <- py_get data "product" PNone ;;
    if Py.truthy product then
      _ <- py_get product "product_name" (PStr "Unknown") ;;
      _extract_product_data product
    else ret PNone
  else ret PNone.

End Mapper.

Section Service.

Context {py : CPython.runtime}.

Variable image : Type.
Variable is_color : image -> bool.                      (* len(image.shape) == 3 *)
Variable cvtColor_gray : image -> result image.         (* cv2.cvtColor *)
Variable pyzbar_decode : image -> result (list symbol). (* pyzbar.decode *)
Variable requests_get : str -> http_outcome.         (* requests.get(url, timeout=5) *)

(** The barcode string, or [None]. *)
Definition detect_barcode (img : image) : option str :=
  let attempt : result (option str) :=
    gray <- (if is_color img then cvtColor_gray img else ret img) ;;
    barcodes <- pyzbar_decode gray ;;
    match barcodes with
    | first :: _ =>
        barcode_data <- symbol_data first ;;
        ret (Some barcode_data)
    | [] => ret None
    end in
  match attempt with
  | inr found => found
  | inl _ => None
  end.

(** The product record, or [PNone]. *)
Definition get_product_info (barcode : str) : pyval :=
  let url := (api_base_url ++ "/" ++ barcode)%str in
  match requests_get url with
  | Raises (Timeout _) => PNone
  | Raises _ => PNone
  | Response status_code json =>
      if (status_code =? 200)%Z then
        match product_of_body json with
        | inr v => v
        | inl _ => PNone
        end
      else PNone
  end.

Definition scan_and_fetch (img : image) : pyval :=
  match detect_barcode img with
  | Some barcode =>
      if Py.truthy (PStr barcode) then get_product_info barcode else PNone
  | None => PNone
  end.

End Service.

End BarcodeService.

(** ** [main.py]: the [upload_image] endpoint *)

Module Main.

Record upload_file : Type := UploadFile {
  content_type : option str;
  contents : str
}.

(** How a request ends: an [HTTPException] or a [JSONResponse]. *)
Inductive reply : Type :=
| HTTPException (status_code : Z) (detail : str)
| JSONResponse (content : pyval).

(** The handler's [except Exception as e]. *)
Definition internal_error (e : exn) : reply :=
  HTTPException 500 ("Error processing image: " ++ str_of_exn e)%str.

Section Endpoint.

Context {py : CPython.runtime}.

Variable image : Type.
Variable imdecode : str -> result (option image).    (* np.frombuffer, cv2.imdecode *)
Variable is_color : image -> bool.
Variable cvtColor_gray : image -> result image.
Variable pyzbar_decode : image -> result (list BarcodeService.symbol).
Variable requests_get : str -> BarcodeService.http_outcome.
Variable preprocess : image -> result image.            (* ImageProcessor.preprocess *)
Variable extract_text : image -> result str.         (* OCRService.extract_text *)

Definition barcode_reply (barcode_data : pyval) : reply :=
  JSONResponse (PDict
    [ ("success", PBool true);
      ("message", PStr "Product found via barcode from OpenFoodFacts");
      ("method", PStr "barcode");
      ("data", barcode_data) ]).

(** Step 2 of the handler: lines 86-117. *)
Definition ocr_fallback (img : image) : reply :=
  match (processed_image <- preprocess img ;; extract_text processed_image) with
  | inl e => internal_error e
  | inr raw_text =>
      if Str.is_empty (Str.strip raw_text) then
        JSONResponse (PDict
          [ ("success", PBool false);
            ("message", PStr "No barcode found and no text detected in image");
            ("method", PStr "ocr");
            ("data", PNone) ])
      else
        let structured_data := TextProcessor.food_data raw_text in
        let structured_data := Dict.set structured_data "source" (PStr "ocr") in
        JSONResponse (PDict
          [ ("success", PBool true);
            ("message", PStr "Image processed successfully via OCR");
            ("method", PStr "ocr");
            ("data", PDict structured_data);
            ("raw_text", PStr (Str.take 500 raw_text)) ])
  end.

(** Steps 1 and 2, on the decoded image. *)
Definition process_image (img : image) : reply :=
  let barcode_data :=
    BarcodeService.scan_and_fetch image is_color cvtColor_gray pyzbar_decode
      requests_get img in
  if Py.truthy barcode_data then barcode_reply barcode_data
  else ocr_fallback img.

Definition upload_image (file : upload_file) : reply :=
  match content_type file with
  | None =>
      internal_error (AttributeError "'NoneType' object has no attribute 'startswith'")
  | Some ct =>
      if negb (Str.startswith "image/" ct) then
        HTTPException 400 "File must be an image"
      else
        match imdecode (contents file) with
        | inl e => internal_error e
        | inr None => HTTPException 400 "Invalid image file"
        | inr (Some img) => process_image img
        end
  end.

End Endpoint.

End Main.

(** ** Vocabulary of the properties *)

Module Spec.

(** The sum and the number of the strictly positive entries: the two
    halves of "the mean of the strictly positive token confidences". *)
Fixpoint positive_sum (conf : list Z) : Z :=
  match conf with
  | [] => 0%Z
  | c :: conf' =>
      if (0 <? c)%Z then (c + positive_sum conf')%Z else positive_sum conf'
  end.

Fixpoint positive_count (conf : list Z) : Z :=
  match conf with
  | [] => 0%Z
  | c :: conf' =>
      if (0 <? c)%Z then (1 + positive_count conf')%Z else positive_count conf'
  end.

Definition mean_of_positive (conf : list Z) : Q :=
  inject_Z (positive_sum conf) / inject_Z (positive_count conf).

(** The named images the passes run on: the variations when there are
    some, else the primary image under the name [default]. *)
Definition candidates {image : Type} (img : image)
    (preprocessed_variations : option (list (str * image))) : list (str * image) :=
  match preprocessed_variations with
  | Some ((_ :: _) as variations) => variations
  | _ => [("default", img)]
  end.

(** What a triggered condition takes off the quality score. *)
Definition deduction (triggered : bool) (points : Z) : Z :=
  if triggered then points else 0%Z.

(** The top-level keys of the two kinds of record. *)
Definition barcode_keys : list str :=
  [ "source"; "barcode"; "product_name"; "brands"; "categories"; "image_url";
    "calories"; "serving_size"; "ingredients"; "nutrition_facts"; "allergens";
    "labels"; "nova_group"; "nutriscore_grade" ].

Definition ocr_keys : list str :=
  [ "calories"; "serving_size"; "ingredients"; "nutrition_facts"; "allergens";
    "source" ].

(** A reply that carries a record [data] obtained by [method]. *)
Definition resolved_by (method : str) (r : Main.reply) (data : pyval) : Prop :=
  exists content,
    r = Main.JSONResponse content /\
    field "success" content = Some (PBool true) /\
    field "method" content = Some (PStr method) /\
    field "data" content = Some data.

(** Two separators side by side somewhere in the text. *)
Fixpoint consecutive_separators (s : str) : bool :=
  match s with
  | Empty => false
  | Cons a s' =>
      match s' with
      | Empty => false
      | Cons b _ =>
          (TextProcessor.is_separator a && TextProcessor.is_separator b)
          || consecutive_separators s'
      end
  end.

(** A separator as the last character of the text. *)
Fixpoint trailing_separator (s : str) : bool :=
  match s with
  | Empty => false
  | Cons a s' =>
      match s' with
      | Empty => TextProcessor.is_separator a
      | Cons _ _ => trailing_separator s'
      end
  end.

(** [replace(';', ',')], character by character, and the pieces the
    barcode path splits an ingredients text into. *)
Definition comma_for_semicolon (c : char) : char :=
  if Char.eqb ";" c then "," else c.

Definition pieces (s : str) : list str :=
  Str.split_on (Str.is_char ",") (Str.map comma_for_semicolon s).


Section Readings.

Context {py : CPython.runtime}.



End Readings.

(** The ways a lookup fails: [requests.get] raises (a timeout or anything
    else), the status is outside 2xx, the body is not JSON or not a JSON
    object, or the body's [status] is not 1. *)
Inductive lookup_failure : BarcodeService.http_outcome -> Prop :=
| FailTimeout (msg : str) :
    lookup_failure (BarcodeService.Raises (Timeout msg))
| FailRaised (e : exn) :
    lookup_failure (BarcodeService.Raises e)
| FailStatus (status_code : Z) (json : result pyval) :
    (status_code < 200 \/ 300 <= status_code)%Z ->
    lookup_failure (BarcodeService.Response status_code json)
| FailMalformed (status_code : Z) (e : exn) :
    lookup_failure (BarcodeService.Response status_code (inl e))
| FailShape (status_code : Z) (v : pyval) :
    (forall d, v <> PDict d) ->
    lookup_failure (BarcodeService.Response status_code (inr v))
| FailNotFound (status_code : Z) (d : Dict.t) :
    Py.eq_one (Dict.get d "status") = false ->
    lookup_failure (BarcodeService.Response status_code (inr (PDict d))).

End Spec.

(** ** Sample inputs *)

Module Sample.

(** An excerpt of the Unicode database as CPython 3.11 has it: all its
    white space, its letters, digits and lower cases up to U+017F, the
    Arabic-Indic digits and the Kelvin sign, and the characters that
    [re.IGNORECASE] takes for a case of an ASCII letter; [int] reads at
    most 4300 digits.  The examples use no other character from 128 on. *)
Definition isspace (c : char) : bool :=
  existsb (N.eqb (Char.code c))
    [133; 160; 5760; 8232; 8233; 8239; 8287; 12288]%N
  || Char.between 8192 8202 c.

Definition decimal (c : char) : option nat :=
  if Char.between 1632 1641 c then Some (N.to_nat (Char.code c - 1632)) else None.

Definition isalnum (c : char) : bool :=
  (Char.between 192 383 c && negb (Char.eqb c (CodePoint 215))
   && negb (Char.eqb c (CodePoint 247)))
  || existsb (N.eqb (Char.code c)) [170; 178; 179; 181; 185; 186; 188; 189; 190]%N
  || Char.between 1632 1641 c
  || Char.eqb c (CodePoint 8490).

(** The capitals of Latin-1 stand 32 before their small letters; further
    on, capitals and small letters alternate. *)
Definition lower (before : str) (c : char) (after : str) : str :=
  let n := Char.code c in
  if Char.eqb c (CodePoint 304) then Cons "i" (Cons (CodePoint 775) Empty)
  else if Char.between 192 222 c && negb (Char.eqb c (CodePoint 215))
  then Cons (CodePoint (n + 32)) Empty
  else if (Char.between 256 311 c || Char.between 330 375 c) && N.even n
  then Cons (CodePoint (n + 1)) Empty
  else if (Char.between 313 328 c || Char.between 377 382 c) && N.odd n
  then Cons (CodePoint (n + 1)) Empty
  else if Char.eqb c (CodePoint 376) then Cons (CodePoint 255) Empty
  else if Char.eqb c (CodePoint 8490) then "k"
  else Cons c Empty.

(** The patterns are written in ASCII: [i] also matches the dotted capital
    and the dotless small i, [s] the long s, [k] the Kelvin sign. *)
Definition ignorecase (c d : char) : bool :=
  (Char.eqb (Char.ascii_lower c) "i"
   && (Char.eqb d (CodePoint 304) || Char.eqb d (CodePoint 305)))
  || (Char.eqb (Char.ascii_lower c) "s" && Char.eqb d (CodePoint 383))
  || (Char.eqb (Char.ascii_lower c) "k" && Char.eqb d (CodePoint 8490)).

Definition runtime : CPython.runtime :=
  CPython.Runtime isspace decimal isalnum lower ignorecase 4300.

#[local] Existing Instance runtime.

(** An OCR engine that reads nothing: empty text, no tokens. *)
Definition blank_string (_ : unit) (_ : str) : result str := ret Empty.

Definition blank_data (_ : unit) (_ : str) : result OCRServiceAdvanced.ocr_data :=
  ret (OCRServiceAdvanced.OcrData [] []).

(** An OCR engine that reads two words, with a token it has no opinion on
    and a blank one. *)
Definition reading_string (_ : unit) (_ : str) : result str := ret "Calories 250".

Definition reading : OCRServiceAdvanced.ocr_data :=
  OCRServiceAdvanced.OcrData [96; -1; 89; 0]%Z ["Calories"; ""; "250"; " "].

Definition reading_data (_ : unit) (_ : str) : result OCRServiceAdvanced.ocr_data :=
  ret reading.

Definition reading_result : OCRServiceAdvanced.ocr_result :=
  OCRServiceAdvanced.OcrResult "Calories 250" (185 # 2) 2 "default_psm6".

(** A product as OpenFoodFacts answers for a barcode. *)
Definition product : pyval :=
  PDict [ ("code", PStr "8690504000013");
          ("product_name", PStr "Biskuvi");
          ("nutriments", PDict [("energy-kcal_100g", PInt 480); ("salt_100g", PFloat (1 # 2))]);
          ("ingredients_text", PStr "sugar,,salt,");
          ("allergens_tags", PList [PStr "en:gluten"; PStr "en:tree-nuts"]) ].

Definition body : pyval := PDict [("status", PInt 1); ("product", product)].

(** Collaborators of the endpoint.  A picture is modelled by whether it
    shows a barcode: an upload whose bytes start with [B] decodes to one
    that does.  The lookup answers with [body]; the OCR reads a fixed
    text. *)
Definition imdecode (contents : str) : result (option bool) :=
  ret (Some (Str.startswith "B" contents)).

Definition is_color (_ : bool) : bool := false.
Definition cvtColor_gray (img : bool) : result bool := ret img.

Definition pyzbar_decode (img : bool) : result (list BarcodeService.symbol) :=
  if img then ret [BarcodeService.Symbol (ret "8690504000013") "EAN13"]
  else ret [].

Definition requests_get (_ : str) : BarcodeService.http_outcome :=
  BarcodeService.Response 200 (ret body).

Definition requests_timeout (_ : str) : BarcodeService.http_outcome :=
  BarcodeService.Raises (Timeout "Read timed out. (read timeout=5)").

Definition preprocess (img : bool) : result bool := ret img.

Definition extract_text (_ : bool) : result str :=
  ret "Ingredients: sugar,,salt, Calories: 250".

Definition file_with_barcode : Main.upload_file :=
  Main.UploadFile (Some "image/png") "B".

Definition file_plain : Main.upload_file :=
  Main.UploadFile (Some "image/jpeg") "".

Definition upload (file : Main.upload_file) : Main.reply :=
  Main.upload_image bool imdecode is_color cvtColor_gray pyzbar_decode requests_get
    preprocess extract_text file.

(** The same service when the lookup times out. *)
Definition upload_timeout (file : Main.upload_file) : Main.reply :=
  Main.upload_image bool imdecode is_color cvtColor_gray pyzbar_decode
    requests_timeout preprocess extract_text file.

(** What a reply carries under ["data"]. *)
Definition data_of (r : Main.reply) : option pyval :=
  match r with
  | Main.JSONResponse content => field "data" content
  | Main.HTTPException _ _ => None
  end.

Definition content_of (r : Main.reply) : pyval :=
  match r with
  | Main.JSONResponse content => content
  | Main.HTTPException _ _ => PNone
  end.

Definition record_of (r : Main.reply) : pyval :=
  match data_of r with Some data => data | None => PNone end.

(** The records the two uploads come back with. *)
Definition barcode_record : pyval := Eval vm_compute in record_of (upload file_with_barcode).

Definition ocr_record : pyval := Eval vm_compute in record_of (upload file_plain).

End Sample.

(** ** [ocr_service_advanced.py]: the other entry points *)

Module OCRServiceAdvancedMore.

Import OCRServiceAdvanced.

(** A row of [image_to_data(..., output_type=Output.DICT)]: the entries
    that the columns [text], [conf], [left], [top], [width] and [height]
    hold at one index ([conf] as [int] reads it).  The columns come from
    one table, so they have the same length. *)
Record token : Type := Token {
  tok_text : str;
  tok_conf : Z;
  tok_left : Z;
  tok_top : Z;
  tok_width : Z;
  tok_height : Z
}.

(** [bbox]: [[x0, y0, x1, y1]]. *)
Definition bbox : Type := (Z * Z * Z * Z)%type.

Record region : Type := Region {
  region_text : str;
  region_bbox : option bbox
}.

(** [' '.join(xs)] *)
Fixpoint join (sep : str) (xs : list str) : str :=
  match xs with
  | [] => Empty
  | [x] => x
  | x :: xs' => (x ++ sep ++ join sep xs')%str
  end.

(** [current_block] of [extract_by_regions]. *)
Record block : Type := Block {
  block_text : list str;
  block_bbox : option bbox
}.

(** The box widened to hold the token at [x, y] of size [w, h]. *)
Definition widen (current : option bbox) (x y w h : Z) : bbox :=
  match current with
  | None => (x, y, x + w, y + h)%Z
  | Some (x0, y0, x1, y1) =>
      (Z.min x0 x, Z.min y0 y, Z.max x1 (x + w), Z.max y1 (y + h))%Z
  end.

(** The state of the loop of [extract_with_best_psm]; [best_psm] is not
    bound until a pass has set it. *)
Record best : Type := Best {
  best_result : option str;
  best_confidence : Q;
  best_psm : option nat
}.

Section Service.

Context {py : CPython.runtime}.

Variable image : Type.
Variable image_to_string : image -> str -> result str.
Variable image_to_data : image -> str -> result ocr_data.
(** [image_to_data] again, read row by row. *)
Variable image_to_rows : image -> str -> result (list token).

(** One turn of the loop over the rows. *)
Definition add_token (min_confidence : Z) (current : block) (row : token) : block :=
  let conf := tok_conf row in
  let text := Str.strip (tok_text row) in
  if (min_confidence <? conf)%Z && negb (Str.is_empty text) then
    Block (block_text current ++ [text])
      (Some (widen (block_bbox current) (tok_left row) (tok_top row)
               (tok_width row) (tok_height row)))
  else current.

(** [extract_text]: the robust extraction without variations. *)
Definition extract_text (img : image) : str :=
  extract_text_robust image image_to_string image_to_data img None.

(** One turn of the loop of [extract_with_best_psm]: an exception leaves
    the turn where it is raised, after [best_confidence] has been set when
    it is [image_to_string] that raises. *)
Definition try_psm (img : image) (state : best) (psm : nat) : best :=
  let config := pass_config psm in
  match image_to_data img config with
  | inl _ => state
  | inr data =>
      let confidences := positive_confidences (data_conf data) in
      let avg_conf := avg_of confidences in
      if Qlt_bool (best_confidence state) avg_conf then
        match image_to_string img config with
        | inl _ => Best (best_result state) avg_conf (best_psm state)
        | inr text => Best (Some text) avg_conf (Some psm)
        end
      else state
  end.

(** The log line after the loop reads [best_psm]; unbound, it raises. *)
Definition extract_with_best_psm (img : image) : result str :=
  let final := fold_left (try_psm img) psm_modes (Best None 0 None) in
  match best_psm final with
  | None =>
      raise (Exception
               "cannot access local variable 'best_psm' where it is not associated with a value")
  | Some _ =>
      match best_result final with
      | Some text => ret (if Py.truthy (PStr text) then text else Empty)
      | None => ret Empty
      end
  end.

Definition extract_by_regions (img : image) (min_confidence : Z) : list region :=
  match image_to_rows img "--oem 3 --psm 11" with
  | inr rows =>
      let current_block := fold_left (add_token min_confidence) rows (Block [] None) in
      match block_text current_block with
      | [] => []
      | _ :: _ =>
          [Region (join " " (block_text current_block)) (block_bbox current_block)]
      end
  | inl _ => [Region (extract_text img) None]
  end.

End Service.

End OCRServiceAdvancedMore.

(** ** [ocr_service.py]: class [OCRService] *)

Module OCRService.

(** [self.config] *)
Definition config : str := "--oem 3 --psm 6 -l tur+eng".

(** What [extract_text_with_confidence] returns: [text], [full_data] and
    [word_count]. *)
Record detailed : Type := Detailed {
  detailed_text : str;
  full_data : option (list OCRServiceAdvancedMore.token);
  detailed_word_count : Z
}.

Section Service.

Context {py : CPython.runtime}.

Variable image : Type.
Variable image_to_string : image -> str -> result str.
Variable image_to_rows :
  image -> str -> result (list OCRServiceAdvancedMore.token).

(** One turn of the loop of [extract_text_with_confidence] over the rows. *)
Definition keep_token (filtered_text : list str) (row : OCRServiceAdvancedMore.token)
  : list str :=
  if (30 <? OCRServiceAdvancedMore.tok_conf row)%Z then
    let text := Str.strip (OCRServiceAdvancedMore.tok_text row) in
    if negb (Str.is_empty text) then filtered_text ++ [text] else filtered_text
  else filtered_text.

(** Any exception is raised again as [Exception("OCR failed: ...")]. *)
Definition extract_text (img : image) : result str :=
  match image_to_string img config with
  | inr text => ret text
  | inl e => raise (Exception ("OCR failed: " ++ str_of_exn e)%str)
  end.

(** When the detailed read raises, the plain extraction stands in, and
    what that raises is not caught. *)
Definition extract_text_with_confidence (img : image) : result detailed :=
  match image_to_rows img config with
  | inr data =>
      let filtered_text := fold_left keep_token data [] in
      ret (Detailed (OCRServiceAdvancedMore.join " " filtered_text) (Some data)
             (Z.of_nat (List.length filtered_text)))
  | inl _ =>
      text <- extract_text img ;;
      ret (Detailed text None 0)
  end.

End Service.

End OCRService.

(** ** [image_processor.py], [image_processor_advanced.py]: resizing and
    deskewing *)

Module ImageProcessor.

(** [self.target_width] *)
Definition target_width : nat := 1500.

(** The correction angle of [_deskew_image] from the angle of the
    bounding rectangle. *)
Definition deskew_angle (angle : Q) : Q :=
  if Qlt_bool angle (-45) then - (90 + angle) else - angle.

Section Geometry.

Variable raster : Type.
Variable shape : raster -> nat * nat.             (* height, width = image.shape[:2] *)
(** [int(new_width * (height / width))], a computation on floats. *)
Variable scaled_height : nat -> nat -> nat.
Variable cv2_resize : raster -> nat -> nat -> result raster. (* cv2.resize(image, (w, h)) *)
Variable foreground_count : raster -> nat.        (* len(coords) *)
Variable min_area_rect_angle : raster -> Q.       (* cv2.minAreaRect(coords)[-1] *)
Variable rotate : raster -> Q -> raster.          (* cv2.warpAffine about the centre *)

(** [width < target_width * 0.5] compares with 750.0, that is
    [2 * width < target_width]. *)
Definition _resize_image (image : raster) : result raster :=
  let '(height, width) := shape image in
  if (2 * width <? target_width)%nat || (target_width * 2 <? width)%nat then
    if (width =? 0)%nat then raise (Exception "division by zero")
    else
      let new_width := target_width in
      let new_height := scaled_height height width in
      cv2_resize image new_width new_height
  else ret image.

Definition _deskew_image (image : raster) : raster :=
  if (foreground_count image =? 0)%nat then image
  else
    let angle := deskew_angle (min_area_rect_angle image) in
    if Qlt_bool (Qabs angle) (1 # 2) then image
    else rotate image angle.

End Geometry.

End ImageProcessor.

(** ** Further vocabulary *)

Module Notions.

Section Vocabulary.

Context {py : CPython.runtime}.

(** [s'] is what is left of [s] after some front part. *)
Definition suffix_of (s' s : str) : Prop :=
  exists front, s = (front ++ s')%str.

(** [g] stands somewhere in [s], in one piece. *)
Definition part_of (g s : str) : Prop :=
  exists before after, s = (before ++ g ++ after)%str.

(** Every way through [r] passes a capturing group. *)
Fixpoint sets_group (r : Re.regex) : bool :=
  match r with
  | Re.Group _ => true
  | Re.Seq r1 r2 => sets_group r1 || sets_group r2
  | Re.Alt r1 r2 => sets_group r1 && sets_group r2
  | _ => false
  end.

(** A capture is the one handed in or the stretch between two places of
    the text. *)
Definition capture_from (s : str) (cap cap' : option str) : Prop :=
  cap' = cap \/
  exists s1 s2,
    suffix_of s1 s /\ suffix_of s2 s1 /\
    cap' = Some (Str.take (Str.length s1 - Str.length s2) s1).

(** The patterns of [TextProcessor] whose [group(1)] is read. *)
Definition group_patterns : list Re.regex :=
  TextProcessor.calorie_patterns ++ TextProcessor.serving_patterns ++
  TextProcessor.ingredient_patterns ++
  List.flat_map snd TextProcessor.nutrients ++
  [TextProcessor.allergen_section_pattern].

(** Every character of [s] satisfies [p]. *)
Fixpoint all_chars (p : char -> bool) (s : str) : bool :=
  match s with
  | Empty => true
  | Cons c s' => p c && all_chars p s'
  end.

(** No white space at the front, none at the end. *)
Definition starts_clean (s : str) : bool :=
  match s with
  | Empty => true
  | Cons c _ => negb (Char.is_space c)
  end.

Definition ends_clean (s : str) : bool := starts_clean (Str.rev s).

(** A comma for a semicolon and a semicolon for a comma. *)
Definition swap_separator (c : char) : char :=
  if Char.eqb c "," then ";" else if Char.eqb c ";" then "," else c.

(** The rows of the nutrient table that find a value in the text. *)
Definition row_found (text_lower : str) (row : str * list Re.regex) : bool :=
  match TextProcessor.nutrient_value (snd row) text_lower with
  | Some _ => true
  | None => false
  end.

Definition is_nil {A : Type} (l : list A) : bool :=
  match l with
  | [] => true
  | _ :: _ => false
  end.

(** The only white space is the plain space. *)
Definition plain_space (c : char) : bool :=
  negb (Char.is_space c) || Char.eqb c " ".

(** A character [_clean_text] keeps: a word character, white space, or
    one of the marks [. , : ; - ( ) % /]. *)
Definition kept_char (c : char) : bool :=
  Char.is_word c || Char.is_space c || Str.contains (Cons c Empty) ".,:;-()%/".

Definition no_newline (s : str) : bool :=
  all_chars (fun c => negb (Char.eqb c Char.newline)) s.

(** The value of the first of [keys] that [nutriments] holds with a
    value other than [None]. *)
Fixpoint first_value (nutriments : Dict.t) (keys : list str) : option pyval :=
  match keys with
  | [] => None
  | key :: keys' =>
      if Py.is_not_none (Dict.get nutriments key) then Some (Dict.get nutriments key)
      else first_value nutriments keys'
  end.

(** A product the mapper can read: [nutriments], when there, is a dict;
    the ingredients text that is chosen is a string unless it is falsy;
    [allergens_tags], when there, is a list of strings. *)
Definition readable_product (d : Dict.t) : Prop :=
  (forall v, Dict.lookup "nutriments" d = Some v -> exists n, v = PDict n) /\
  (Py.truthy (Py.or (Dict.get d "ingredients_text") (Dict.get d "ingredients_text_tr"))
     = true ->
   exists t, Py.or (Dict.get d "ingredients_text") (Dict.get d "ingredients_text_tr")
             = PStr t) /\
  (forall v, Dict.lookup "allergens_tags" d = Some v ->
             exists tags, v = PList (List.map PStr tags)).

Definition not_hyphen (c : char) : bool := negb (Char.eqb c "-").

(** An entry of the barcode path's nutrition facts. *)
Definition entry_of (nutrient : str) (value : pyval) : pyval :=
  PDict [("value", value); ("unit", PStr (BarcodeService.nutrient_unit nutrient))].

(** The nutriments of a product: [product.get('nutriments', {})]. *)
Definition nutriments_of (d : Dict.t) : pyval :=
  Dict.get_or d "nutriments" (PDict []).

(** The ingredients text the mapper chooses. *)
Definition ingredients_text_of (d : Dict.t) : pyval :=
  Py.or (Dict.get d "ingredients_text") (Dict.get d "ingredients_text_tr").

(** A row that [extract_by_regions] takes into its block. *)
Definition accepted (min_confidence : Z) (row : OCRServiceAdvancedMore.token) : bool :=
  (min_confidence <? OCRServiceAdvancedMore.tok_conf row)%Z &&
  negb (Str.is_empty (Str.strip (OCRServiceAdvancedMore.tok_text row))).

(** The box [b] holds the box of [row]. *)
Definition encloses (b : OCRServiceAdvancedMore.bbox) (row : OCRServiceAdvancedMore.token)
  : Prop :=
  let '(x0, y0, x1, y1) := b in
  (x0 <= OCRServiceAdvancedMore.tok_left row /\
   y0 <= OCRServiceAdvancedMore.tok_top row /\
   OCRServiceAdvancedMore.tok_left row + OCRServiceAdvancedMore.tok_width row <= x1 /\
   OCRServiceAdvancedMore.tok_top row + OCRServiceAdvancedMore.tok_height row <= y1)%Z.

(** What the loop of [extract_with_best_psm] keeps true of its state. *)
Definition best_ok {image : Type}
    (image_to_string : image -> str -> result str)
    (image_to_data : image -> str -> result OCRServiceAdvanced.ocr_data)
    (img : image) (state : OCRServiceAdvancedMore.best) : Prop :=
  0 <= OCRServiceAdvancedMore.best_confidence state /\
  forall psm, OCRServiceAdvancedMore.best_psm state = Some psm ->
    In psm OCRServiceAdvanced.psm_modes /\
    exists text data,
      OCRServiceAdvancedMore.best_result state = Some text /\
      image_to_string img (OCRServiceAdvanced.pass_config psm) = inr text /\
      image_to_data img (OCRServiceAdvanced.pass_config psm) = inr data /\
      0 < OCRServiceAdvanced.avg_of
            (OCRServiceAdvanced.positive_confidences (OCRServiceAdvanced.data_conf data)).

End Vocabulary.

End Notions.

(** ** Further sample inputs *)

Module SampleData.

#[local] Existing Instance Sample.runtime.

(** Characters outside ASCII: the Turkish dotless i and capital S with
    cedilla, the no-break space and the Arabic-Indic digit three. *)
Definition dotless_i : char := CodePoint 305.
Definition capital_s_cedilla : char := CodePoint 350.
Definition small_s_cedilla : char := CodePoint 351.
Definition small_u_diaeresis : char := CodePoint 252.
Definition capital_c_cedilla : char := CodePoint 199.
Definition small_c_cedilla : char := CodePoint 231.
Definition no_break_space : char := CodePoint 160.
Definition arabic_three : char := CodePoint 1635.

(** A serving size with a Turkish word in capitals, and how it reads
    lowered. *)
Definition serving_text : str := "Serving Size: 30 G " ++ Cons capital_c_cedilla "AY".

Definition serving_value : str := "30 g " ++ Cons small_c_cedilla "ay".

(** Two Turkish words with a no-break space between them, and the same
    with a plain space. *)
Definition sugar_milk : str :=
  Cons capital_s_cedilla "eker," ++
  Cons no_break_space (Cons "s" (Cons small_u_diaeresis "t")).

Definition sugar_milk_cleaned : str :=
  Cons capital_s_cedilla "eker, " ++ Cons "s" (Cons small_u_diaeresis "t").

(** Rows as the engine reports them: two words, a blank and a doubtful
    token. *)
Definition rows : list OCRServiceAdvancedMore.token :=
  [ OCRServiceAdvancedMore.Token "Net" 91 10 10 30 12;
    OCRServiceAdvancedMore.Token " " 95 0 0 5 5;
    OCRServiceAdvancedMore.Token "250g" 40 50 8 40 14;
    OCRServiceAdvancedMore.Token "x" 12 300 300 5 5 ].

Definition rows_engine (_ : unit) (_ : str)
  : result (list OCRServiceAdvancedMore.token) := ret rows.

(** An engine that is not installed. *)
Definition no_engine {A B : Type} (_ : A) (_ : str) : result B :=
  raise (Exception "tesseract is not installed").

(** A product with no energy at all, and its record. *)
Definition zero_kcal_nutriments : Dict.t := [("energy-kcal_100g", PInt 0)].

Definition zero_kcal_product : Dict.t :=
  [("code", PStr "8690000000017"); ("nutriments", PDict zero_kcal_nutriments)].

Definition zero_kcal_record : pyval :=
  Eval vm_compute in
    match BarcodeService._extract_product_data (PDict zero_kcal_product) with
    | inr rec => rec
    | inl _ => PNone
    end.

(** A product whose nutriments are [null]. *)
Definition null_nutriments_product : Dict.t :=
  [("code", PStr "1"); ("nutriments", PNone)].

Definition null_nutriments_get (_ : str) : BarcodeService.http_outcome :=
  BarcodeService.Response 200
    (ret (PDict [("status", PInt 1); ("product", PDict null_nutriments_product)])).

(** Images given by their size, [cv2.resize] returning the size asked
    for. *)
Definition sized_resize (_ : nat * nat) (w h : nat) : result (nat * nat) := ret (h, w).

Definition exact_height (height width : nat) : nat := (height * 1500 / width)%nat.

End SampleData.
(** * Properties *)

(** ** Result selection and confidence ([ocr_service_advanced.py]) *)

Module OCRFacts.

Import OCRServiceAdvanced.

Local Open Scope Q_scope.

Lemma Qlt_bool_true (x y : Q) : Qlt_bool x y = true -> x < y.
Proof.
  unfold Qlt_bool. intros H. apply negb_true_iff in H.
  apply Qnot_le_lt. intros Hle. apply Qle_bool_iff in Hle. congruence.
Qed.

Lemma Qlt_bool_false (x y : Q) : Qlt_bool x y = false -> y <= x.
Proof.
  unfold Qlt_bool. intros H. apply negb_false_iff in H.
  now apply Qle_bool_iff.
Qed.

(** The running maximum of [max]: where it sits in [best :: rest], that
    nothing exceeds it, and that everything before it is strictly below. *)
Lemma max_by_confidence_spec (rest : list ocr_result) :
  forall best,
  exists i,
    nth_error (best :: rest) i = Some (max_by_confidence best rest) /\
    (forall r, In r (best :: rest) ->
       confidence r <= confidence (max_by_confidence best rest)) /\
    (forall j r, (j < i)%nat -> nth_error (best :: rest) j = Some r ->
       confidence r < confidence (max_by_confidence best rest)).
Proof.
  induction rest as [|r rest IH]; intros best.
  - exists 0%nat. simpl. split; [reflexivity|]. split.
    + intros r [<-|[]]. apply Qle_refl.
    + intros j r Hj. lia.
  - cbn [max_by_confidence]. destruct (Qlt_bool (confidence best) (confidence r)) eqn:E.
    + apply Qlt_bool_true in E.
      destruct (IH r) as (i & Hi & Hall & Hbefore).
      set (b := max_by_confidence r rest) in *.
      assert (Hr : confidence r <= confidence b) by (apply Hall; now left).
      exists (S i). split; [exact Hi|]. split.
      * intros x [<-|Hx]; [|now apply Hall].
        apply Qlt_le_weak. eapply Qlt_le_trans; eassumption.
      * intros [|j] x Hj Hx; cbn in Hx.
        -- injection Hx as <-. eapply Qlt_le_trans; eassumption.
        -- apply (Hbefore j); [lia|exact Hx].
    + apply Qlt_bool_false in E.
      destruct (IH best) as (i & Hi & Hall & Hbefore).
      set (b := max_by_confidence best rest) in *.
      assert (Hb : confidence best <= confidence b) by (apply Hall; now left).
      destruct i as [|i].
      * exists 0%nat. split; [exact Hi|]. split.
        -- intros x [<-|[<-|Hx]].
           ++ exact Hb.
           ++ eapply Qle_trans; eassumption.
           ++ apply Hall. now right.
        -- intros j x Hj. lia.
      * exists (S (S i)). split; [exact Hi|]. split.
        -- intros x [<-|[<-|Hx]].
           ++ exact Hb.
           ++ eapply Qle_trans; eassumption.
           ++ apply Hall. now right.
        -- intros [|[|j]] x Hj Hx; cbn in Hx.
           ++ injection Hx as <-. apply (Hbefore 0%nat); [lia|reflexivity].
           ++ injection Hx as <-.
              eapply Qle_lt_trans; [exact E|].
              apply (Hbefore 0%nat); [lia|reflexivity].
           ++ apply (Hbefore (S j)); [lia|exact Hx].
Qed.

(** C4. On a non-empty list of results the selector returns the text of a
    result whose confidence no other result exceeds, and of the first such
    result in generation order; on the empty list it returns the empty
    string. *)
Theorem C4_best_text_first_maximum :
  best_text [] = Empty /\
  forall results : list ocr_result,
    results <> [] ->
    exists i best,
      nth_error results i = Some best /\
      best_text results = text best /\
      (forall r, In r results -> confidence r <= confidence best) /\
      (forall j r, (j < i)%nat -> nth_error results j = Some r ->
         confidence r < confidence best).
Proof.
  split; [reflexivity|].
  intros [|r rest] Hne; [congruence|].
  destruct (max_by_confidence_spec rest r) as (i & Hi & Hall & Hbefore).
  exists i, (max_by_confidence r rest). repeat split; assumption.
Qed.

Lemma C4_witness :
  exists i best,
    nth_error [OcrResult "a" 50 1 "m1"; OcrResult "b" 90 1 "m2"; OcrResult "c" 90 1 "m3"] i
      = Some best /\
    best_text [OcrResult "a" 50 1 "m1"; OcrResult "b" 90 1 "m2"; OcrResult "c" 90 1 "m3"]
      = text best /\
    (forall r, In r [OcrResult "a" 50 1 "m1"; OcrResult "b" 90 1 "m2"; OcrResult "c" 90 1 "m3"] ->
       confidence r <= confidence best) /\
    (forall j r, (j < i)%nat ->
       nth_error [OcrResult "a" 50 1 "m1"; OcrResult "b" 90 1 "m2"; OcrResult "c" 90 1 "m3"] j
         = Some r ->
       confidence r < confidence best).
Proof.
  apply (proj2 C4_best_text_first_maximum). discriminate.
Defined.

Example best_text_tie :
  best_text [OcrResult "a" 50 1 "m1"; OcrResult "b" 90 1 "m2"; OcrResult "c" 90 1 "m3"] = "b".
Proof. reflexivity. Qed.

Lemma fold_left_add_shift (xs : list Z) (a : Z) :
  fold_left Z.add xs a = (a + fold_left Z.add xs 0)%Z.
Proof.
  revert a. induction xs as [|x xs IH]; intros a; simpl.
  - lia.
  - rewrite (IH (a + x)%Z), (IH x). lia.
Qed.

Lemma py_sum_positive (conf : list Z) :
  py_sum (positive_confidences conf) = Spec.positive_sum conf.
Proof.
  unfold py_sum, positive_confidences.
  induction conf as [|c conf IH]; [reflexivity|].
  cbn [List.filter Spec.positive_sum].
  destruct (0 <? c)%Z; [|exact IH].
  cbn [fold_left]. rewrite fold_left_add_shift, IH. reflexivity.
Qed.

Lemma length_positive (conf : list Z) :
  Z.of_nat (List.length (positive_confidences conf)) = Spec.positive_count conf.
Proof.
  unfold positive_confidences.
  induction conf as [|c conf IH]; [reflexivity|].
  cbn [List.filter Spec.positive_count].
  destruct (0 <? c)%Z; [|exact IH].
  cbn [List.length]. rewrite Nat2Z.inj_succ, IH. lia.
Qed.

Lemma positive_count_nonneg (conf : list Z) : (0 <= Spec.positive_count conf)%Z.
Proof.
  induction conf as [|c conf IH]; cbn [Spec.positive_count]; [lia|].
  destruct (0 <? c)%Z; lia.
Qed.

Lemma positive_sum_lower (conf : list Z) :
  (Spec.positive_count conf <= Spec.positive_sum conf)%Z.
Proof.
  induction conf as [|c conf IH]; cbn [Spec.positive_count Spec.positive_sum]; [lia|].
  destruct (0 <? c)%Z eqn:E; [apply Z.ltb_lt in E|]; lia.
Qed.

Lemma positive_sum_upper (conf : list Z) :
  Forall (fun c => (c <= 100)%Z) conf ->
  (Spec.positive_sum conf <= 100 * Spec.positive_count conf)%Z.
Proof.
  induction 1 as [|c conf Hc _ IH]; cbn [Spec.positive_count Spec.positive_sum]; [lia|].
  destruct (0 <? c)%Z; lia.
Qed.

Lemma positive_count_zero (conf : list Z) :
  (forall c, In c conf -> (c <= 0)%Z) -> positive_confidences conf = [].
Proof.
  unfold positive_confidences.
  induction conf as [|c conf IH]; intros H; simpl; [reflexivity|].
  destruct (0 <? c)%Z eqn:E.
  - apply Z.ltb_lt in E. specialize (H c (or_introl eq_refl)). lia.
  - apply IH. intros x Hx. apply H. now right.
Qed.

Lemma positive_count_pos (conf : list Z) :
  (exists c, In c conf /\ (0 < c)%Z) -> (0 < Spec.positive_count conf)%Z.
Proof.
  intros (c & Hin & Hc).
  induction conf as [|x conf IH]; [destruct Hin|].
  cbn [Spec.positive_count]. pose proof (positive_count_nonneg conf).
  destruct Hin as [->|Hin].
  - apply Z.ltb_lt in Hc. rewrite Hc. lia.
  - specialize (IH Hin). destruct (0 <? x)%Z; lia.
Qed.

(** The average as the code computes it is the specification's mean. *)
Lemma avg_of_positive (conf : list Z) :
  (0 < Spec.positive_count conf)%Z ->
  avg_of (positive_confidences conf) = Spec.mean_of_positive conf.
Proof.
  intros Hpos. unfold avg_of, Spec.mean_of_positive.
  pose proof (length_positive conf) as Hlen.
  destruct (positive_confidences conf) as [|c cs] eqn:E.
  - simpl in Hlen. lia.
  - rewrite <- E, py_sum_positive, length_positive. reflexivity.
Qed.

Lemma mean_of_positive_bounds (conf : list Z) :
  Forall (fun c => (c <= 100)%Z) conf ->
  (0 < Spec.positive_count conf)%Z ->
  0 <= Spec.mean_of_positive conf <= 100.
Proof.
  intros Hall Hpos. unfold Spec.mean_of_positive.
  pose proof (positive_sum_lower conf) as Hlo.
  pose proof (positive_sum_upper conf Hall) as Hhi.
  assert (Hq : 0 < inject_Z (Spec.positive_count conf)).
  { change 0 with (inject_Z 0). rewrite <- Zlt_Qlt. exact Hpos. }
  split.
  - apply Qle_shift_div_l; [exact Hq|]. rewrite Qmult_0_l.
    change 0 with (inject_Z 0). rewrite <- Zle_Qle. lia.
  - apply Qle_shift_div_r; [exact Hq|].
    change 100 with (inject_Z 100). rewrite <- inject_Z_mult, <- Zle_Qle. lia.
Qed.

Lemma avg_of_bounds (conf : list Z) :
  Forall (fun c => (c <= 100)%Z) conf ->
  0 <= avg_of (positive_confidences conf) <= 100.
Proof.
  intros Hall.
  pose proof (positive_count_nonneg conf) as Hnn.
  destruct (Z.eq_dec (Spec.positive_count conf) 0) as [Hz|Hnz].
  - pose proof (length_positive conf) as Hlen. rewrite Hz in Hlen.
    destruct (positive_confidences conf); [|simpl in Hlen; lia].
    simpl. split; [apply Qle_refl|discriminate].
  - rewrite avg_of_positive by lia. apply mean_of_positive_bounds; [exact Hall|lia].
Qed.

Section Passes.

Context {py : CPython.runtime}.

(** What a pass returns, read off the two engine calls. *)
Lemma single_pass_some (image : Type) (its : image -> str -> result str)
    (itd : image -> str -> result ocr_data) (img : image) (psm : nat)
    (name : str) (r : ocr_result) :
  _ocr_single_pass image its itd img psm name = Some r <->
  exists t data,
    its img (pass_config psm) = inr t /\
    itd img (pass_config psm) = inr data /\
    r = OcrResult t (avg_of (positive_confidences (data_conf data)))
          (count_words (data_text data))
          (name ++ "_psm" ++ str_of_nat psm)%str.
Proof.
  unfold _ocr_single_pass, bind, ret.
  destruct (its img (pass_config psm)) as [e|t].
  - split; [discriminate|]. intros (t & data & H & _). discriminate.
  - destruct (itd img (pass_config psm)) as [e|data].
    + split; [discriminate|]. intros (t' & data & _ & H & _). discriminate.
    + split.
      * intros H. injection H as <-. exists t, data. repeat split.
      * intros (t' & data' & Ht & Hd & ->).
        injection Ht as <-. injection Hd as <-. reflexivity.
Qed.

(** C5. When the token confidences of a pass are integers of at most 100,
    the confidence it reports is the mean of the strictly positive ones
    (the others are left out, not counted as zero), it is 0 when none is
    positive, it lies between 0 and 100, and the word count is not
    negative. *)
Theorem C5_average_confidence
    (image : Type) (its : image -> str -> result str)
    (itd : image -> str -> result ocr_data) (img : image) (psm : nat)
    (name : str) (r : ocr_result) (data : ocr_data) :
  _ocr_single_pass image its itd img psm name = Some r ->
  itd img (pass_config psm) = inr data ->
  Forall (fun c => (c <= 100)%Z) (data_conf data) ->
  ((exists c, In c (data_conf data) /\ (0 < c)%Z) ->
     confidence r == Spec.mean_of_positive (data_conf data)) /\
  ((forall c, In c (data_conf data) -> (c <= 0)%Z) -> confidence r == 0) /\
  0 <= confidence r <= 100 /\
  (0 <= word_count r)%Z.
Proof.
  intros Hpass Hdata Hall.
  apply single_pass_some in Hpass. destruct Hpass as (t & data' & _ & Hd & ->).
  rewrite Hdata in Hd. injection Hd as <-. cbn [confidence word_count].
  split; [|split; [|split]].
  - intros Hex. rewrite avg_of_positive by now apply positive_count_pos.
    apply Qeq_refl.
  - intros Hnone. rewrite positive_count_zero by exact Hnone. apply Qeq_refl.
  - apply avg_of_bounds. exact Hall.
  - unfold count_words. apply Nat2Z.is_nonneg.
Qed.

(** A result that reaches the selection set comes from a pass that
    returned it. *)
Lemma pass_results_in (image : Type) (its : image -> str -> result str)
    (itd : image -> str -> result ocr_data) (img : image) (name : str)
    (psm : nat) (r : ocr_result) :
  In r (pass_results image its itd img name psm) <->
  _ocr_single_pass image its itd img psm name = Some r.
Proof.
  unfold pass_results.
  destruct (_ocr_single_pass image its itd img psm name) as [r'|]; simpl.
  - split; [intros [->|[]]; reflexivity|]. intros H. injection H as ->. now left.
  - split; [intros []|discriminate].
Qed.

Lemma run_passes_candidates (image : Type) (its : image -> str -> result str)
    (itd : image -> str -> result ocr_data) (img : image)
    (variations : option (list (str * image))) :
  run_passes image its itd img variations =
  List.flat_map
    (fun '(method_name, img') =>
       List.flat_map (pass_results image its itd img' method_name) psm_modes)
    (Spec.candidates img variations).
Proof.
  unfold run_passes, Spec.candidates.
  destruct variations as [[|v vs]|]; try reflexivity.
  all: cbn [List.flat_map]; now rewrite app_nil_r.
Qed.

(** C3, as the code has it.  A pass contributes a result exactly when
    neither engine call raised; its text is not looked at, so a pass that
    reads the empty text contributes a result with that text. *)
Theorem C3_pass_contributes_unless_raised
    (image : Type) (its : image -> str -> result str)
    (itd : image -> str -> result ocr_data) (img : image)
    (variations : option (list (str * image))) :
  (forall r,
     In r (run_passes image its itd img variations) <->
     exists name img' psm,
       In (name, img') (Spec.candidates img variations) /\
       In psm psm_modes /\
       exists t data,
         its img' (pass_config psm) = inr t /\
         itd img' (pass_config psm) = inr data /\
         r = OcrResult t (avg_of (positive_confidences (data_conf data)))
               (count_words (data_text data))
               (name ++ "_psm" ++ str_of_nat psm)%str) /\
  (forall name img' psm data,
     In (name, img') (Spec.candidates img variations) ->
     In psm psm_modes ->
     its img' (pass_config psm) = inr Empty ->
     itd img' (pass_config psm) = inr data ->
     exists r, In r (run_passes image its itd img variations) /\ text r = Empty).
Proof.
  assert (Hin : forall r,
     In r (run_passes image its itd img variations) <->
     exists name img' psm,
       In (name, img') (Spec.candidates img variations) /\
       In psm psm_modes /\
       _ocr_single_pass image its itd img' psm name = Some r).
  { intros r. rewrite run_passes_candidates, in_flat_map. split.
    - intros ([name img'] & Hc & Hr). apply in_flat_map in Hr.
      destruct Hr as (psm & Hpsm & Hr). apply pass_results_in in Hr.
      now exists name, img', psm.
    - intros (name & img' & psm & Hc & Hpsm & Hr).
      exists (name, img'). split; [exact Hc|].
      apply in_flat_map. exists psm. split; [exact Hpsm|].
      now apply pass_results_in. }
  split.
  - intros r. rewrite Hin. split.
    + intros (name & img' & psm & Hc & Hpsm & Hr).
      exists name, img', psm. repeat split; try assumption.
      now apply single_pass_some.
    + intros (name & img' & psm & Hc & Hpsm & Hr).
      exists name, img', psm. repeat split; try assumption.
      now apply single_pass_some.
  - intros name img' psm data Hc Hpsm Hs Hd.
    eexists. split.
    + apply Hin. exists name, img', psm. repeat split; try eassumption.
      apply single_pass_some. exists Empty, data. repeat split; assumption.
    + reflexivity.
Qed.

End Passes.

#[local] Existing Instance Sample.runtime.

Lemma C5_witness :
  ((exists c, In c (data_conf Sample.reading) /\ (0 < c)%Z) ->
     confidence Sample.reading_result == Spec.mean_of_positive (data_conf Sample.reading)) /\
  ((forall c, In c (data_conf Sample.reading) -> (c <= 0)%Z) ->
     confidence Sample.reading_result == 0) /\
  0 <= confidence Sample.reading_result <= 100 /\
  (0 <= word_count Sample.reading_result)%Z.
Proof.
  apply (C5_average_confidence unit Sample.reading_string Sample.reading_data tt 6
           "default" Sample.reading_result Sample.reading).
  - reflexivity.
  - reflexivity.
  - repeat constructor; discriminate.
Defined.

Example reading_confidence :
  confidence Sample.reading_result == Spec.mean_of_positive [96; -1; 89; 0]%Z.
Proof. reflexivity. Qed.

Lemma C3_witness :
  exists r,
    In r (run_passes unit Sample.blank_string Sample.blank_data tt None) /\
    text r = Empty.
Proof.
  apply (proj2 (C3_pass_contributes_unless_raised unit Sample.blank_string
                  Sample.blank_data tt None)
           "default" tt 6%nat (OcrData [] [])).
  - left. reflexivity.
  - left. reflexivity.
  - reflexivity.
  - reflexivity.
Defined.

(** C3, as stated, fails: with an engine that reads the empty text every
    pass still contributes its result. *)
Lemma C3_counterexample :
  ~ (forall r,
       In r (run_passes unit Sample.blank_string Sample.blank_data tt None) ->
       text r <> Empty).
Proof.
  intros H.
  apply (H (OcrResult Empty 0 0 "default_psm6")); [|reflexivity].
  left. reflexivity.
Qed.

End OCRFacts.

(** ** The quality assessor ([image_processor_advanced.py]) *)

Module QualityFacts.

Import ImageProcessorAdvanced.

Lemma length_zero_iff {A : Type} (xs : list A) :
  (List.length xs =? 0)%nat = true <-> xs = [].
Proof.
  destruct xs; simpl; split; intros H; try reflexivity; discriminate.
Qed.

Lemma deduct_deduction (c : bool) (d score : Z) :
  deduct c d score = (score - Spec.deduction c d)%Z.
Proof.
  unfold deduct, Spec.deduction. destruct c; lia.
Qed.

Section Assessor.

Variable raster : Type.
Variable is_color : raster -> bool.
Variable cvtColor_gray : raster -> raster.
Variable np_mean laplacian_variance np_std : raster -> Q.
Variable shape : raster -> nat * nat.
Variable round2 : Q -> Q.

Local Abbreviation check :=
  (check_image_quality raster is_color cvtColor_gray np_mean laplacian_variance
     np_std shape round2).

(** C7. For every raster the score is 100 less 30 for a brightness outside
    [40,215], 40 for a blur metric under 100, 20 for a contrast under 30
    and 10 for a width under 800, not below 0; it lies in [0,100]; and
    [suitable] holds exactly when the list of issues is empty. *)
Theorem C7_quality_score (image : raster) :
  let gray := if is_color image then cvtColor_gray image else image in
  let width := snd (shape gray) in
  quality_score (check image) =
    Z.max 0
      (100
       - Spec.deduction (Qlt_bool (np_mean gray) 40 || Qlt_bool 215 (np_mean gray)) 30
       - Spec.deduction (Qlt_bool (laplacian_variance gray) 100) 40
       - Spec.deduction (Qlt_bool (np_std gray) 30) 20
       - Spec.deduction (width <? 800)%nat 10)%Z /\
  (0 <= quality_score (check image) <= 100)%Z /\
  (suitable (check image) = true <-> issues (check image) = []).
Proof.
  intros gray width. unfold check_image_quality.
  fold gray. subst width. destruct (shape gray) as [height width].
  cbn [quality_score suitable issues snd].
  rewrite !deduct_deduction.
  split; [reflexivity|]. split.
  - unfold Spec.deduction.
    destruct (Qlt_bool (np_mean gray) 40 || Qlt_bool 215 (np_mean gray)),
             (Qlt_bool (laplacian_variance gray) 100),
             (Qlt_bool (np_std gray) 30),
             (width <? 800)%nat; lia.
  - apply length_zero_iff.
Qed.

End Assessor.

Example quality_dark_small :
  let report :=
    check_image_quality unit (fun _ => false) (fun x => x) (fun _ => 20) (fun _ => 250)
      (fun _ => 45) (fun _ => (480, 640)%nat) (fun q => q) tt in
  quality_score report = 60%Z /\ suitable report = false /\
  List.length (issues report) = 2%nat.
Proof. repeat split. Qed.

End QualityFacts.

(** ** Characters and strings *)

Module CharFacts.

Lemma char_eqb_eq (c d : char) : Char.eqb c d = true <-> c = d.
Proof.
  destruct c as [n], d as [m]. unfold Char.eqb. cbn [Char.code].
  rewrite N.eqb_eq. split; [now intros ->|]. intros H. now injection H.
Qed.

Lemma char_eqb_refl (c : char) : Char.eqb c c = true.
Proof. now apply char_eqb_eq. Qed.

Lemma char_eqb_sym (c d : char) : Char.eqb c d = Char.eqb d c.
Proof. unfold Char.eqb. apply N.eqb_sym. Qed.

Lemma str_eqb_eq (s t : str) : Str.eqb s t = true <-> s = t.
Proof.
  revert t. induction s as [|c s IH]; intros [|d t]; cbn [Str.eqb];
    try (split; [discriminate|discriminate]); [split; reflexivity|].
  rewrite andb_true_iff, char_eqb_eq, IH. split.
  - now intros [-> ->].
  - intros H. now injection H.
Qed.

Lemma str_eqb_refl (s : str) : Str.eqb s s = true.
Proof. now apply str_eqb_eq. Qed.

Lemma str_eqb_sym (s t : str) : Str.eqb s t = Str.eqb t s.
Proof.
  revert t. induction s as [|c s IH]; intros [|d t]; cbn [Str.eqb]; try reflexivity.
  now rewrite char_eqb_sym, IH.
Qed.

Lemma app_assoc_str (a b c : str) : ((a ++ b) ++ c = a ++ b ++ c)%str.
Proof.
  induction a as [|x a IH]; [reflexivity|]. cbn [Str.app]. now rewrite IH.
Qed.

Lemma app_empty_r (s : str) : (s ++ "")%str = s.
Proof. induction s as [|c s IH]; [reflexivity|]. cbn [Str.app]. now rewrite IH. Qed.

Lemma length_app (a b : str) :
  Str.length (a ++ b) = (Str.length a + Str.length b)%nat.
Proof.
  induction a as [|c a IH]; [reflexivity|]. cbn [Str.app Str.length]. now rewrite IH.
Qed.

Lemma take_app (a b : str) : Str.take (Str.length a) (a ++ b) = a.
Proof.
  induction a as [|c a IH]; [destruct b; reflexivity|].
  cbn [Str.app Str.length Str.take]. now rewrite IH.
Qed.

Lemma take_length_diff (a b : str) :
  Str.take (Str.length (a ++ b) - Str.length b) (a ++ b) = a.
Proof.
  rewrite length_app, Nat.add_sub. apply take_app.
Qed.


Section Lowering.

Context {py : CPython.runtime}.



End Lowering.

End CharFacts.

(** ** The matcher ([re]) *)

Module ReFacts.

Import Re CharFacts.

Section Matcher.

Context {py : CPython.runtime}.


(** *** One step of the matcher, constructor by constructor *)

Section Steps.

Variable icase : bool.
Variables (prev : option char) (cap : option str) (k : kont).


Lemma step_seq (r1 r2 : regex) (s : str) :
  rmatch icase (Seq r1 r2) prev s cap k =
  rmatch icase r1 prev s cap (fun prev' s' cap' => rmatch icase r2 prev' s' cap' k).
Proof. reflexivity. Qed.

Lemma step_alt (r1 r2 : regex) (s : str) :
  rmatch icase (Alt r1 r2) prev s cap k =
  match rmatch icase r1 prev s cap k with
  | Some m => Some m
  | None => rmatch icase r2 prev s cap k
  end.
Proof. reflexivity. Qed.

Lemma step_group (r : regex) (s : str) :
  rmatch icase (Group r) prev s cap k =
  rmatch icase r prev s cap
    (fun prev' s' _ => k prev' s' (Some (Str.take (Str.length s - Str.length s') s))).
Proof. reflexivity. Qed.



Lemma step_chr_end (c : char) : rmatch icase (Chr c) prev Empty cap k = None.
Proof. reflexivity. Qed.

Lemma step_cls_hit (neg : bool) (items : list item) (d : char) (s : str) :
  cls_matches icase neg items d = true ->
  rmatch icase (Cls neg items) prev (Cons d s) cap k = k (Some d) s cap.
Proof. intros H. cbn [rmatch]. now rewrite H. Qed.

Lemma step_cls_miss (neg : bool) (items : list item) (d : char) (s : str) :
  cls_matches icase neg items d = false ->
  rmatch icase (Cls neg items) prev (Cons d s) cap k = None.
Proof. intros H. cbn [rmatch]. now rewrite H. Qed.

Lemma step_cls_end (neg : bool) (items : list item) :
  rmatch icase (Cls neg items) prev Empty cap k = None.
Proof. reflexivity. Qed.

(** A starred class takes the next character when it can and falls back
    to stopping before it; it stops where the class does not hold. *)
Lemma star_cls_hit (neg : bool) (items : list item) (d : char) (s : str) :
  cls_matches icase neg items d = true ->
  rmatch icase (Star (Cls neg items)) prev (Cons d s) cap k =
  match rmatch icase (Star (Cls neg items)) (Some d) s cap k with
  | Some m => Some m
  | None => k prev (Cons d s) cap
  end.
Proof.
  intros H. cbn [rmatch Str.length]. rewrite H.
  replace (Str.length s <? S (Str.length s))%nat with true
    by (symmetry; apply Nat.ltb_lt; lia).
  reflexivity.
Qed.

Lemma star_cls_miss (neg : bool) (items : list item) (d : char) (s : str) :
  cls_matches icase neg items d = false ->
  rmatch icase (Star (Cls neg items)) prev (Cons d s) cap k = k prev (Cons d s) cap.
Proof.
  intros H. cbn [rmatch Str.length]. now rewrite H.
Qed.


End Steps.






End Matcher.


End ReFacts.

(** ** The field extractors ([text_processor.py]) *)

Module TextFacts.

Import Re TextProcessor CharFacts ReFacts.

Section Extractors.

Context {py : CPython.runtime}.






Lemma dict_lookup_set (d : Dict.t) (k k' : str) (v : pyval) :
  Dict.lookup k (Dict.set d k' v) =
  if Str.eqb k k' then Some v else Dict.lookup k d.
Proof.
  induction d as [|[k0 v0] d IH]; cbn [Dict.set Dict.lookup].
  - destruct (Str.eqb k k'); reflexivity.
  - destruct (Str.eqb k' k0) eqn:E0; cbn [Dict.lookup].
    + apply str_eqb_eq in E0. subst k0.
      destruct (Str.eqb k k'); reflexivity.
    + rewrite IH. destruct (Str.eqb k k0) eqn:E1; [|reflexivity].
      apply str_eqb_eq in E1. subst k0.
      rewrite str_eqb_sym, E0. reflexivity.
Qed.

Lemma nutrient_value_from_match (patterns : list regex) (text_lower : str) (v : Q) :
  nutrient_value patterns text_lower = Some v ->
  exists pattern m,
    In pattern patterns /\
    search true pattern text_lower = Some m /\
    Str.to_float (group1 m) = Some v.
Proof.
  induction patterns as [|p patterns IH]; [discriminate|].
  cbn [nutrient_value].
  destruct (search true p text_lower) as [m|] eqn:Em.
  - destruct (Str.to_float (group1 m)) as [x|] eqn:Ex.
    + intros H. injection H as <-. exists p, m. repeat split; [now left|assumption..].
    + intros H. destruct (IH H) as (q & m' & Hq & Hm & Hv).
      exists q, m'. repeat split; [now right|assumption..].
  - intros H. destruct (IH H) as (q & m' & Hq & Hm & Hv).
    exists q, m'. repeat split; [now right|assumption..].
Qed.

(** An entry of the nutrition dict was there before the loop or was set by
    it from a row of the table. *)
Lemma nutrition_loop_lookup (table : list (str * list regex)) (text_lower : str) :
  forall (acc : Dict.t) (k : str) (e : pyval),
    Dict.lookup k (nutrition_loop table text_lower acc) = Some e ->
    Dict.lookup k acc = Some e \/
    exists patterns v,
      In (k, patterns) table /\
      nutrient_value patterns text_lower = Some v /\
      e = nutrient_entry k v.
Proof.
  induction table as [|[nutrient patterns] table IH]; intros acc k e H.
  - now left.
  - cbn [nutrition_loop] in H.
    destruct (nutrient_value patterns text_lower) as [v|] eqn:Ev.
    + apply IH in H. destruct H as [H|(ps & x & Hin & Hx & ->)].
      * rewrite dict_lookup_set in H.
        destruct (Str.eqb k nutrient) eqn:Ek.
        -- apply str_eqb_eq in Ek. subst k. injection H as <-.
           right. exists patterns, v. repeat split; [now left|assumption].
        -- now left.
      * right. exists ps, x. repeat split; [now right|assumption].
    + apply IH in H. destruct H as [H|(ps & x & Hin & Hx & ->)].
      * now left.
      * right. exists ps, x. repeat split; [now right|assumption].
Qed.

(** C9. ["sodium: 2 g"] is matched and reported as 2 with unit mg; and
    every entry of the nutrition facts holds the number its pattern
    captured, as [float] reads it, with the unit fixed by the nutrient's
    name: mg for sodium, g for the others. *)
Theorem C9_sodium_unit_fixed :
  _extract_nutrition_facts "sodium: 2 g" =
    PDict [("sodium", PDict [("value", PFloat 2); ("unit", PStr "mg")])] /\
  (forall (text nutrient : str) (entry : pyval),
     Dict.lookup nutrient (nutrition_of text) = Some entry ->
     exists patterns pattern m value,
       In (nutrient, patterns) nutrients /\
       In pattern patterns /\
       search true pattern (Str.lower text) = Some m /\
       Str.to_float (group1 m) = Some value /\
       entry = PDict [("value", PFloat value);
                      ("unit", PStr (if Str.eqb nutrient "sodium" then "mg" else "g"))]).
Proof.
  split; [reflexivity|].
  intros text nutrient entry H. unfold nutrition_of in H.
  apply nutrition_loop_lookup in H.
  destruct H as [H|(patterns & v & Hin & Hv & ->)]; [discriminate H|].
  apply nutrient_value_from_match in Hv. destruct Hv as (pattern & m & Hp & Hm & Hf).
  exists patterns, pattern, m, v. repeat split; try assumption.
  unfold nutrient_entry, nutrient_unit.
  destruct (Str.eqb nutrient "sodium"); reflexivity.
Qed.

(** The OCR path keeps no empty token. *)
Lemma ingredient_tokens_no_empty (t : str) :
  ~ In Empty (TextProcessor.ingredient_tokens t).
Proof.
  unfold TextProcessor.ingredient_tokens. intros H.
  apply in_map_iff in H. destruct H as (x & Hx & Hin).
  apply filter_In in Hin. destruct Hin as [_ Hne].
  rewrite Hx in Hne. discriminate Hne.
Qed.

Lemma ingredients_loop_no_empty (patterns : list regex) (text : str)
    (l : list pyval) :
  field "list" (ingredients_loop patterns text) = Some (PList l) ->
  ~ In (PStr Empty) l.
Proof.
  induction patterns as [|p patterns IH]; cbn [ingredients_loop].
  - intros H. injection H as <-. intros [].
  - destruct (search true p text) as [m|]; [|exact IH].
    intros H. injection H as <-. intros Hin.
    apply in_map_iff in Hin. destruct Hin as (x & Hx & Hin).
    injection Hx as ->. exact (ingredient_tokens_no_empty _ Hin).
Qed.

End Extractors.

#[local] Existing Instance Sample.runtime.



Example calories_first_occurrence :
  _extract_calories "calories 10, then Calories: 250" = calories_found 10.
Proof. reflexivity. Qed.

(** An earlier reading can be one that only the Unicode database sees:
    with a dotless i the first word is still read as calories; and a digit
    of another script after 250 is a digit. *)
Example calories_unicode_readings :
  _extract_calories
    ("calor" ++ Cons SampleData.dotless_i "es: 999 Calories: 250")%str
  = calories_found 999 /\
  _extract_calories ("Calories: 250" ++ Cons SampleData.arabic_three Empty)%str
  = calories_found 2503.
Proof. split; vm_compute; reflexivity. Qed.

Lemma C9_witness :
  exists patterns pattern m value,
    In ("sodium", patterns) nutrients /\
    In pattern patterns /\
    search true pattern (Str.lower "Sodium: 2 g per serving") = Some m /\
    Str.to_float (group1 m) = Some value /\
    PDict [("value", PFloat 2); ("unit", PStr "mg")] =
    PDict [("value", PFloat value);
           ("unit", PStr (if Str.eqb "sodium" "sodium" then "mg" else "g"))].
Proof.
  apply (proj2 C9_sodium_unit_fixed "Sodium: 2 g per serving" "sodium").
  reflexivity.
Defined.

End TextFacts.

(** ** The product lookup ([barcode_service.py]) *)

Module BarcodeFacts.

Import BarcodeService.

(** Opens the next [x <- m ;; ...] of a computation known to return. *)
Ltac next_bind H :=
  match type of H with
  | bind ?m _ = inr _ =>
      let v := fresh "v" in
      let E := fresh "E" in
      destruct m as [?|v] eqn:E; [discriminate H|cbn [bind] in H]
  end.

Section Mapper.

Context {py : CPython.runtime}.

(** The record [_extract_product_data] builds, whenever it returns. *)
Lemma extract_product_data_shape (product rec : pyval) :
  _extract_product_data product = inr rec ->
  exists code name brands categories image_url calories serving_size
         ingredients_list ingredients_text nutrition_facts allergens labels
         nova_group nutriscore_grade,
    ingredients_list_of ingredients_text = inr ingredients_list /\
    rec = PDict
      [ ("source", PStr "openfoodfacts");
        ("barcode", code);
        ("product_name", name);
        ("brands", brands);
        ("categories", categories);
        ("image_url", image_url);
        ("calories", calories);
        ("serving_size", serving_size);
        ("ingredients",
          PDict [ ("list", PList ingredients_list);
                  ("raw", ingredients_text);
                  ("found", PBool (Py.truthy ingredients_text)) ]);
        ("nutrition_facts", nutrition_facts);
        ("allergens", allergens);
        ("labels", labels);
        ("nova_group", nova_group);
        ("nutriscore_grade", nutriscore_grade) ].
Proof.
  unfold _extract_product_data. intros H.
  repeat next_bind H.
  injection H as <-.
  do 14 eexists. split; [eassumption|reflexivity].
Qed.

Lemma extract_product_data_truthy (product rec : pyval) :
  _extract_product_data product = inr rec -> Py.truthy rec = true.
Proof.
  intros H. apply extract_product_data_shape in H.
  destruct H as (? & ? & ? & ? & ? & ? & ? & ? & ? & ? & ? & ? & ? & ? & _ & ->).
  reflexivity.
Qed.

(** What a body gives: nothing, or the record of its product. *)
Lemma product_of_body_cases (json : result pyval) (v : pyval) :
  product_of_body json = inr v ->
  v = PNone \/ exists product, _extract_product_data product = inr v.
Proof.
  unfold product_of_body. intros H.
  next_bind H. next_bind H.
  destruct (Py.eq_one v1).
  - next_bind H. destruct (Py.truthy v2).
    + next_bind H. right. now exists v2.
    + left. now injection H.
  - left. now injection H.
Qed.

Section Lookup.

Variable image : Type.
Variable is_color : image -> bool.
Variable cvtColor_gray : image -> result image.
Variable pyzbar_decode : image -> result (list symbol).
Variable requests_get : str -> http_outcome.

Local Abbreviation lookup := (get_product_info requests_get).
Local Abbreviation scan :=
  (scan_and_fetch image is_color cvtColor_gray pyzbar_decode requests_get).

Lemma get_product_info_cases (barcode : str) :
  lookup barcode = PNone \/
  exists product, _extract_product_data product = inr (lookup barcode).
Proof.
  unfold get_product_info.
  destruct (requests_get _) as [e|status_code json].
  - destruct e; now left.
  - destruct (status_code =? 200)%Z; [|now left].
    destruct (product_of_body json) as [e|v] eqn:E; [now left|].
    apply product_of_body_cases in E. exact E.
Qed.

Lemma scan_and_fetch_cases (img : image) :
  scan img = PNone \/
  exists product, _extract_product_data product = inr (scan img).
Proof.
  unfold scan_and_fetch.
  destruct (detect_barcode _ _ _ _ img) as [barcode|]; [|now left].
  destruct (Py.truthy (PStr barcode)); [|now left].
  apply get_product_info_cases.
Qed.

Lemma lookup_failure_none (barcode : str) :
  Spec.lookup_failure (requests_get (api_base_url ++ "/" ++ barcode)%str) ->
  lookup barcode = PNone.
Proof.
  unfold get_product_info. intros H.
  remember (requests_get (api_base_url ++ "/" ++ barcode)%str) as outcome eqn:Ho.
  clear Ho.
  destruct H as [msg|e|status_code json Hs|status_code e|status_code v Hv
                |status_code d Hd].
  - reflexivity.
  - destruct e; reflexivity.
  - replace (status_code =? 200)%Z with false; [reflexivity|].
    symmetry. apply Z.eqb_neq. lia.
  - destruct (status_code =? 200)%Z; reflexivity.
  - destruct (status_code =? 200)%Z; [|reflexivity].
    destruct v; try reflexivity. now destruct (Hv d).
  - destruct (status_code =? 200)%Z; [|reflexivity].
    unfold product_of_body. cbn [bind py_get ret].
    change (Dict.get_or d "status" PNone) with (Dict.get d "status").
    rewrite Hd. reflexivity.
Qed.

End Lookup.

End Mapper.

End BarcodeFacts.

(** ** The endpoint ([main.py]) *)

Module MainFacts.

Import Main.

Section Runtime.

Context {py : CPython.runtime}.

Lemma ocr_record_keys (text : str) (v : pyval) :
  Dict.keys (Dict.set (TextProcessor.food_data text) "source" v) = Spec.ocr_keys /\
  Dict.lookup "source" (Dict.set (TextProcessor.food_data text) "source" v) = Some v.
Proof. split; reflexivity. Qed.

Section Endpoint.

Variable image : Type.
Variable imdecode : str -> result (option image).
Variable is_color : image -> bool.
Variable cvtColor_gray : image -> result image.
Variable pyzbar_decode : image -> result (list BarcodeService.symbol).
Variable requests_get : str -> BarcodeService.http_outcome.
Variable preprocess : image -> result image.
Variable extract_text : image -> result str.

Local Abbreviation detect :=
  (BarcodeService.detect_barcode image is_color cvtColor_gray pyzbar_decode).
Local Abbreviation lookup := (BarcodeService.get_product_info requests_get).
Local Abbreviation scan :=
  (BarcodeService.scan_and_fetch image is_color cvtColor_gray pyzbar_decode
     requests_get).
Local Abbreviation fallback := (ocr_fallback image preprocess extract_text).
Local Abbreviation process :=
  (process_image image is_color cvtColor_gray pyzbar_decode requests_get preprocess
     extract_text).
Local Abbreviation upload :=
  (upload_image image imdecode is_color cvtColor_gray pyzbar_decode requests_get
     preprocess extract_text).

(** The two ways [process_image] goes. *)
Lemma process_image_cases (img : image) :
  (Py.truthy (scan img) = true /\
   process img = barcode_reply (scan img) /\
   exists product, BarcodeService._extract_product_data product = inr (scan img)) \/
  (Py.truthy (scan img) = false /\ process img = fallback img).
Proof.
  unfold process_image.
  destruct (Py.truthy (BarcodeService.scan_and_fetch _ _ _ _ _ img)) eqn:E.
  - left. split; [reflexivity|]. split; [reflexivity|].
    destruct (BarcodeFacts.scan_and_fetch_cases image is_color cvtColor_gray
                pyzbar_decode requests_get img) as [Hn|Hp]; [|exact Hp].
    rewrite Hn in E. discriminate.
  - right. split; reflexivity.
Qed.

(** A reply with a body comes from [process_image]. *)
Lemma upload_image_json (file : upload_file) (content : pyval) :
  upload file = JSONResponse content ->
  exists img, process img = JSONResponse content.
Proof.
  unfold upload_image, internal_error.
  destruct (content_type file) as [ct|]; [|discriminate].
  destruct (negb (Str.startswith "image/" ct)); [discriminate|].
  destruct (imdecode (contents file)) as [e|[img|]]; try discriminate.
  intros H. now exists img.
Qed.

(** The successful replies of the fallback carry the extractor's record
    with [source] set. *)
Lemma ocr_fallback_success (img : image) (content : pyval) :
  fallback img = JSONResponse content ->
  field "success" content = Some (PBool true) ->
  field "method" content = Some (PStr "ocr") /\
  exists raw_text,
    field "data" content =
      Some (PDict (Dict.set (TextProcessor.food_data raw_text) "source" (PStr "ocr"))).
Proof.
  unfold ocr_fallback, internal_error.
  destruct (bind (preprocess img) _) as [e|raw_text]; [discriminate|].
  destruct (Str.is_empty (Str.strip raw_text)).
  - intros H. injection H as <-. discriminate.
  - intros H _. injection H as <-. split; [reflexivity|].
    exists raw_text. reflexivity.
Qed.

(** What a reply that carries a record carries, by branch. *)
Lemma resolved_cases (file : upload_file) (method : str) (data : pyval) :
  Spec.resolved_by method (upload file) data ->
  (method = "barcode" /\
   exists product, BarcodeService._extract_product_data product = inr data) \/
  (method = "ocr" /\
   exists raw_text,
     data = PDict (Dict.set (TextProcessor.food_data raw_text) "source" (PStr "ocr"))).
Proof.
  intros (content & Hr & Hs & Hm & Hd).
  apply upload_image_json in Hr. destruct Hr as (img & Hr).
  destruct (process_image_cases img) as [(_ & Hp & product & Hx)|(_ & Hp)];
    rewrite Hp in Hr.
  - left. unfold barcode_reply in Hr. injection Hr as <-.
    cbn in Hm, Hd. injection Hm as <-. injection Hd as <-.
    split; [reflexivity|]. now exists product.
  - right. destruct (ocr_fallback_success img content Hr Hs) as (Hm' & raw_text & Hd').
    rewrite Hm' in Hm. injection Hm as <-.
    rewrite Hd' in Hd. injection Hd as <-.
    split; [reflexivity|]. now exists raw_text.
Qed.

(** C1, as the code has it.  Every record the endpoint produces has a
    [source] field: ["openfoodfacts"] when the reply's method is
    ["barcode"], ["ocr"] when it is ["ocr"]; and whenever the barcode
    lookup finds a product, the reply carries that product's record, tagged
    ["openfoodfacts"]. *)
Theorem C1_record_source :
  (forall file method data,
     Spec.resolved_by method (upload file) data ->
     (method = "barcode" /\ field "source" data = Some (PStr "openfoodfacts")) \/
     (method = "ocr" /\ field "source" data = Some (PStr "ocr"))) /\
  (forall img,
     Py.truthy (scan img) = true ->
     process img = barcode_reply (scan img) /\
     field "source" (scan img) = Some (PStr "openfoodfacts")).
Proof.
  split.
  - intros file method data H.
    destruct (resolved_cases file method data H)
      as [(-> & product & Hp)|(-> & raw_text & ->)].
    + left. split; [reflexivity|].
      apply BarcodeFacts.extract_product_data_shape in Hp.
      destruct Hp as (? & ? & ? & ? & ? & ? & ? & ? & ? & ? & ? & ? & ? & ? & _ & ->).
      reflexivity.
    + right. split; reflexivity.
  - intros img Ht.
    destruct (process_image_cases img) as [(_ & Hp & product & Hx)|(Hf & _)].
    + split; [exact Hp|].
      apply BarcodeFacts.extract_product_data_shape in Hx.
      destruct Hx as (? & ? & ? & ? & ? & ? & ? & ? & ? & ? & ? & ? & ? & ? & _ & ->).
      reflexivity.
    + rewrite Hf in Ht. discriminate.
Qed.

(** C2, as the code has it.  The record of the barcode branch always has
    the fourteen keys of [Spec.barcode_keys], the record of the OCR branch
    the six of [Spec.ocr_keys]; every key of the OCR record is a key of the
    barcode record. *)
Theorem C2_record_keys (file_b file_o : upload_file) (data_b data_o : pyval) :
  Spec.resolved_by "barcode" (upload file_b) data_b ->
  Spec.resolved_by "ocr" (upload file_o) data_o ->
  keys_of data_b = Spec.barcode_keys /\
  keys_of data_o = Spec.ocr_keys /\
  (forall k, In k (keys_of data_o) -> In k (keys_of data_b)).
Proof.
  intros Hb Ho.
  destruct (resolved_cases _ _ _ Hb) as [(_ & product & Hp)|(Hm & _)];
    [|discriminate Hm].
  destruct (resolved_cases _ _ _ Ho) as [(Hm & _)|(_ & raw_text & ->)];
    [discriminate Hm|].
  apply BarcodeFacts.extract_product_data_shape in Hp.
  destruct Hp as (? & ? & ? & ? & ? & ? & ? & ? & ? & ? & ? & ? & ? & ? & _ & ->).
  assert (Hk : keys_of (PDict (Dict.set (TextProcessor.food_data raw_text) "source"
                                  (PStr "ocr"))) = Spec.ocr_keys)
    by apply ocr_record_keys.
  split; [reflexivity|]. split; [exact Hk|].
  rewrite Hk. intros k Hin. cbn in Hin |- *. intuition.
Qed.

(** C8. A lookup that times out, raises, answers outside 2xx, with a body
    that is not JSON or not a JSON object, or with a body whose status is
    not 1, gives [None]; the request then goes through the OCR fallback. *)
Theorem C8_lookup_failure_falls_back (barcode : str) :
  Spec.lookup_failure
    (requests_get (BarcodeService.api_base_url ++ "/" ++ barcode)%str) ->
  lookup barcode = PNone /\
  (forall img, detect img = Some barcode -> process img = fallback img) /\
  (forall file ct img,
     content_type file = Some ct ->
     Str.startswith "image/" ct = true ->
     imdecode (contents file) = inr (Some img) ->
     detect img = Some barcode ->
     upload file = fallback img).
Proof.
  intros Hfail.
  assert (Hnone : lookup barcode = PNone)
    by (apply BarcodeFacts.lookup_failure_none; exact Hfail).
  assert (Hproc : forall img, detect img = Some barcode -> process img = fallback img).
  { intros img Hd.
    unfold process_image, BarcodeService.scan_and_fetch.
    rewrite Hd.
    destruct (Py.truthy (PStr barcode)); [rewrite Hnone|]; reflexivity. }
  split; [exact Hnone|]. split; [exact Hproc|].
  intros file ct img Hct Hs Hi Hd.
  rewrite <- (Hproc img Hd).
  unfold upload_image. rewrite Hct, Hs, Hi. reflexivity.
Qed.

End Endpoint.

End Runtime.

#[local] Existing Instance Sample.runtime.

(** A sample reply carries its record: checked by running the endpoint. *)
Ltac run_sample r :=
  exists (Sample.content_of r);
  repeat (split; [vm_compute; reflexivity|]); vm_compute; reflexivity.

Lemma sample_barcode_resolved :
  Spec.resolved_by "barcode" (Sample.upload Sample.file_with_barcode)
    Sample.barcode_record.
Proof. run_sample (Sample.upload Sample.file_with_barcode). Qed.

Lemma sample_ocr_resolved :
  Spec.resolved_by "ocr" (Sample.upload Sample.file_plain) Sample.ocr_record.
Proof. run_sample (Sample.upload Sample.file_plain). Qed.

Lemma C1_witness :
  ("barcode" = "barcode" /\
   field "source" Sample.barcode_record = Some (PStr "openfoodfacts")) \/
  ("barcode" = "ocr" /\ field "source" Sample.barcode_record = Some (PStr "ocr")).
Proof.
  apply (proj1 (C1_record_source bool Sample.imdecode Sample.is_color
                  Sample.cvtColor_gray Sample.pyzbar_decode Sample.requests_get
                  Sample.preprocess Sample.extract_text)
           Sample.file_with_barcode).
  run_sample (Sample.upload Sample.file_with_barcode).
Defined.

(** C1, as stated, fails: the record of a product found by its barcode is
    tagged ["openfoodfacts"], which is neither ["barcode"] nor ["ocr"]. *)
Lemma C1_counterexample :
  Spec.resolved_by "barcode" (Sample.upload Sample.file_with_barcode)
    Sample.barcode_record /\
  ~ (field "source" Sample.barcode_record = Some (PStr "barcode") \/
     field "source" Sample.barcode_record = Some (PStr "ocr")).
Proof.
  split; [exact sample_barcode_resolved|].
  intros [H|H]; vm_compute in H; discriminate H.
Qed.

Lemma C2_witness :
  keys_of Sample.barcode_record = Spec.barcode_keys /\
  keys_of Sample.ocr_record = Spec.ocr_keys /\
  (forall k, In k (keys_of Sample.ocr_record) -> In k (keys_of Sample.barcode_record)).
Proof.
  apply (C2_record_keys bool Sample.imdecode Sample.is_color Sample.cvtColor_gray
           Sample.pyzbar_decode Sample.requests_get Sample.preprocess
           Sample.extract_text Sample.file_with_barcode Sample.file_plain).
  - run_sample (Sample.upload Sample.file_with_barcode).
  - run_sample (Sample.upload Sample.file_plain).
Defined.

(** C2, as stated, fails: ["barcode"] is a key of the record of the barcode
    branch and not of the record of the OCR branch. *)
Lemma C2_counterexample :
  Spec.resolved_by "barcode" (Sample.upload Sample.file_with_barcode)
    Sample.barcode_record /\
  Spec.resolved_by "ocr" (Sample.upload Sample.file_plain) Sample.ocr_record /\
  ~ (forall k, In k (keys_of Sample.barcode_record) <-> In k (keys_of Sample.ocr_record)).
Proof.
  split; [exact sample_barcode_resolved|]. split; [exact sample_ocr_resolved|].
  intros H.
  assert (Hin : In "barcode" (keys_of Sample.ocr_record)).
  { apply H. vm_compute. right. left. reflexivity. }
  vm_compute in Hin.
  repeat (destruct Hin as [Hin|Hin]; [discriminate Hin|]). exact Hin.
Qed.

Lemma C8_witness :
  BarcodeService.get_product_info Sample.requests_timeout "8690504000013" = PNone /\
  (forall img,
     BarcodeService.detect_barcode bool Sample.is_color Sample.cvtColor_gray
       Sample.pyzbar_decode img = Some "8690504000013" ->
     process_image bool Sample.is_color Sample.cvtColor_gray Sample.pyzbar_decode
       Sample.requests_timeout Sample.preprocess Sample.extract_text img =
     ocr_fallback bool Sample.preprocess Sample.extract_text img) /\
  (forall file ct img,
     content_type file = Some ct ->
     Str.startswith "image/" ct = true ->
     Sample.imdecode (contents file) = inr (Some img) ->
     BarcodeService.detect_barcode bool Sample.is_color Sample.cvtColor_gray
       Sample.pyzbar_decode img = Some "8690504000013" ->
     Sample.upload_timeout file =
     ocr_fallback bool Sample.preprocess Sample.extract_text img).
Proof.
  apply (C8_lookup_failure_falls_back bool Sample.imdecode Sample.is_color
           Sample.cvtColor_gray Sample.pyzbar_decode Sample.requests_timeout
           Sample.preprocess Sample.extract_text "8690504000013").
  apply Spec.FailTimeout.
Defined.

Example timeout_goes_to_ocr :
  Spec.resolved_by "ocr" (Sample.upload_timeout Sample.file_with_barcode)
    Sample.ocr_record.
Proof. run_sample (Sample.upload_timeout Sample.file_with_barcode). Qed.

End MainFacts.

(** ** Ingredient lists on the two paths *)

Module IngredientFacts.

Import CharFacts.

Section Tokens.

Context {py : CPython.runtime}.

Lemma replace_semicolon (s : str) :
  Str.replace ";" "," s = Str.map Spec.comma_for_semicolon s.
Proof.
  unfold Str.replace.
  induction s as [|c s IH]; [reflexivity|].
  cbn [Str.replace_from Str.startswith Str.map Str.length Nat.sub].
  unfold Spec.comma_for_semicolon at 1.
  destruct (Char.eqb ";" c); cbn [andb]; rewrite IH; reflexivity.
Qed.

Lemma comma_is_separator (c : char) :
  Str.is_char "," (Spec.comma_for_semicolon c) = TextProcessor.is_separator c.
Proof.
  unfold Str.is_char, Spec.comma_for_semicolon, TextProcessor.is_separator.
  rewrite (char_eqb_sym c ","), (char_eqb_sym c ";").
  destruct (Char.eqb ";" c) eqn:E.
  - apply char_eqb_eq in E. subst c. reflexivity.
  - now rewrite orb_false_r.
Qed.

Lemma pieces_cons (a : char) (s : str) :
  Spec.pieces (Cons a s) =
  if TextProcessor.is_separator a then Empty :: Spec.pieces s
  else match Spec.pieces s with
       | t :: ts => Cons (Spec.comma_for_semicolon a) t :: ts
       | [] => [Cons (Spec.comma_for_semicolon a) Empty]
       end.
Proof.
  unfold Spec.pieces. cbn [Str.map Str.split_on]. now rewrite comma_is_separator.
Qed.

(** A separator at the end leaves an empty last piece. *)
Lemma trailing_gives_empty (s : str) :
  Spec.trailing_separator s = true ->
  exists ts, ts <> [] /\ Spec.pieces s = ts ++ [Empty].
Proof.
  induction s as [|a s IH]; [discriminate|].
  cbn [Spec.trailing_separator]. rewrite pieces_cons. destruct s as [|b s].
  - intros ->. exists [Empty]. split; [discriminate|reflexivity].
  - intros H. destruct (IH H) as (ts & Hne & ->).
    destruct (TextProcessor.is_separator a).
    + exists (Empty :: ts). split; [discriminate|reflexivity].
    + destruct ts as [|t ts]; [congruence|].
      exists (Cons (Spec.comma_for_semicolon a) t :: ts).
      split; [discriminate|reflexivity].
Qed.

(** Two separators side by side leave an empty piece between them. *)
Lemma consecutive_gives_empty (s : str) :
  Spec.consecutive_separators s = true ->
  exists l1 l2, l1 <> [] /\ Spec.pieces s = l1 ++ Empty :: l2.
Proof.
  induction s as [|a s IH]; [discriminate|].
  cbn [Spec.consecutive_separators]. destruct s as [|b s]; [discriminate|].
  intros H. apply orb_true_iff in H. destruct H as [H|H].
  - apply andb_true_iff in H. destruct H as [Ha Hb].
    rewrite pieces_cons, Ha, pieces_cons, Hb.
    exists [Empty], (Spec.pieces s). split; [discriminate|reflexivity].
  - destruct (IH H) as (l1 & l2 & Hne & E).
    rewrite pieces_cons, E.
    destruct (TextProcessor.is_separator a).
    + exists (Empty :: l1), l2. split; [discriminate|reflexivity].
    + destruct l1 as [|t l1]; [congruence|].
      exists (Cons (Spec.comma_for_semicolon a) t :: l1), l2.
      split; [discriminate|reflexivity].
Qed.

(** The barcode path keeps the empty tokens. *)
Lemma barcode_tokens_keep_empty (t : str) :
  Spec.consecutive_separators t || Spec.trailing_separator t = true ->
  In Empty (BarcodeService.ingredient_tokens t).
Proof.
  intros H. unfold BarcodeService.ingredient_tokens.
  rewrite replace_semicolon. fold (Spec.pieces t).
  change Empty with (Str.strip Empty). apply in_map.
  apply orb_true_iff in H. destruct H as [H|H].
  - destruct (consecutive_gives_empty t H) as (l1 & l2 & _ & ->).
    apply in_or_app. right. now left.
  - destruct (trailing_gives_empty t H) as (ts & _ & ->).
    apply in_or_app. right. now left.
Qed.

Lemma separators_nonempty (t : str) :
  Spec.consecutive_separators t || Spec.trailing_separator t = true ->
  Py.truthy (PStr t) = true.
Proof.
  destruct t; [discriminate|reflexivity].
Qed.

(** C10. A product whose ingredients text has two separators side by side
    or a separator at its end gets a list with an empty string in it from
    the barcode path; the OCR path never puts an empty string in its list;
    on the raw text ["sugar,,salt,"] the two lists differ. *)
Theorem C10_empty_ingredient_entries :
  (forall (product rec : pyval) (t : str),
     BarcodeService._extract_product_data product = inr rec ->
     field2 "ingredients" "raw" rec = Some (PStr t) ->
     Spec.consecutive_separators t || Spec.trailing_separator t = true ->
     exists l,
       field2 "ingredients" "list" rec = Some (PList l) /\
       In (PStr Empty) l) /\
  (forall (text : str) (l : list pyval),
     field "list" (TextProcessor._extract_ingredients text) = Some (PList l) ->
     ~ In (PStr Empty) l) /\
  (exists rec,
     BarcodeService._extract_product_data Sample.product = inr rec /\
     field2 "ingredients" "raw" rec = Some (PStr "sugar,,salt,") /\
     field "raw" (TextProcessor._extract_ingredients "Ingredients: sugar,,salt,")
       = Some (PStr "sugar,,salt,") /\
     field2 "ingredients" "list" rec
       = Some (PList [PStr "sugar"; PStr ""; PStr "salt"; PStr ""]) /\
     field "list" (TextProcessor._extract_ingredients "Ingredients: sugar,,salt,")
       = Some (PList [PStr "sugar"; PStr "salt"])).
Proof.
  split; [|split].
  - intros product rec t Hrec Hraw Hsep.
    apply BarcodeFacts.extract_product_data_shape in Hrec.
    destruct Hrec as (? & ? & ? & ? & ? & ? & ? & l & raw & ? & ? & ? & ? & ?
                      & Hl & ->).
    cbn in Hraw. injection Hraw as ->.
    exists l. split; [reflexivity|].
    unfold BarcodeService.ingredients_list_of in Hl.
    rewrite (separators_nonempty t Hsep) in Hl. injection Hl as <-.
    apply in_map. now apply barcode_tokens_keep_empty.
  - intros text l. apply TextFacts.ingredients_loop_no_empty.
  - eexists. split; [vm_compute; reflexivity|]. repeat split.
Qed.

End Tokens.

#[local] Existing Instance Sample.runtime.

Lemma C10_witness :
  exists l,
    field2 "ingredients" "list" Sample.barcode_record = Some (PList l) /\
    In (PStr Empty) l.
Proof.
  apply (proj1 C10_empty_ingredient_entries Sample.product Sample.barcode_record
           "sugar,,salt,").
  - vm_compute. reflexivity.
  - reflexivity.
  - reflexivity.
Defined.

End IngredientFacts.

Module EngineFacts.

Import Re CharFacts ReFacts Notions.

Section Engine.

Context {py : CPython.runtime}.

Lemma suffix_refl (s : str) : suffix_of s s.
Proof. now exists Empty. Qed.

Lemma suffix_trans (a b c : str) : suffix_of a b -> suffix_of b c -> suffix_of a c.
Proof.
  intros [p ->] [q ->]. exists (q ++ p)%str. now rewrite app_assoc_str.
Qed.

Lemma suffix_tail (c : char) (s : str) : suffix_of s (Cons c s).
Proof. now exists (Cons c Empty). Qed.

Lemma suffix_length (a b : str) :
  suffix_of a b -> (Str.length a <= Str.length b)%nat.
Proof. intros [p ->]. rewrite length_app. lia. Qed.

Lemma capture_from_trans (s s' : str) (c0 c1 c2 : option str) :
  suffix_of s' s -> capture_from s c0 c1 -> capture_from s' c1 c2 ->
  capture_from s c0 c2.
Proof.
  intros Hs H1 [->|(s1 & s2 & H11 & H12 & ->)]; [exact H1|].
  right. exists s1, s2. repeat split; [eapply suffix_trans; eassumption|assumption].
Qed.

(** Whatever the matcher returns was returned by its continuation, called
    on a rest of the text. *)
Lemma rmatch_inv (icase : bool) (r : regex) :
  forall (prev : option char) (s : str) (cap : option str) (k : kont)
         (m : match_obj),
    rmatch icase r prev s cap k = Some m ->
    exists prev' s' cap',
      k prev' s' cap' = Some m /\ suffix_of s' s /\ capture_from s cap cap'.
Proof.
  induction r as [|c|neg items|r1 IH1 r2 IH2|r1 IH1 r2 IH2|r1 IH1|r1 IH1|r1 IH1|];
    intros prev s cap k m H.
  - exists prev, s, cap. repeat split; [exact H|apply suffix_refl|now left].
  - cbn [rmatch] in H. destruct s as [|d s]; [discriminate|].
    destruct (chr_matches icase c d); [|discriminate].
    exists (Some d), s, cap. repeat split; [exact H|apply suffix_tail|now left].
  - cbn [rmatch] in H. destruct s as [|d s]; [discriminate|].
    destruct (cls_matches icase neg items d); [|discriminate].
    exists (Some d), s, cap. repeat split; [exact H|apply suffix_tail|now left].
  - rewrite step_seq in H. apply IH1 in H.
    destruct H as (p1 & s1 & c1 & H & Hs1 & Hc1).
    apply IH2 in H. destruct H as (p2 & s2 & c2 & H & Hs2 & Hc2).
    exists p2, s2, c2. repeat split; [exact H|eapply suffix_trans; eassumption|].
    eapply capture_from_trans; eassumption.
  - rewrite step_alt in H.
    destruct (rmatch icase r1 prev s cap k) as [m1|] eqn:E.
    + injection H as <-. now apply IH1 in E.
    + now apply IH2 in H.
  - cbn [rmatch] in H. remember (Str.length s) as n eqn:Hn. clear Hn.
    revert prev s cap H. induction n as [|n IHn]; intros prev s cap H.
    + exists prev, s, cap. repeat split; [exact H|apply suffix_refl|now left].
    + match type of H with
      | match ?X with _ => _ end = _ => destruct X as [m1|] eqn:E
      end.
      * injection H as <-. apply IH1 in E.
        destruct E as (p1 & s1 & c1 & E & Hs1 & Hc1).
        destruct (Str.length s1 <? Str.length s)%nat; [|discriminate].
        apply IHn in E. destruct E as (p2 & s2 & c2 & E & Hs2 & Hc2).
        exists p2, s2, c2.
        repeat split; [exact E|eapply suffix_trans; eassumption|].
        eapply capture_from_trans; eassumption.
      * exists prev, s, cap. repeat split; [exact H|apply suffix_refl|now left].
  - rewrite step_group in H. apply IH1 in H.
    destruct H as (p1 & s1 & c1 & H & Hs1 & Hc1).
    exists p1, s1, (Some (Str.take (Str.length s - Str.length s1) s)).
    repeat split; [exact H|exact Hs1|].
    right. exists s, s1. repeat split; [apply suffix_refl|exact Hs1].
  - cbn [rmatch] in H.
    destruct (rmatch icase r1 prev s cap _); [discriminate|].
    exists prev, s, cap. repeat split; [exact H|apply suffix_refl|now left].
  - cbn [rmatch] in H.
    destruct (xorb (word_before prev) (word_after s)); [|discriminate].
    exists prev, s, cap. repeat split; [exact H|apply suffix_refl|now left].
Qed.

Lemma take_front (front rest : str) :
  Str.take (Str.length (front ++ rest) - Str.length rest) (front ++ rest) = front.
Proof. apply take_length_diff. Qed.

Lemma captured_part (s : str) (cap : option str) :
  capture_from s None cap ->
  cap = None \/ exists g, cap = Some g /\ part_of g s.
Proof.
  intros [->|(s1 & s2 & [pre ->] & [front ->] & ->)]; [now left|].
  right. rewrite take_front. exists front. split; [reflexivity|].
  now exists pre, s2.
Qed.

Lemma part_of_suffix (g s' s : str) : part_of g s' -> suffix_of s' s -> part_of g s.
Proof.
  intros (a & b & ->) [pre ->]. exists (pre ++ a)%str, b.
  now rewrite app_assoc_str.
Qed.

(** A match ends on a rest of the text and captures a part of it. *)
Lemma search_from_inv (icase : bool) (r : regex) (s : str) :
  forall (prev : option char) (m : match_obj),
    search_from icase r prev s = Some m ->
    suffix_of (m_rest m) s /\
    (m_group1 m = None \/ exists g, m_group1 m = Some g /\ part_of g s) /\
    exists prev0 s0, suffix_of s0 s /\ match_here icase r prev0 s0 = Some m.
Proof.
  induction s as [|c s IH]; intros prev m H; cbn [search_from] in H.
  - destruct (match_here icase r prev Empty) as [m0|] eqn:E; [|discriminate].
    injection H as <-. pose proof E as E0.
    apply rmatch_inv in E. destruct E as (p & s' & c' & E & Hs & Hc).
    injection E as <-. cbn [m_rest m_group1].
    repeat split; [exact Hs|now apply captured_part|].
    exists prev, Empty. split; [apply suffix_refl|exact E0].
  - destruct (match_here icase r prev (Cons c s)) as [m0|] eqn:E.
    + injection H as <-. pose proof E as E0.
      apply rmatch_inv in E. destruct E as (p & s' & c' & E & Hs & Hc).
      injection E as <-. cbn [m_rest m_group1].
      repeat split; [exact Hs|now apply captured_part|].
      exists prev, (Cons c s). split; [apply suffix_refl|exact E0].
    + apply IH in H. destruct H as (Hs & Hg & p0 & s0 & Hs0 & Hm).
      repeat split.
      * eapply suffix_trans; [exact Hs|apply suffix_tail].
      * destruct Hg as [Hg|(g & Hg & Hp)]; [now left|right].
        exists g. split; [exact Hg|].
        eapply part_of_suffix; [exact Hp|apply suffix_tail].
      * exists p0, s0. split; [|exact Hm].
        eapply suffix_trans; [exact Hs0|apply suffix_tail].
Qed.

(** A capture that is set stays set. *)
Lemma rmatch_keeps_group (icase : bool) (r : regex) :
  forall (prev : option char) (s : str) (g : str) (k : kont) (m : match_obj),
    rmatch icase r prev s (Some g) k = Some m ->
    exists prev' s' g', k prev' s' (Some g') = Some m.
Proof.
  induction r as [|c|neg items|r1 IH1 r2 IH2|r1 IH1 r2 IH2|r1 IH1|r1 IH1|r1 IH1|];
    intros prev s g k m H.
  - now exists prev, s, g.
  - cbn [rmatch] in H. destruct s as [|d s]; [discriminate|].
    destruct (chr_matches icase c d); [|discriminate]. now exists (Some d), s, g.
  - cbn [rmatch] in H. destruct s as [|d s]; [discriminate|].
    destruct (cls_matches icase neg items d); [|discriminate]. now exists (Some d), s, g.
  - rewrite step_seq in H. apply IH1 in H. destruct H as (p1 & s1 & g1 & H).
    now apply IH2 in H.
  - rewrite step_alt in H.
    destruct (rmatch icase r1 prev s (Some g) k) as [m1|] eqn:E.
    + injection H as <-. now apply IH1 in E.
    + now apply IH2 in H.
  - cbn [rmatch] in H. remember (Str.length s) as n eqn:Hn. clear Hn.
    revert prev s g H. induction n as [|n IHn]; intros prev s g H.
    + now exists prev, s, g.
    + match type of H with
      | match ?X with _ => _ end = _ => destruct X as [m1|] eqn:E
      end.
      * injection H as <-. apply IH1 in E. destruct E as (p1 & s1 & g1 & E).
        destruct (Str.length s1 <? Str.length s)%nat; [|discriminate].
        now apply IHn in E.
      * now exists prev, s, g.
  - rewrite step_group in H.
    destruct (rmatch_inv _ _ _ _ _ _ _ H) as (p1 & s1 & c1 & H1 & _ & _).
    now exists p1, s1, (Str.take (Str.length s - Str.length s1) s).
  - cbn [rmatch] in H.
    destruct (rmatch icase r1 prev s (Some g) _); [discriminate|].
    now exists prev, s, g.
  - cbn [rmatch] in H.
    destruct (xorb (word_before prev) (word_after s)); [|discriminate].
    now exists prev, s, g.
Qed.

(** A pattern with a group on every way through it sets the capture. *)
Lemma rmatch_sets_group (icase : bool) (r : regex) :
  sets_group r = true ->
  forall (prev : option char) (s : str) (cap : option str) (k : kont)
         (m : match_obj),
    rmatch icase r prev s cap k = Some m ->
    exists prev' s' g', k prev' s' (Some g') = Some m.
Proof.
  induction r as [|c|neg items|r1 IH1 r2 IH2|r1 IH1 r2 IH2|r1 IH1|r1 IH1|r1 IH1|];
    cbn [sets_group]; intros Hset prev s cap k m H; try discriminate Hset.
  - rewrite step_seq in H. destruct (sets_group r1) eqn:E1.
    + apply (IH1 eq_refl) in H. destruct H as (p1 & s1 & g1 & H).
      now apply rmatch_keeps_group in H.
    + cbn [orb] in Hset. apply rmatch_inv in H.
      destruct H as (p1 & s1 & c1 & H & _ & _). now apply (IH2 Hset) in H.
  - apply andb_true_iff in Hset. destruct Hset as [H1 H2].
    rewrite step_alt in H.
    destruct (rmatch icase r1 prev s cap k) as [m1|] eqn:E.
    + injection H as <-. now apply (IH1 H1) in E.
    + now apply (IH2 H2) in H.
  - rewrite step_group in H.
    destruct (rmatch_inv _ _ _ _ _ _ _ H) as (p1 & s1 & c1 & H1 & _ & _).
    now exists p1, s1, (Str.take (Str.length s - Str.length s1) s).
Qed.

Lemma search_group_inv (icase : bool) (pattern : regex) (text : str)
    (m : match_obj) :
  In pattern group_patterns ->
  search icase pattern text = Some m ->
  exists g, m_group1 m = Some g /\ group1 m = g /\ part_of g text.
Proof.
  intros Hin H.
  assert (Hset : sets_group pattern = true).
  { assert (Hall : forallb sets_group group_patterns = true)
      by (vm_compute; reflexivity).
    rewrite forallb_forall in Hall. now apply Hall. }
  unfold search in H. apply search_from_inv in H.
  destruct H as (_ & Hg & p0 & s0 & _ & Hm).
  apply (rmatch_sets_group _ _ Hset) in Hm. destruct Hm as (p' & s' & g' & Hm).
  injection Hm as Hm. unfold group1.
  destruct Hg as [Hg|(g & Hg & Hp)].
  - rewrite <- Hm in Hg. discriminate Hg.
  - exists g. rewrite Hg. repeat split. exact Hp.
Qed.

(** X1. [group(1)] of every match of the patterns of [TextProcessor] is
    set (so [int] and [float] are never handed [None]), and it is a part of
    the text that was searched. *)
Theorem group1_is_part_of_text (icase : bool) (pattern : regex) (text : str)
    (m : match_obj) :
  In pattern group_patterns ->
  search icase pattern text = Some m ->
  exists g, m_group1 m = Some g /\ group1 m = g /\ part_of g text.
Proof. apply search_group_inv. Qed.

End Engine.

#[local] Existing Instance Sample.runtime.

Lemma group1_is_part_of_text_witness :
  exists g,
    m_group1 (MatchObj " kcal" (Some "250")) = Some g /\
    group1 (MatchObj " kcal" (Some "250")) = g /\
    part_of g "calories: 250 kcal".
Proof.
  apply (group1_is_part_of_text true
           (seqs [lit "calorie"; opt (Chr "s"); TextProcessor.sep;
                  Group TextProcessor.digits])
           "calories: 250 kcal").
  - left. reflexivity.
  - vm_compute. reflexivity.
Defined.

End EngineFacts.

(** ** Strings *)

Module StrFacts.

Import Notions CharFacts ReFacts EngineFacts.

Section Strings.

Context {py : CPython.runtime}.

Lemma rev_onto_app (s acc : str) :
  Str.rev_onto s acc = (Str.rev s ++ acc)%str.
Proof.
  unfold Str.rev. revert acc. induction s as [|c s IH]; intros acc; [reflexivity|].
  cbn [Str.rev_onto]. rewrite (IH (Cons c acc)), (IH (Cons c Empty)).
  now rewrite app_assoc_str.
Qed.

Lemma rev_cons (c : char) (s : str) :
  Str.rev (Cons c s) = (Str.rev s ++ Cons c Empty)%str.
Proof. unfold Str.rev at 1. cbn [Str.rev_onto]. apply rev_onto_app. Qed.

Lemma rev_app (a b : str) : Str.rev (a ++ b) = (Str.rev b ++ Str.rev a)%str.
Proof.
  induction a as [|c a IH]; cbn [Str.app].
  - now rewrite app_empty_r.
  - now rewrite !rev_cons, IH, app_assoc_str.
Qed.

Lemma rev_involutive (s : str) : Str.rev (Str.rev s) = s.
Proof.
  induction s as [|c s IH]; [reflexivity|].
  now rewrite rev_cons, rev_app, IH.
Qed.

Lemma lstrip_suffix (s : str) : suffix_of (Str.lstrip s) s.
Proof.
  induction s as [|c s IH]; cbn [Str.lstrip]; [apply suffix_refl|].
  destruct (Char.is_space c); [|apply suffix_refl].
  eapply suffix_trans; [exact IH|apply suffix_tail].
Qed.

Lemma rstrip_prefix (s : str) : exists back, s = (Str.rstrip s ++ back)%str.
Proof.
  unfold Str.rstrip. destruct (lstrip_suffix (Str.rev s)) as [front E].
  exists (Str.rev front).
  rewrite <- rev_app, <- E. now rewrite rev_involutive.
Qed.

(** [strip] returns a part of the string. *)
Lemma strip_part (s : str) : part_of (Str.strip s) s.
Proof.
  unfold Str.strip. destruct (lstrip_suffix s) as [front E].
  destruct (rstrip_prefix (Str.lstrip s)) as [back E'].
  exists front, back. now rewrite <- E', <- E.
Qed.

Lemma part_of_trans (a b c : str) : part_of a b -> part_of b c -> part_of a c.
Proof.
  intros (x & y & ->) (u & v & ->).
  exists (u ++ x)%str, (y ++ v)%str. now rewrite !app_assoc_str.
Qed.

Lemma all_chars_app (p : char -> bool) (a b : str) :
  all_chars p (a ++ b) = all_chars p a && all_chars p b.
Proof.
  induction a as [|c a IH]; [reflexivity|].
  cbn [Str.app all_chars]. now rewrite IH, andb_assoc.
Qed.

Lemma all_chars_part (p : char -> bool) (g s : str) :
  part_of g s -> all_chars p s = true -> all_chars p g = true.
Proof.
  intros (a & b & ->). rewrite !all_chars_app. intros H.
  apply andb_true_iff in H. destruct H as [_ H].
  apply andb_true_iff in H. now destruct H.
Qed.

Lemma lstrip_starts_clean (s : str) : starts_clean (Str.lstrip s) = true.
Proof.
  induction s as [|c s IH]; [reflexivity|]. cbn [Str.lstrip].
  destruct (Char.is_space c) eqn:E; [exact IH|]. cbn. now rewrite E.
Qed.

Lemma rstrip_ends_clean (s : str) : ends_clean (Str.rstrip s) = true.
Proof.
  unfold ends_clean, Str.rstrip. rewrite rev_involutive. apply lstrip_starts_clean.
Qed.

(** Stripping the front of [a ++ c] leaves [c] at its end when [c] is no
    white space. *)
Lemma lstrip_keeps_last (a : str) (c : char) :
  Char.is_space c = false ->
  exists a', Str.lstrip (a ++ Cons c Empty) = (a' ++ Cons c Empty)%str.
Proof.
  intros Hc. induction a as [|d a IH]; cbn [Str.app Str.lstrip].
  - rewrite Hc. now exists Empty.
  - destruct (Char.is_space d); [exact IH|].
    now exists (Cons d a).
Qed.

Lemma rstrip_starts_clean (s : str) :
  starts_clean s = true -> starts_clean (Str.rstrip s) = true.
Proof.
  destruct s as [|c s]; [reflexivity|]. cbn [starts_clean]. intros Hc.
  apply negb_true_iff in Hc. unfold Str.rstrip. rewrite rev_cons.
  destruct (lstrip_keeps_last (Str.rev s) c Hc) as [a' ->].
  rewrite rev_app. cbn. now rewrite Hc.
Qed.

Lemma strip_clean (s : str) :
  starts_clean (Str.strip s) = true /\ ends_clean (Str.strip s) = true.
Proof.
  unfold Str.strip. split.
  - apply rstrip_starts_clean, lstrip_starts_clean.
  - apply rstrip_ends_clean.
Qed.

(** The pieces of a split hold no separator. *)
Lemma split_on_pieces (sep : char -> bool) (s piece : str) :
  In piece (Str.split_on sep s) ->
  all_chars (fun c => negb (sep c)) piece = true.
Proof.
  revert piece. induction s as [|c s IH]; intros piece; cbn [Str.split_on].
  - intros [<-|[]]. reflexivity.
  - destruct (sep c) eqn:E.
    + intros [<-|H]; [reflexivity|now apply IH].
    + destruct (Str.split_on sep s) as [|t ts].
      * intros [<-|[]]. cbn. now rewrite E.
      * intros [<-|H].
        -- cbn. rewrite E. apply IH. now left.
        -- apply IH. now right.
Qed.

End Strings.

End StrFacts.

(** ** More on the field extractors *)

Module ExtractorFacts.

Import Re TextProcessor Notions CharFacts ReFacts EngineFacts StrFacts.

Section Tokens.

Context {py : CPython.runtime}.

(** X2. A token of the OCR-path ingredient list is never empty, holds no
    comma and no semicolon, and has no white space at its front or end. *)
Theorem ingredient_tokens_clean (t tok : str) :
  In tok (TextProcessor.ingredient_tokens t) ->
  tok <> Empty /\
  all_chars (fun c => negb (is_separator c)) tok = true /\
  starts_clean tok = true /\ ends_clean tok = true.
Proof.
  unfold TextProcessor.ingredient_tokens. intros H.
  apply in_map_iff in H. destruct H as (piece & <- & H).
  apply filter_In in H. destruct H as [Hin Hne].
  split; [|split].
  - intros E. rewrite E in Hne. discriminate Hne.
  - eapply all_chars_part; [apply strip_part|].
    eapply split_on_pieces. exact Hin.
  - apply strip_clean.
Qed.

Lemma not_separator_fixed (a : char) :
  is_separator a = false -> Spec.comma_for_semicolon a = a.
Proof.
  unfold is_separator, Spec.comma_for_semicolon. intros H.
  apply orb_false_iff in H. destruct H as [_ H].
  rewrite char_eqb_sym in H. now rewrite H.
Qed.

(** Splitting at commas and semicolons is splitting at commas once the
    semicolons are commas. *)
Lemma split_is_pieces (t : str) :
  Str.split_on is_separator t = Spec.pieces t.
Proof.
  induction t as [|a t IH]; [reflexivity|].
  rewrite IngredientFacts.pieces_cons. cbn [Str.split_on]. rewrite IH.
  destruct (is_separator a) eqn:E; [reflexivity|].
  now rewrite (not_separator_fixed a E).
Qed.

Lemma filter_map_strip (l : list str) :
  List.filter (fun tok => negb (Str.is_empty tok)) (List.map Str.strip l) =
  List.map Str.strip
    (List.filter (fun ing => negb (Str.is_empty (Str.strip ing))) l).
Proof.
  induction l as [|x l IH]; [reflexivity|]. cbn [List.map List.filter].
  destruct (negb (Str.is_empty (Str.strip x))); cbn [List.map]; now rewrite IH.
Qed.

(** X3. On the same ingredients text the OCR path yields the list of the
    barcode path with the empty strings taken out. *)
Theorem ocr_tokens_are_barcode_tokens_filtered (t : str) :
  TextProcessor.ingredient_tokens t =
  List.filter (fun tok => negb (Str.is_empty tok)) (BarcodeService.ingredient_tokens t).
Proof.
  unfold TextProcessor.ingredient_tokens, BarcodeService.ingredient_tokens.
  rewrite IngredientFacts.replace_semicolon. fold (Spec.pieces t).
  rewrite split_is_pieces. symmetry. apply filter_map_strip.
Qed.

Lemma swap_separator_class (c : char) :
  is_separator (swap_separator c) = is_separator c.
Proof.
  unfold swap_separator, is_separator.
  destruct (Char.eqb c ",") eqn:E1; [reflexivity|].
  destruct (Char.eqb c ";") eqn:E2; [reflexivity|].
  now rewrite E1, E2.
Qed.

Lemma swap_separator_fixed (c : char) :
  is_separator c = false -> swap_separator c = c.
Proof.
  unfold swap_separator, is_separator. intros H.
  apply orb_false_iff in H. destruct H as [-> ->]. reflexivity.
Qed.

Lemma split_swap (t : str) :
  Str.split_on is_separator (Str.map swap_separator t) = Str.split_on is_separator t.
Proof.
  induction t as [|c t IH]; [reflexivity|].
  cbn [Str.map Str.split_on]. rewrite swap_separator_class, IH.
  destruct (is_separator c) eqn:E; [reflexivity|].
  now rewrite (swap_separator_fixed c E).
Qed.

(** X4. Which of the two separators stands where makes no difference:
    writing commas for semicolons and semicolons for commas leaves both
    paths' ingredient lists as they were. *)
Theorem ingredient_tokens_separator_blind (t : str) :
  TextProcessor.ingredient_tokens (Str.map swap_separator t)
    = TextProcessor.ingredient_tokens t /\
  BarcodeService.ingredient_tokens (Str.map swap_separator t)
    = BarcodeService.ingredient_tokens t.
Proof.
  split.
  - unfold TextProcessor.ingredient_tokens. now rewrite split_swap.
  - unfold BarcodeService.ingredient_tokens.
    rewrite !IngredientFacts.replace_semicolon.
    fold (Spec.pieces (Str.map swap_separator t)). fold (Spec.pieces t).
    now rewrite <- !split_is_pieces, split_swap.
Qed.

End Tokens.

#[local] Existing Instance Sample.runtime.

Lemma ingredient_tokens_clean_witness :
  "rice flour" <> Empty /\
  all_chars (fun c => negb (is_separator c)) "rice flour" = true /\
  starts_clean "rice flour" = true /\ ends_clean "rice flour" = true.
Proof.
  apply (ingredient_tokens_clean " salt ;; rice flour ,").
  right. left. reflexivity.
Defined.

Example separator_order :
  TextProcessor.ingredient_tokens "sugar, salt; water" = ["sugar"; "salt"; "water"] /\
  TextProcessor.ingredient_tokens "sugar; salt, water" = ["sugar"; "salt"; "water"].
Proof. split; reflexivity. Qed.

End ExtractorFacts.

Module FieldFacts.

Import Re TextProcessor Notions CharFacts ReFacts EngineFacts StrFacts.

Section Fields.

Context {py : CPython.runtime}.

Lemma digit_value_nonneg (c : char) : (0 <= Char.digit_value c)%Z.
Proof. unfold Char.digit_value. destruct (Char.digit c); lia. Qed.

Lemma digits_value_nonneg (s : str) :
  forall acc v, (0 <= acc)%Z -> Str.digits_value acc s = Some v -> (0 <= v)%Z.
Proof.
  induction s as [|c s IH]; intros acc v Hacc; cbn [Str.digits_value].
  - intros H. injection H as <-. exact Hacc.
  - destruct (Char.is_digit c); [|discriminate].
    apply IH. pose proof (digit_value_nonneg c). lia.
Qed.

Lemma to_int_nonneg (s : str) (v : Z) : Str.to_int s = Some v -> (0 <= v)%Z.
Proof.
  destruct s; [discriminate|]. unfold Str.to_int.
  destruct (Str.over_int_limit _); [discriminate|]. apply digits_value_nonneg. lia.
Qed.

Lemma calories_loop_cases (patterns : list regex) (text_lower : str) :
  (forall p, In p patterns -> In p group_patterns) ->
  calories_loop patterns text_lower = calories_missing \/
  exists v digits,
    calories_loop patterns text_lower = calories_found v /\
    (0 <= v)%Z /\
    Str.to_int digits = Some v /\
    part_of digits text_lower.
Proof.
  induction patterns as [|p patterns IH]; intros Hsub; [now left|].
  assert (IH' := IH (fun q Hq => Hsub q (or_intror Hq))).
  cbn [calories_loop].
  destruct (search true p text_lower) as [m|] eqn:Em; [|exact IH'].
  destruct (Str.to_int (group1 m)) as [v|] eqn:Ev; [|exact IH'].
  right. exists v, (group1 m). split; [reflexivity|].
  split; [now apply to_int_nonneg in Ev|]. split; [exact Ev|].
  destruct (search_group_inv true p text_lower m (Hsub p (or_introl eq_refl)) Em)
    as (g & _ & <- & Hp).
  exact Hp.
Qed.

(** X5. The calorie extractor returns the not-found record, or a found
    record whose value is no negative number and is what [int] reads from
    digits that stand in the lowered text. *)
Theorem calories_value_from_text (text : str) :
  _extract_calories text = calories_missing \/
  exists v digits,
    _extract_calories text = calories_found v /\
    (0 <= v)%Z /\
    Str.to_int digits = Some v /\
    part_of digits (Str.lower text).
Proof.
  apply calories_loop_cases. intros p Hp.
  unfold group_patterns. apply in_or_app. now left.
Qed.

Lemma serving_loop_value (patterns : list regex) (text_lower v : str) :
  (forall p, In p patterns -> In p group_patterns) ->
  field "value" (serving_loop patterns text_lower) = Some (PStr v) ->
  part_of v text_lower /\ starts_clean v = true /\ ends_clean v = true.
Proof.
  induction patterns as [|p patterns IH]; intros Hsub; cbn [serving_loop].
  - discriminate.
  - destruct (search true p text_lower) as [m|] eqn:Em.
    + intros H. injection H as <-.
      destruct (search_group_inv true p text_lower m (Hsub p (or_introl eq_refl)) Em)
        as (g & _ & <- & Hp).
      split; [|apply strip_clean].
      eapply part_of_trans; [apply strip_part|exact Hp].
    + apply IH. intros q Hq. apply Hsub. now right.
Qed.

Lemma ingredients_loop_raw (patterns : list regex) (text raw : str) :
  (forall p, In p patterns -> In p group_patterns) ->
  field "raw" (ingredients_loop patterns text) = Some (PStr raw) ->
  part_of raw text /\ starts_clean raw = true /\ ends_clean raw = true.
Proof.
  induction patterns as [|p patterns IH]; intros Hsub; cbn [ingredients_loop].
  - discriminate.
  - destruct (search true p text) as [m|] eqn:Em.
    + intros H. injection H as <-.
      destruct (search_group_inv true p text m (Hsub p (or_introl eq_refl)) Em)
        as (g & _ & <- & Hp).
      split; [|apply strip_clean].
      eapply part_of_trans; [apply strip_part|exact Hp].
    + apply IH. intros q Hq. apply Hsub. now right.
Qed.

(** X6. What the extractors report as serving size and as raw ingredients
    is copied from the text: the serving size is a part of the lowered
    text, the raw ingredients are a part of the text as given, both without
    white space at the front or the end. *)
Theorem extracted_strings_verbatim (text : str) :
  (forall v,
     field "value" (_extract_serving_size text) = Some (PStr v) ->
     part_of v (Str.lower text) /\ starts_clean v = true /\ ends_clean v = true) /\
  (forall raw,
     field "raw" (_extract_ingredients text) = Some (PStr raw) ->
     part_of raw text /\ starts_clean raw = true /\ ends_clean raw = true).
Proof.
  split.
  - intros v. apply serving_loop_value. intros p Hp.
    unfold group_patterns. apply in_or_app. right. apply in_or_app. now left.
  - intros raw. apply ingredients_loop_raw. intros p Hp.
    unfold group_patterns. apply in_or_app. right. apply in_or_app. right.
    apply in_or_app. now left.
Qed.

Lemma keys_set_new (d : Dict.t) (k : str) (v : pyval) :
  ~ In k (Dict.keys d) -> Dict.keys (Dict.set d k v) = Dict.keys d ++ [k].
Proof.
  unfold Dict.keys. induction d as [|[k0 v0] d IH]; intros H; [reflexivity|].
  cbn [Dict.set]. destruct (Str.eqb k k0) eqn:E.
  - apply str_eqb_eq in E. subst k0. exfalso. apply H. now left.
  - cbn [List.map fst app]. f_equal. apply IH. intros Hin. apply H. now right.
Qed.

Lemma nutrition_loop_keys (text_lower : str) (table : list (str * list regex)) :
  forall acc : Dict.t,
    NoDup (List.map fst table) ->
    (forall n, In n (List.map fst table) -> ~ In n (Dict.keys acc)) ->
    Dict.keys (nutrition_loop table text_lower acc) =
    Dict.keys acc ++ List.map fst (List.filter (row_found text_lower) table).
Proof.
  induction table as [|[n ps] table IH]; intros acc Hnd Hfresh.
  - cbn. now rewrite app_nil_r.
  - cbn [List.map fst] in Hnd. inversion Hnd as [|? ? Hn Hnd']; subst.
    cbn [nutrition_loop List.filter]. unfold row_found at 1. cbn [snd].
    destruct (nutrient_value ps text_lower) as [v|].
    + rewrite IH; [|exact Hnd'|].
      * rewrite keys_set_new by (apply Hfresh; now left).
        cbn [List.map fst]. now rewrite <- app_assoc.
      * intros k Hk. rewrite keys_set_new by (apply Hfresh; now left).
        intros Hin. apply in_app_or in Hin. destruct Hin as [Hin|[<-|[]]].
        -- apply (Hfresh k); [now right|exact Hin].
        -- exact (Hn Hk).
    + apply IH; [exact Hnd'|]. intros k Hk. apply Hfresh. now right.
Qed.

(** X7. The keys of the nutrition facts are the names of the table's rows
    that found a value, in the table's order: at most protein, fat,
    carbohydrates, sugar, fiber, sodium, each once. *)
Theorem nutrition_keys_in_table_order (text : str) :
  Dict.keys (nutrition_of text) =
  List.map fst (List.filter (row_found (Str.lower text)) nutrients).
Proof.
  unfold nutrition_of.
  rewrite nutrition_loop_keys; [reflexivity| |intros n _ []].
  cbn. repeat constructor; cbn; intuition discriminate.
Qed.

Lemma dedup_in (x : str) (l : list str) : In x (dedup l) <-> In x l.
Proof.
  induction l as [|y l IH]; [reflexivity|]. cbn [dedup]. split.
  - intros [<-|H]; [now left|]. apply filter_In in H. right. now apply IH.
  - intros [<-|H]; [now left|].
    destruct (Str.eqb y x) eqn:E.
    + apply str_eqb_eq in E. now left.
    + right. apply filter_In. split; [now apply IH|]. now rewrite E.
Qed.

Lemma dedup_nodup (l : list str) : NoDup (dedup l).
Proof.
  induction l as [|y l IH]; cbn [dedup]; constructor.
  - intros H. apply filter_In in H. destruct H as [_ H].
    now rewrite str_eqb_refl in H.
  - now apply NoDup_filter.
Qed.

Lemma dedup_nil (l : list str) : is_nil (dedup l) = is_nil l.
Proof. destruct l; reflexivity. Qed.

Lemma length_pos_not_nil {A : Type} (l : list A) :
  (0 <? List.length l)%nat = negb (is_nil l).
Proof. destruct l; reflexivity. Qed.

(** X8. The allergens the extractor lists are terms of its fixed
    vocabulary, each listed once, and [found] says whether the list has an
    entry. *)
Theorem allergens_from_vocabulary (text : str) :
  exists names,
    _extract_allergens text =
      PDict [("list", PList (List.map PStr names));
             ("found", PBool (negb (is_nil names)))] /\
    NoDup names /\
    (forall a, In a names -> In a common_allergens).
Proof.
  unfold _extract_allergens.
  destruct (search true allergen_section_pattern (Str.lower text)) as [m|].
  - eexists. split; [|split].
    + rewrite length_pos_not_nil, <- dedup_nil. reflexivity.
    + apply dedup_nodup.
    + intros a Ha. apply dedup_in, filter_In in Ha. apply Ha.
  - eexists. split; [|split].
    + rewrite length_pos_not_nil, <- dedup_nil. reflexivity.
    + apply dedup_nodup.
    + intros a Ha. apply dedup_in, filter_In in Ha. apply Ha.
Qed.

End Fields.

#[local] Existing Instance Sample.runtime.

Lemma extracted_strings_verbatim_witness :
  part_of SampleData.serving_value (Str.lower SampleData.serving_text) /\
  starts_clean SampleData.serving_value = true /\
  ends_clean SampleData.serving_value = true.
Proof.
  apply (proj1 (extracted_strings_verbatim SampleData.serving_text)).
  vm_compute. reflexivity.
Defined.

Example allergens_substring_hits :
  _extract_allergens "Contains: milk, soybeans. Made with peanuts" =
  PDict [("list", PList [PStr "milk"; PStr "peanuts"; PStr "soybeans"; PStr "soy"]);
         ("found", PBool true)].
Proof. vm_compute. reflexivity. Qed.

End FieldFacts.

Module CleanFacts.

Import Re TextProcessor Notions CharFacts ReFacts EngineFacts StrFacts.

Section Cleaning.

Context {py : CPython.runtime}.

(** [\s] as a class of its own. *)
Lemma ws_exact (icase : bool) (d : char) :
  cls_matches icase false [Space] d = Char.is_space d.
Proof. unfold cls_matches. cbn. now rewrite orb_false_r. Qed.

(** A mark of the kept class matches itself and nothing else. *)
Lemma one_exact (c d : char) : item_matches false d (One c) = Char.eqb d c.
Proof. cbn. apply char_eqb_sym. Qed.

(** The class of [_clean_text] holds the kept characters. *)
Lemma kept_class_exact (d : char) :
  cls_matches false true kept_class d = negb (kept_char d).
Proof.
  unfold cls_matches, kept_class, kept_char. cbn [xorb]. f_equal.
  cbn [existsb]. rewrite !one_exact.
  cbn [item_matches Str.contains Str.startswith].
  rewrite !andb_true_r, !orb_false_r, !orb_assoc. reflexivity.
Qed.

Lemma lstrip_length (s : str) : (Str.length (Str.lstrip s) <= Str.length s)%nat.
Proof. apply suffix_length, lstrip_suffix. Qed.

(** A run of white space is matched to its end. *)
Lemma star_ws_run (s : str) (prev : option char) :
  rmatch false (Star ws) prev s None accept = Some (MatchObj (Str.lstrip s) None).
Proof.
  revert prev. induction s as [|c s IH]; intros prev; [reflexivity|].
  cbn [Str.lstrip]. unfold ws in *. destruct (Char.is_space c) eqn:E.
  - rewrite star_cls_hit by (now rewrite ws_exact). now rewrite IH.
  - rewrite star_cls_miss by (now rewrite ws_exact). reflexivity.
Qed.

Lemma match_ws_run (c : char) (s : str) (prev : option char) :
  match_here false (plus ws) prev (Cons c s) =
  if Char.is_space c then Some (MatchObj (Str.lstrip s) None) else None.
Proof.
  unfold match_here, plus. rewrite step_seq. unfold ws at 1.
  destruct (Char.is_space c) eqn:E.
  - rewrite step_cls_hit by (now rewrite ws_exact). apply star_ws_run.
  - apply step_cls_miss. now rewrite ws_exact.
Qed.

(** After [re.sub(r'\s+', ' ', text)] the only white space is the space. *)
Lemma sub_ws_plain (fuel : nat) :
  forall (prev : option char) (s : str),
    (Str.length s <= fuel)%nat ->
    all_chars plain_space (sub_fuel fuel (plus ws) " " prev s) = true.
Proof.
  induction fuel as [|fuel IH]; intros prev s Hlen.
  - destruct s; [reflexivity|cbn in Hlen; lia].
  - destruct s as [|c s]; [reflexivity|]. cbn [sub_fuel]. rewrite match_ws_run.
    cbn [Str.length] in Hlen. pose proof (lstrip_length s) as Hl.
    destruct (Char.is_space c) eqn:E.
    + cbn [m_rest Str.length].
      replace (Str.length (Str.lstrip s) <? S (Str.length s))%nat with true
        by (symmetry; apply Nat.ltb_lt; lia).
      cbn [Str.app all_chars]. rewrite IH by lia. reflexivity.
    + cbn [all_chars]. rewrite IH by lia. unfold plain_space. now rewrite E.
Qed.

Lemma match_unkept (c : char) (s : str) (prev : option char) :
  match_here false (Cls true kept_class) prev (Cons c s) =
  if kept_char c then None else Some (MatchObj s None).
Proof.
  unfold match_here. destruct (kept_char c) eqn:E.
  - apply step_cls_miss. rewrite kept_class_exact, E. reflexivity.
  - rewrite step_cls_hit by (rewrite kept_class_exact, E; reflexivity). reflexivity.
Qed.

(** [re.sub(r'[^...]', '', text)] keeps the characters of the class, in
    their order. *)
Lemma sub_unkept_filter (fuel : nat) :
  forall (prev : option char) (s : str),
    (Str.length s <= fuel)%nat ->
    sub_fuel fuel (Cls true kept_class) "" prev s = Str.filter kept_char s.
Proof.
  induction fuel as [|fuel IH]; intros prev s Hlen.
  - destruct s; [reflexivity|cbn in Hlen; lia].
  - destruct s as [|c s]; [reflexivity|]. cbn [sub_fuel Str.filter].
    rewrite match_unkept. cbn [Str.length] in Hlen.
    destruct (kept_char c).
    + now rewrite IH by lia.
    + cbn [m_rest Str.length].
      replace (Str.length s <? S (Str.length s))%nat with true
        by (symmetry; apply Nat.ltb_lt; lia).
      cbn [Str.app]. apply IH. lia.
Qed.

Lemma filter_all (p : char -> bool) (s : str) :
  all_chars p (Str.filter p s) = true.
Proof.
  induction s as [|c s IH]; [reflexivity|]. cbn [Str.filter].
  destruct (p c) eqn:E; [|exact IH]. cbn [all_chars]. now rewrite E.
Qed.

Lemma filter_keeps_all (p q : char -> bool) (s : str) :
  all_chars q s = true -> all_chars q (Str.filter p s) = true.
Proof.
  induction s as [|c s IH]; [reflexivity|]. cbn [all_chars Str.filter].
  intros H. apply andb_true_iff in H. destruct H as [Hc Hs].
  destruct (p c); [cbn [all_chars]; rewrite Hc|]; now apply IH.
Qed.

Lemma clean_text_facts (text : str) :
  all_chars kept_char (_clean_text text) = true /\
  all_chars plain_space (_clean_text text) = true /\
  starts_clean (_clean_text text) = true /\
  ends_clean (_clean_text text) = true.
Proof.
  unfold _clean_text, sub.
  set (t1 := sub_fuel (Str.length text) (plus ws) " " None text).
  rewrite sub_unkept_filter by lia.
  split; [|split].
  - eapply all_chars_part; [apply strip_part|apply filter_all].
  - eapply all_chars_part; [apply strip_part|].
    apply filter_keeps_all. subst t1. now apply sub_ws_plain.
  - apply strip_clean.
Qed.

(** X9. The cleaned text holds only word characters, spaces and the
    marks [. , : ; - ( ) % /]; its only white space is the plain space (no
    line break is left); and it neither starts nor ends with white
    space. *)
Theorem clean_text_alphabet (text : str) :
  all_chars kept_char (_clean_text text) = true /\
  all_chars plain_space (_clean_text text) = true /\
  starts_clean (_clean_text text) = true /\
  ends_clean (_clean_text text) = true.
Proof. apply clean_text_facts. Qed.

(** *** The ingredients run to the end of the cleaned text *)

(** The line break is no letter: it matches itself only, also under
    [re.IGNORECASE]. *)
Lemma newline_any_case (d : char) :
  chr_matches true Char.newline d = Char.eqb d Char.newline.
Proof.
  rewrite char_eqb_sym. unfold chr_matches.
  destruct (Char.is_ascii d) eqn:Ed; [|reflexivity].
  cbn [Char.is_ascii Char.newline Char.code N.ltb N.compare Pos.compare
       Pos.compare_cont andb].
  change (Char.ascii_lower Char.newline) with Char.newline.
  unfold Char.ascii_lower. destruct (Char.is_upper d) eqn:Eu; [|reflexivity].
  destruct d as [n]. unfold Char.is_upper, Char.between, Char.eqb in *.
  cbn [Char.code Char.newline] in *.
  apply andb_true_iff in Eu. destruct Eu as [H1 H2].
  apply N.leb_le in H1, H2.
  transitivity false; [apply N.eqb_neq; lia|symmetry; apply N.eqb_neq; lia].
Qed.

Lemma not_newline_any_case (d : char) :
  cls_matches true true [One Char.newline] d = negb (Char.eqb d Char.newline).
Proof.
  unfold cls_matches. cbn [existsb item_matches xorb].
  now rewrite newline_any_case, orb_false_r.
Qed.

Lemma take_all (s : str) : Str.take (Str.length s - 0) s = s.
Proof.
  rewrite Nat.sub_0_r. induction s as [|c s IH]; [reflexivity|].
  cbn [Str.length Str.take]. now rewrite IH.
Qed.

(** On a text without line break a starred [[^\n]] runs to the end, when
    the rest of the pattern accepts there. *)
Lemma star_not_newline_all (s : str) :
  forall (prev : option char) (cap : option str) (k : kont),
    no_newline s = true ->
    (forall p, k p Empty cap <> None) ->
    exists p, rmatch true (Star not_newline) prev s cap k = k p Empty cap.
Proof.
  induction s as [|c s IH]; intros prev cap k Hs Hk.
  - now exists prev.
  - cbn [no_newline all_chars] in Hs. apply andb_true_iff in Hs.
    destruct Hs as [Hc Hs]. unfold not_newline in *.
    rewrite star_cls_hit by (now rewrite not_newline_any_case).
    destruct (IH (Some c) cap k Hs Hk) as [p ->]. exists p.
    destruct (k p Empty cap) eqn:E; [reflexivity|]. now destruct (Hk p).
Qed.

(** A group that is [[^\n]+], possibly followed by a starred part, takes
    all that is left of a text without line break. *)
Lemma group_takes_rest (tail : regex) (s : str) (prev : option char)
    (cap : option str) (m : match_obj) :
  no_newline s = true ->
  (forall p c k, rmatch true tail p Empty c k = k p Empty c) ->
  rmatch true (Group (Seq rest_of_line tail)) prev s cap accept = Some m ->
  m = MatchObj Empty (Some s).
Proof.
  intros Hs Htail H.
  rewrite step_group in H. unfold rest_of_line, plus in H.
  rewrite !step_seq in H.
  destruct s as [|c s]; [discriminate H|].
  cbn [no_newline all_chars] in Hs. apply andb_true_iff in Hs.
  destruct Hs as [Hc Hs]. unfold not_newline at 1 in H.
  rewrite step_cls_hit in H by (now rewrite not_newline_any_case).
  match type of H with
  | rmatch true (Star not_newline) ?p s ?c ?k = _ =>
      destruct (star_not_newline_all s p c k Hs) as [p' E]
  end.
  - intros p. rewrite Htail. discriminate.
  - rewrite E, Htail in H. unfold accept in H. rewrite take_all in H.
    now injection H.
Qed.

Lemma group_rest_of_line (s : str) (prev : option char) (cap : option str)
    (m : match_obj) :
  no_newline s = true ->
  rmatch true (Group rest_of_line) prev s cap accept = Some m ->
  m = MatchObj Empty (Some s).
Proof.
  intros Hs H. apply (group_takes_rest Eps s prev cap m Hs); [reflexivity|].
  exact H.
Qed.

(** The part of a match that comes after three leading pieces of the
    pattern starts on a rest of the text. *)
Lemma after_three (a1 a2 a3 g : regex) (prev : option char) (s : str)
    (cap : option str) (k : kont) (m : match_obj) :
  rmatch true (Seq a1 (Seq a2 (Seq a3 g))) prev s cap k = Some m ->
  exists p s3 c, suffix_of s3 s /\ rmatch true g p s3 c k = Some m.
Proof.
  intros H. rewrite step_seq in H. apply rmatch_inv in H.
  destruct H as (p1 & s1 & c1 & H & Hs1 & _).
  rewrite step_seq in H. apply rmatch_inv in H.
  destruct H as (p2 & s2 & c2 & H & Hs2 & _).
  rewrite step_seq in H. apply rmatch_inv in H.
  destruct H as (p3 & s3 & c3 & H & Hs3 & _).
  exists p3, s3, c3. split; [|exact H].
  eapply suffix_trans; [exact Hs3|]. eapply suffix_trans; eassumption.
Qed.

Lemma suffix_part (a b : str) : suffix_of a b -> part_of a b.
Proof. intros [front ->]. exists front, Empty. now rewrite app_empty_r. Qed.

Lemma all_chars_weaken (p q : char -> bool) (s : str) :
  (forall c, p c = true -> q c = true) ->
  all_chars p s = true -> all_chars q s = true.
Proof.
  intros Hpq. induction s as [|c s IH]; [reflexivity|]. cbn [all_chars].
  intros H. apply andb_true_iff in H. destruct H as [Hc Hs].
  now rewrite (Hpq c Hc), IH.
Qed.

Lemma plain_space_no_newline (s : str) :
  all_chars plain_space s = true -> no_newline s = true.
Proof.
  apply all_chars_weaken. intros c H.
  destruct (Char.eqb c Char.newline) eqn:E; [|reflexivity].
  apply char_eqb_eq in E. subst c. discriminate H.
Qed.

Lemma lstrip_id (s : str) : starts_clean s = true -> Str.lstrip s = s.
Proof.
  destruct s as [|c s]; [reflexivity|]. cbn [starts_clean Str.lstrip].
  intros H. apply negb_true_iff in H. now rewrite H.
Qed.

Lemma rstrip_id (s : str) : ends_clean s = true -> Str.rstrip s = s.
Proof.
  unfold ends_clean, Str.rstrip. intros H.
  now rewrite lstrip_id, rev_involutive.
Qed.

Lemma ends_clean_suffix (a b : str) :
  suffix_of a b -> ends_clean b = true -> ends_clean a = true.
Proof.
  intros [front ->]. unfold ends_clean. rewrite rev_app.
  destruct (Str.rev a) as [|c r]; [reflexivity|]. now cbn.
Qed.

(** On a text that ends clean, stripping a rest of it gives a rest of it. *)
Lemma strip_suffix (s text : str) :
  suffix_of s text -> ends_clean text = true -> suffix_of (Str.strip s) text.
Proof.
  intros Hs Hc. unfold Str.strip.
  assert (Hl : suffix_of (Str.lstrip s) text)
    by (eapply suffix_trans; [apply lstrip_suffix|exact Hs]).
  now rewrite rstrip_id by (eapply ends_clean_suffix; eassumption).
Qed.

Lemma ingredient_match_takes_rest (p : regex) (prev : option char) (s : str)
    (m : match_obj) :
  In p ingredient_patterns ->
  no_newline s = true ->
  match_here true p prev s = Some m ->
  exists s3, suffix_of s3 s /\ m = MatchObj Empty (Some s3).
Proof.
  intros Hin Hs H. unfold match_here in H.
  destruct Hin as [<-|[<-|[]]].
  - change (seqs [lit "ingredient"; opt (Chr "s"); sep;
                  Group (seqs [rest_of_line;
                               Star (seqs [Chr Char.newline; NotAhead (two_or_more capital);
                                           rest_of_line])])])
      with (Seq (lit "ingredient")
              (Seq (opt (Chr "s"))
                 (Seq sep
                    (Group (Seq rest_of_line
                              (Star (seqs [Chr Char.newline; NotAhead (two_or_more capital);
                                           rest_of_line]))))))) in H.
    apply after_three in H. destruct H as (p3 & s3 & c3 & Hs3 & H).
    exists s3. split; [exact Hs3|].
    eapply group_takes_rest; [| |exact H].
    + eapply all_chars_part; [apply suffix_part; exact Hs3|exact Hs].
    + reflexivity.
  - change (seqs [lit "contain"; opt (Chr "s"); sep; Group rest_of_line])
      with (Seq (lit "contain") (Seq (opt (Chr "s")) (Seq sep (Group rest_of_line))))
      in H.
    apply after_three in H. destruct H as (p3 & s3 & c3 & Hs3 & H).
    exists s3. split; [exact Hs3|].
    eapply group_rest_of_line; [|exact H].
    eapply all_chars_part; [apply suffix_part; exact Hs3|exact Hs].
Qed.

Lemma ingredients_loop_to_end (patterns : list regex) (text raw : str) :
  (forall p, In p patterns -> In p ingredient_patterns) ->
  no_newline text = true ->
  ends_clean text = true ->
  field "raw" (ingredients_loop patterns text) = Some (PStr raw) ->
  suffix_of raw text.
Proof.
  intros Hsub Hnl Hec.
  induction patterns as [|p patterns IH]; cbn [ingredients_loop]; [discriminate|].
  destruct (search true p text) as [m|] eqn:Em.
  - intros H. injection H as <-.
    unfold search in Em. apply search_from_inv in Em.
    destruct Em as (_ & _ & prev0 & s0 & Hs0 & Hm).
    apply ingredient_match_takes_rest in Hm.
    + destruct Hm as (s3 & Hs3 & ->). unfold group1. cbn [m_group1].
      apply strip_suffix; [|exact Hec]. eapply suffix_trans; eassumption.
    + apply Hsub. now left.
    + eapply all_chars_part; [apply suffix_part; exact Hs0|exact Hnl].
  - apply IH. intros q Hq. apply Hsub. now right.
Qed.

(** X10. In [extract_food_data] the raw ingredients always reach the end
    of the cleaned text: the cleaned text has no line break left, so the
    ingredient patterns take everything after the label. *)
Theorem ingredients_reach_end_of_text (text raw : str) :
  field2 "ingredients" "raw" (extract_food_data text) = Some (PStr raw) ->
  suffix_of raw (_clean_text text).
Proof.
  intros H. unfold extract_food_data, food_data, field2 in H. cbn [field] in H.
  change (Dict.lookup "ingredients" ?d) with
    (Some (_extract_ingredients (_clean_text text))) in H.
  destruct (clean_text_facts text) as (_ & Hp & _ & He).
  eapply ingredients_loop_to_end; [| | |exact H].
  - intros p Hp'. exact Hp'.
  - now apply plain_space_no_newline.
  - exact He.
Qed.

End Cleaning.

#[local] Existing Instance Sample.runtime.

Example clean_text_keeps_letters :
  _clean_text SampleData.sugar_milk = SampleData.sugar_milk_cleaned.
Proof. vm_compute. reflexivity. Qed.

Lemma ingredients_reach_end_of_text_witness :
  suffix_of "sugar, salt Calories: 250"
    (_clean_text "Ingredients: sugar, salt
Calories: 250").
Proof.
  apply ingredients_reach_end_of_text. vm_compute. reflexivity.
Defined.

End CleanFacts.

Module MapperFacts.

Import BarcodeService Notions CharFacts BarcodeFacts.

Section Mapper.

Context {py : CPython.runtime}.

Lemma py_get_dict (d : Dict.t) (k : str) (default : pyval) :
  py_get (PDict d) k default = inr (Dict.get_or d k default).
Proof. reflexivity. Qed.

Lemma first_present_value (n : Dict.t) (keys : list str) :
  first_present (PDict n) keys = inr (first_value n keys).
Proof.
  induction keys as [|key keys IH]; [reflexivity|].
  cbn [first_present first_value]. rewrite py_get_dict. cbn [bind].
  change (Dict.get_or n key PNone) with (Dict.get n key).
  destruct (Py.is_not_none (Dict.get n key)); [reflexivity|exact IH].
Qed.

(** The loop over the table: each row sets its own name and no other. *)
Lemma nutrition_loop_exact (n : Dict.t) (table : list (str * list str)) :
  forall acc : Dict.t,
    NoDup (List.map fst table) ->
    exists facts,
      nutrition_loop table (PDict n) acc = inr facts /\
      (forall name keys, In (name, keys) table ->
         Dict.lookup name facts = option_map (entry_of name) (first_value n keys) \/
         (first_value n keys = None /\ Dict.lookup name facts = Dict.lookup name acc)) /\
      (forall k, ~ In k (List.map fst table) ->
         Dict.lookup k facts = Dict.lookup k acc).
Proof.
  induction table as [|[name keys] table IH]; intros acc Hnd.
  - exists acc. split; [reflexivity|]. split; [intros ? ? []|reflexivity].
  - cbn [List.map fst] in Hnd. inversion Hnd as [|? ? Hname Hnd']; subst.
    cbn [nutrition_loop]. rewrite first_present_value. cbn [bind].
    destruct (first_value n keys) as [value|] eqn:Ev.
    + destruct (IH (Dict.set acc name (entry_of name value)) Hnd')
        as (facts & Hf & Hrows & Hother).
      exists facts. split; [exact Hf|]. split.
      * intros name' keys' [E|Hin].
        -- injection E as <- <-. left. rewrite Ev. cbn [option_map].
           rewrite (Hother name Hname), TextFacts.dict_lookup_set.
           now rewrite str_eqb_refl.
        -- destruct (Hrows name' keys' Hin) as [H|[H1 H2]]; [now left|right].
           split; [exact H1|]. rewrite H2, TextFacts.dict_lookup_set.
           destruct (Str.eqb name' name) eqn:E; [|reflexivity].
           apply str_eqb_eq in E. subst name'. exfalso. apply Hname.
           apply in_map_iff. now exists (name, keys').
      * intros k Hk. rewrite Hother by (intros H; apply Hk; now right).
        rewrite TextFacts.dict_lookup_set.
        destruct (Str.eqb k name) eqn:E; [|reflexivity].
        apply str_eqb_eq in E. subst k. exfalso. apply Hk. now left.
    + destruct (IH acc Hnd') as (facts & Hf & Hrows & Hother).
      exists facts. split; [exact Hf|]. split.
      * intros name' keys' [E|Hin].
        -- injection E as <- <-. right. split; [exact Ev|]. now apply Hother.
        -- now apply Hrows.
      * intros k Hk. apply Hother. intros H. apply Hk. now right.
Qed.

Lemma nutrition_facts_exact (n : Dict.t) :
  exists facts,
    _extract_nutrition_facts (PDict n) = inr (PDict facts) /\
    (forall name keys, In (name, keys) nutrient_map ->
       Dict.lookup name facts = option_map (entry_of name) (first_value n keys)).
Proof.
  unfold _extract_nutrition_facts.
  destruct (nutrition_loop_exact n nutrient_map []) as (facts & Hf & Hrows & _).
  { cbn. repeat constructor; cbn; intuition discriminate. }
  exists facts. rewrite Hf. split; [reflexivity|].
  intros name keys Hin. destruct (Hrows name keys Hin) as [H|[H1 H2]]; [exact H|].
  now rewrite H1, H2.
Qed.

(** The record of a product that is a dict, field by field. *)
Lemma extract_product_data_dict (d : Dict.t) (rec : pyval) :
  _extract_product_data (PDict d) = inr rec ->
  exists n facts ingredients_list allergens_list,
    nutriments_of d = PDict n /\
    _extract_nutrition_facts (PDict n) = inr facts /\
    ingredients_list_of (ingredients_text_of d) = inr ingredients_list /\
    rec = PDict
      [ ("source", PStr "openfoodfacts");
        ("barcode", Dict.get d "code");
        ("product_name", Py.or (Dict.get d "product_name") (Dict.get d "product_name_tr"));
        ("brands", Dict.get d "brands");
        ("categories", Dict.get d "categories");
        ("image_url", Dict.get d "image_url");
        ("calories",
          PDict [ ("value", Py.or (Dict.get n "energy-kcal_100g") (Dict.get n "energy-kcal"));
                  ("value_serving", Dict.get n "energy-kcal_serving");
                  ("unit", PStr "kcal");
                  ("found",
                    PBool (Py.is_not_none
                             (Py.or (Dict.get n "energy-kcal_100g")
                                (Dict.get n "energy-kcal")))) ]);
        ("serving_size",
          PDict [ ("value", Py.or (Dict.get d "serving_size") (Dict.get d "serving_quantity"));
                  ("found",
                    PBool (Py.is_not_none
                             (Py.or (Dict.get d "serving_size")
                                (Dict.get d "serving_quantity")))) ]);
        ("ingredients",
          PDict [ ("list", PList ingredients_list);
                  ("raw", ingredients_text_of d);
                  ("found", PBool (Py.truthy (ingredients_text_of d))) ]);
        ("nutrition_facts", facts);
        ("allergens",
          PDict [ ("list", PList allergens_list);
                  ("found", PBool (Py.truthy (PList allergens_list))) ]);
        ("labels", Dict.get_or d "labels_tags" (PList []));
        ("nova_group", Dict.get d "nova_group");
        ("nutriscore_grade", Dict.get d "nutriscore_grade") ].
Proof.
  unfold _extract_product_data. rewrite !py_get_dict. cbn [bind].
  fold (nutriments_of d). destruct (nutriments_of d) as [| | | | | |n] eqn:En;
    try discriminate.
  rewrite !py_get_dict. cbn [bind]. intros H.
  repeat next_bind H. injection H as <-.
  exists n. do 3 eexists. split; [reflexivity|].
  split; [eassumption|]. split; [eassumption|]. reflexivity.
Qed.

(** X11. The calories of a barcode record are "found" exactly when the
    per-100g energy, or else the plain energy, is not [None]; as the
    per-100g value is passed over when it is falsy, a product with 0 kcal
    per 100 g and no plain energy is reported as not found. *)
Theorem barcode_calories_zero_is_missing (d n : Dict.t) (rec : pyval) :
  _extract_product_data (PDict d) = inr rec ->
  nutriments_of d = PDict n ->
  field2 "calories" "value" rec =
    Some (Py.or (Dict.get n "energy-kcal_100g") (Dict.get n "energy-kcal")) /\
  field2 "calories" "found" rec =
    Some (PBool (Py.is_not_none
                   (Py.or (Dict.get n "energy-kcal_100g") (Dict.get n "energy-kcal")))) /\
  (Py.truthy (Dict.get n "energy-kcal_100g") = false ->
   Dict.lookup "energy-kcal" n = None ->
   field2 "calories" "value" rec = Some PNone /\
   field2 "calories" "found" rec = Some (PBool false)).
Proof.
  intros H Hn. apply extract_product_data_dict in H.
  destruct H as (n' & facts & il & al & Hn' & _ & _ & ->).
  rewrite Hn in Hn'. injection Hn' as <-.
  split; [reflexivity|]. split; [reflexivity|].
  intros Hz Hk. unfold field2. cbn [field Dict.lookup Str.eqb Char.eqb Bool.eqb].
  unfold Py.or. rewrite Hz. unfold Dict.get, Dict.get_or. rewrite Hk.
  split; reflexivity.
Qed.

(** X12. The nutrition facts of a barcode record hold, for each nutrient
    of the table, the first of its keys (per-100g before plain) whose value
    is not [None], whatever that value is (a zero is kept), with unit mg
    for sodium and salt and g for the others; a nutrient none of whose keys
    has a value has no entry. *)
Theorem barcode_nutrition_first_key (d n : Dict.t) (rec : pyval) :
  _extract_product_data (PDict d) = inr rec ->
  nutriments_of d = PDict n ->
  exists facts,
    field "nutrition_facts" rec = Some (PDict facts) /\
    (forall name keys, In (name, keys) nutrient_map ->
       Dict.lookup name facts =
       option_map
         (fun value =>
            PDict [("value", value);
                   ("unit", PStr (if Str.eqb name "sodium" || Str.eqb name "salt"
                                  then "mg" else "g"))])
         (first_value n keys)).
Proof.
  intros H Hn. apply extract_product_data_dict in H.
  destruct H as (n' & facts & il & al & Hn' & Hf & _ & ->).
  rewrite Hn in Hn'. injection Hn' as <-.
  destruct (nutrition_facts_exact n) as (facts' & Hf' & Hrows).
  rewrite Hf' in Hf. injection Hf as <-.
  exists facts'. split; [reflexivity|]. exact Hrows.
Qed.

Lemma mapM_normalize_strings (tags : list str) :
  exists l, mapM normalize_tag (List.map PStr tags) = inr l.
Proof.
  induction tags as [|t tags [l IH]]; [now exists []|].
  cbn [List.map mapM normalize_tag bind ret]. rewrite IH. cbn [bind ret].
  eexists. reflexivity.
Qed.

(** A readable product is mapped to a record. *)
Lemma readable_product_maps (d : Dict.t) :
  readable_product d -> exists rec, _extract_product_data (PDict d) = inr rec.
Proof.
  intros (Hn & Hi & Ha).
  unfold _extract_product_data. rewrite !py_get_dict. cbn [bind].
  assert (En : exists n, Dict.get_or d "nutriments" (PDict []) = PDict n).
  { unfold Dict.get_or. destruct (Dict.lookup "nutriments" d) as [v|] eqn:E.
    - now apply Hn.
    - now exists []. }
  destruct En as [n ->]. rewrite !py_get_dict. cbn [bind].
  assert (Ei : exists l,
             ingredients_list_of
               (Py.or (Dict.get_or d "ingredients_text" PNone)
                  (Dict.get_or d "ingredients_text_tr" PNone)) = inr l).
  { unfold ingredients_list_of. fold (Dict.get d "ingredients_text").
    fold (Dict.get d "ingredients_text_tr").
    destruct (Py.truthy (Py.or (Dict.get d "ingredients_text")
                           (Dict.get d "ingredients_text_tr"))) eqn:E.
    - destruct (Hi eq_refl) as [t ->]. eexists. reflexivity.
    - eexists. reflexivity. }
  destruct Ei as [il ->]. cbn [bind].
  assert (Ea : exists l,
             bind (py_iter (Dict.get_or d "allergens_tags" (PList [])))
               (fun tags => bind (mapM normalize_tag tags) (fun al => ret al)) = inr l).
  { unfold Dict.get_or. destruct (Dict.lookup "allergens_tags" d) as [v|] eqn:E.
    - destruct (Ha v eq_refl) as [tags ->]. cbn [py_iter bind ret].
      destruct (mapM_normalize_strings tags) as [l ->]. now exists l.
    - now exists []. }
  destruct Ea as [al Ea].
  destruct (py_iter (Dict.get_or d "allergens_tags" (PList []))) as [e|tags];
    [discriminate Ea|]. cbn [bind] in Ea |- *.
  destruct (mapM normalize_tag tags) as [e|al']; [discriminate Ea|]. cbn [bind].
  destruct (nutrition_facts_exact n) as (facts & -> & _). cbn [bind].
  eexists. reflexivity.
Qed.

End Mapper.

#[local] Existing Instance Sample.runtime.

Lemma barcode_calories_zero_is_missing_witness :
  field2 "calories" "value" SampleData.zero_kcal_record = Some PNone /\
  field2 "calories" "found" SampleData.zero_kcal_record = Some (PBool false).
Proof.
  apply (barcode_calories_zero_is_missing SampleData.zero_kcal_product
           SampleData.zero_kcal_nutriments SampleData.zero_kcal_record).
  - vm_compute. reflexivity.
  - reflexivity.
  - reflexivity.
  - reflexivity.
Defined.

Lemma barcode_nutrition_first_key_witness :
  exists facts,
    field "nutrition_facts" Sample.barcode_record = Some (PDict facts) /\
    (forall name keys, In (name, keys) nutrient_map ->
       Dict.lookup name facts =
       option_map
         (fun value =>
            PDict [("value", value);
                   ("unit", PStr (if Str.eqb name "sodium" || Str.eqb name "salt"
                                  then "mg" else "g"))])
         (first_value [("energy-kcal_100g", PInt 480); ("salt_100g", PFloat (1 # 2))]
            keys)).
Proof.
  apply (barcode_nutrition_first_key
           [ ("code", PStr "8690504000013");
             ("product_name", PStr "Biskuvi");
             ("nutriments",
               PDict [("energy-kcal_100g", PInt 480); ("salt_100g", PFloat (1 # 2))]);
             ("ingredients_text", PStr "sugar,,salt,");
             ("allergens_tags", PList [PStr "en:gluten"; PStr "en:tree-nuts"]) ]).
  - vm_compute. reflexivity.
  - reflexivity.
Defined.

End MapperFacts.

Module LookupFacts.

Import BarcodeService Notions CharFacts BarcodeFacts MapperFacts.

Section Runtime.

Context {py : CPython.runtime}.

Lemma extract_needs_dict (product rec : pyval) :
  _extract_product_data product = inr rec -> exists d, product = PDict d.
Proof.
  unfold _extract_product_data. destruct product; try discriminate.
  intros _. now eexists.
Qed.

Lemma product_of_body_found (json : result pyval) (rec : pyval) :
  rec <> PNone ->
  (product_of_body json = inr rec <->
   exists body product,
     json = inr (PDict body) /\
     Py.eq_one (Dict.get body "status") = true /\
     Dict.get body "product" = product /\
     Py.truthy product = true /\
     _extract_product_data product = inr rec).
Proof.
  intros Hrec. unfold product_of_body. split.
  - intros H. destruct json as [e|data]; [discriminate H|]. cbn [bind] in H.
    destruct data as [| | | | | |body]; try discriminate H.
    rewrite py_get_dict in H. cbn [bind] in H.
    change (Dict.get_or body "status" PNone) with (Dict.get body "status") in H.
    destruct (Py.eq_one (Dict.get body "status")) eqn:Es.
    + rewrite py_get_dict in H. cbn [bind] in H.
      change (Dict.get_or body "product" PNone) with (Dict.get body "product") in H.
      destruct (Py.truthy (Dict.get body "product")) eqn:Et.
      * destruct (py_get (Dict.get body "product") "product_name" (PStr "Unknown"));
          [discriminate H|]. cbn [bind] in H.
        exists body, (Dict.get body "product"). repeat split; assumption.
      * injection H as <-. now destruct Hrec.
    + injection H as <-. now destruct Hrec.
  - intros (body & product & -> & Es & Ep & Et & Hx). cbn [bind].
    rewrite py_get_dict. cbn [bind].
    change (Dict.get_or body "status" PNone) with (Dict.get body "status").
    rewrite Es, py_get_dict. cbn [bind].
    change (Dict.get_or body "product" PNone) with (Dict.get body "product").
    rewrite Ep, Et. destruct (extract_needs_dict product rec Hx) as [d ->].
    rewrite py_get_dict. cbn [bind]. exact Hx.
Qed.

Section Lookup.

Variable requests_get : str -> http_outcome.

Local Abbreviation url_of barcode := (api_base_url ++ "/" ++ barcode)%str.

Lemma get_product_info_found (barcode : str) (rec : pyval) :
  rec <> PNone ->
  (get_product_info requests_get barcode = rec <->
   exists body product,
     requests_get (url_of barcode) = Response 200 (inr (PDict body)) /\
     Py.eq_one (Dict.get body "status") = true /\
     Dict.get body "product" = product /\
     Py.truthy product = true /\
     _extract_product_data product = inr rec).
Proof.
  intros Hrec. unfold get_product_info. split.
  - intros H. destruct (requests_get (url_of barcode)) as [e|status_code json].
    + destruct e; now destruct Hrec.
    + destruct (status_code =? 200)%Z eqn:Ec; [|now destruct Hrec].
      apply Z.eqb_eq in Ec. subst status_code.
      destruct (product_of_body json) as [e|v] eqn:Ev; [now destruct Hrec|].
      subst v. apply (product_of_body_found json rec Hrec) in Ev.
      destruct Ev as (body & product & -> & Hs & Hp & Ht & Hx).
      now exists body, product.
  - intros (body & product & -> & Hs & Hp & Ht & Hx). cbn [Z.eqb Pos.eqb].
    assert (E : product_of_body (inr (PDict body)) = inr rec).
    { apply (product_of_body_found _ rec Hrec). now exists body, product. }
    now rewrite E.
Qed.

(** X13. The lookup returns a record exactly when the answer has status
    code 200 (no other code, 2xx or not, will do), its body is a JSON
    object whose [status] equals 1 and whose [product] is truthy, and the
    mapper reads that product; the record is then the mapper's. *)
Theorem lookup_found_iff (barcode : str) (rec : pyval) :
  rec <> PNone ->
  (get_product_info requests_get barcode = rec <->
   exists body product,
     requests_get (url_of barcode) = Response 200 (inr (PDict body)) /\
     Py.eq_one (Dict.get body "status") = true /\
     Dict.get body "product" = product /\
     Py.truthy product = true /\
     _extract_product_data product = inr rec).
Proof. apply get_product_info_found. Qed.

(** X14. A product whose [nutriments] is there and is no JSON object (a
    null, a list, a string) makes the mapper raise inside the lookup, which
    answers [None] although the database found the product. *)
Theorem lookup_drops_unreadable_nutriments (barcode : str) (body d : Dict.t)
    (v : pyval) :
  requests_get (url_of barcode) = Response 200 (inr (PDict body)) ->
  Dict.get body "product" = PDict d ->
  Dict.lookup "nutriments" d = Some v ->
  (forall n, v <> PDict n) ->
  (exists e, _extract_product_data (PDict d) = inl e) /\
  get_product_info requests_get barcode = PNone.
Proof.
  intros Hr Hp Hn Hv.
  assert (Hx : exists e, _extract_product_data (PDict d) = inl e).
  { unfold _extract_product_data. rewrite py_get_dict. cbn [bind].
    unfold Dict.get_or. rewrite Hn.
    destruct v; try (eexists; reflexivity). now destruct (Hv d0). }
  split; [exact Hx|]. destruct Hx as [e Hx].
  destruct (get_product_info_cases requests_get barcode) as [H|[product H]];
    [exact H|].
  destruct (get_product_info requests_get barcode) eqn:E; try reflexivity;
    exfalso;
    (eapply (get_product_info_found barcode) in E; [|discriminate]);
    destruct E as (body' & product' & Hr' & _ & Hp' & _ & Hx');
    rewrite Hr in Hr'; injection Hr' as <-; rewrite Hp in Hp'; subst product';
    rewrite Hx in Hx'; discriminate Hx'.
Qed.

(** X15. A readable, non-empty product in an answer with status code 200
    and [status] 1 is found: the lookup returns its record, which is truthy
    and tagged ["openfoodfacts"]. *)
Theorem lookup_finds_readable_product (barcode : str) (body d : Dict.t) :
  requests_get (url_of barcode) = Response 200 (inr (PDict body)) ->
  Py.eq_one (Dict.get body "status") = true ->
  Dict.get body "product" = PDict d ->
  d <> [] ->
  readable_product d ->
  _extract_product_data (PDict d) = inr (get_product_info requests_get barcode) /\
  Py.truthy (get_product_info requests_get barcode) = true /\
  field "source" (get_product_info requests_get barcode) = Some (PStr "openfoodfacts").
Proof.
  intros Hr Hs Hp Hd Hread.
  destruct (readable_product_maps d Hread) as [rec Hx].
  assert (Hrec : rec <> PNone).
  { intros ->. apply extract_product_data_truthy in Hx. discriminate Hx. }
  assert (E : get_product_info requests_get barcode = rec).
  { apply (get_product_info_found barcode rec Hrec). exists body, (PDict d).
    repeat split; try assumption. destruct d; [now destruct Hd|reflexivity]. }
  rewrite E. split; [exact Hx|]. split.
  - now apply extract_product_data_truthy in Hx.
  - apply extract_product_data_shape in Hx.
    destruct Hx as (? & ? & ? & ? & ? & ? & ? & ? & ? & ? & ? & ? & ? & ? & _ & ->).
    reflexivity.
Qed.

End Lookup.

(** *** Allergen tags *)

Lemma replace_char (a b : char) (s : str) :
  Str.replace (Cons a Empty) (Cons b Empty) s =
  Str.map (fun c => if Char.eqb a c then b else c) s.
Proof.
  unfold Str.replace.
  induction s as [|c s IH]; [reflexivity|].
  cbn [Str.replace_from Str.startswith Str.map Str.length Nat.sub andb].
  rewrite andb_true_r.
  destruct (Char.eqb a c); cbn [Str.app]; now rewrite IH.
Qed.

Lemma replace_absent (old new s : str) :
  Str.contains old s = false -> Str.replace old new s = s.
Proof.
  unfold Str.replace. induction s as [|c s IH]; [reflexivity|].
  cbn [Str.contains Str.replace_from]. intros H.
  apply orb_false_iff in H. destruct H as [H1 H2].
  now rewrite H1, IH.
Qed.

Lemma map_fixes (f : char -> char) (p : char -> bool) (s : str) :
  (forall c, p c = true -> f c = c) -> all_chars p s = true -> Str.map f s = s.
Proof.
  intros Hf. induction s as [|c s IH]; [reflexivity|]. cbn [all_chars Str.map].
  intros H. apply andb_true_iff in H. destruct H as [Hc Hs].
  now rewrite (Hf c Hc), IH.
Qed.

(** X16. A normalised allergen tag holds no hyphen; only ["en:"] is taken
    out of a tag, so a tag that holds neither ["en:"] nor a hyphen (one
    with another locale prefix, say) is passed on as it is. *)
Theorem normalize_tag_result (t : str) :
  exists t',
    normalize_tag (PStr t) = inr (PStr t') /\
    all_chars not_hyphen t' = true /\
    (Str.contains "en:" t = false -> all_chars not_hyphen t = true -> t' = t).
Proof.
  eexists. split; [reflexivity|]. rewrite replace_char. split.
  - induction (Str.replace "en:" "" t) as [|c s IH]; [reflexivity|].
    cbn [Str.map all_chars]. rewrite IH, andb_true_r. unfold not_hyphen.
    destruct (Char.eqb "-" c) eqn:E; [reflexivity|].
    now rewrite char_eqb_sym, E.
  - intros Hen Hh. rewrite (replace_absent _ _ _ Hen).
    apply (map_fixes _ not_hyphen); [|exact Hh].
    intros c Hc. unfold not_hyphen in Hc. apply negb_true_iff in Hc.
    now rewrite char_eqb_sym, Hc.
Qed.

End Runtime.

#[local] Existing Instance Sample.runtime.

Lemma lookup_found_iff_witness :
  get_product_info Sample.requests_get "8690504000013" = Sample.barcode_record <->
  exists body product,
    Sample.requests_get (api_base_url ++ "/" ++ "8690504000013")%str
      = Response 200 (inr (PDict body)) /\
    Py.eq_one (Dict.get body "status") = true /\
    Dict.get body "product" = product /\
    Py.truthy product = true /\
    _extract_product_data product = inr Sample.barcode_record.
Proof.
  apply (lookup_found_iff Sample.requests_get "8690504000013" Sample.barcode_record).
  discriminate.
Defined.

Lemma lookup_drops_unreadable_nutriments_witness :
  (exists e,
     _extract_product_data (PDict SampleData.null_nutriments_product) = inl e) /\
  get_product_info SampleData.null_nutriments_get "1" = PNone.
Proof.
  apply (lookup_drops_unreadable_nutriments SampleData.null_nutriments_get "1"
           [("status", PInt 1); ("product", PDict SampleData.null_nutriments_product)]
           SampleData.null_nutriments_product PNone).
  - reflexivity.
  - reflexivity.
  - reflexivity.
  - discriminate.
Defined.

Lemma sample_product_readable :
  readable_product
    [ ("code", PStr "8690504000013");
      ("product_name", PStr "Biskuvi");
      ("nutriments",
        PDict [("energy-kcal_100g", PInt 480); ("salt_100g", PFloat (1 # 2))]);
      ("ingredients_text", PStr "sugar,,salt,");
      ("allergens_tags", PList [PStr "en:gluten"; PStr "en:tree-nuts"]) ].
Proof.
  split; [|split].
  - intros v H. injection H as <-. now eexists.
  - intros _. now eexists.
  - intros v H. injection H as <-. now exists ["en:gluten"; "en:tree-nuts"].
Qed.

Lemma lookup_finds_readable_product_witness :
  _extract_product_data Sample.product
    = inr (get_product_info Sample.requests_get "8690504000013") /\
  Py.truthy (get_product_info Sample.requests_get "8690504000013") = true /\
  field "source" (get_product_info Sample.requests_get "8690504000013")
    = Some (PStr "openfoodfacts").
Proof.
  apply (lookup_finds_readable_product Sample.requests_get "8690504000013"
           [("status", PInt 1); ("product", Sample.product)]).
  - reflexivity.
  - reflexivity.
  - reflexivity.
  - discriminate.
  - exact sample_product_readable.
Defined.

Lemma normalize_tag_result_witness :
  exists t',
    normalize_tag (PStr "fr:lait") = inr (PStr t') /\
    all_chars not_hyphen t' = true /\
    (Str.contains "en:" "fr:lait" = false -> all_chars not_hyphen "fr:lait" = true ->
     t' = "fr:lait").
Proof. exact (normalize_tag_result "fr:lait"). Defined.

Example normalize_tag_samples :
  normalize_tag (PStr "en:tree-nuts") = inr (PStr "tree nuts") /\
  normalize_tag (PStr "fr:fruits-a-coque") = inr (PStr "fr:fruits a coque") /\
  normalize_tag (PStr "green:peas") = inr (PStr "grepeas").
Proof. repeat split. Qed.

End LookupFacts.

(** ** More on the OCR service *)

Module PassFacts.

Import OCRServiceAdvanced OCRServiceAdvancedMore Notions OCRFacts.

Section Runtime.

Context {py : CPython.runtime}.

Lemma no_member_nil {A : Type} (l : list A) : (forall x, ~ In x l) -> l = [].
Proof.
  destruct l as [|x l]; [reflexivity|]. intros H. now destruct (H x (or_introl eq_refl)).
Qed.

Section Service.

Variable image : Type.
Variable image_to_string : image -> str -> result str.
Variable image_to_data : image -> str -> result ocr_data.
Variable image_to_rows : image -> str -> result (list token).

Local Abbreviation robust := (extract_text_robust image image_to_string image_to_data).
Local Abbreviation best_psm_of :=
  (extract_with_best_psm image image_to_string image_to_data).
Local Abbreviation regions_of :=
  (extract_by_regions image image_to_string image_to_data image_to_rows).

(** X17. When every pass on every candidate raises, the robust extraction
    does not raise: it returns the empty string. *)
Theorem all_passes_fail_empty (img : image) (variations : option (list (str * image))) :
  (forall name img' psm,
     In (name, img') (Spec.candidates img variations) ->
     In psm psm_modes ->
     (exists e, image_to_string img' (pass_config psm) = inl e) \/
     (exists e, image_to_data img' (pass_config psm) = inl e)) ->
  robust img variations = Empty.
Proof.
  intros Hfail. unfold extract_text_robust.
  rewrite (no_member_nil (run_passes image image_to_string image_to_data img variations));
    [reflexivity|].
  intros r Hr. rewrite run_passes_candidates in Hr. apply in_flat_map in Hr.
  destruct Hr as ([name img'] & Hc & Hr). apply in_flat_map in Hr.
  destruct Hr as (psm & Hpsm & Hr). apply pass_results_in, single_pass_some in Hr.
  destruct Hr as (t & data & Ht & Hd & _).
  destruct (Hfail name img' psm Hc Hpsm) as [[e He]|[e He]]; congruence.
Qed.

Local Abbreviation best_ok := (Notions.best_ok image_to_string image_to_data).

Lemma try_psm_ok (img : image) (state : best) (psm : nat) :
  In psm psm_modes -> best_ok img state ->
  best_ok img (try_psm image image_to_string image_to_data img state psm).
Proof.
  intros Hpsm [Hc Hb]. unfold Notions.best_ok, try_psm.
  destruct (image_to_data img (pass_config psm)) as [e|data] eqn:Ed; [now split|].
  destruct (Qlt_bool (best_confidence state)
              (avg_of (positive_confidences (data_conf data)))) eqn:El; [|now split].
  apply Qlt_bool_true in El.
  assert (Hpos : 0 < avg_of (positive_confidences (data_conf data)))
    by (eapply Qle_lt_trans; eassumption).
  destruct (image_to_string img (pass_config psm)) as [e|text] eqn:Es.
  - split; [now apply Qlt_le_weak|]. exact Hb.
  - split; [now apply Qlt_le_weak|]. cbn. intros psm' H. injection H as <-.
    split; [exact Hpsm|]. now exists text, data.
Qed.

Lemma fold_try_psm_ok (img : image) (modes : list nat) :
  forall state,
    (forall psm, In psm modes -> In psm psm_modes) ->
    best_ok img state ->
    best_ok img (fold_left (try_psm image image_to_string image_to_data img) modes state).
Proof.
  induction modes as [|psm modes IH]; intros state Hsub Hok; [exact Hok|].
  cbn [fold_left]. apply IH.
  - intros p Hp. apply Hsub. now right.
  - apply try_psm_ok; [apply Hsub; now left|exact Hok].
Qed.

Lemma fold_try_psm_idle (img : image) (modes : list nat) :
  (forall psm, In psm modes ->
     (exists e, image_to_data img (pass_config psm) = inl e) \/
     (exists data, image_to_data img (pass_config psm) = inr data /\
                   forall c, In c (data_conf data) -> (c <= 0)%Z)) ->
  fold_left (try_psm image image_to_string image_to_data img) modes (Best None 0 None)
  = Best None 0 None.
Proof.
  induction modes as [|psm modes IH]; intros H; [reflexivity|].
  cbn [fold_left].
  replace (try_psm image image_to_string image_to_data img (Best None 0 None) psm)
    with (Best None 0 None).
  - apply IH. intros p Hp. apply H. now right.
  - unfold try_psm.
    destruct (H psm (or_introl eq_refl)) as [[e ->]|(data & -> & Hc)]; [reflexivity|].
    now rewrite (positive_count_zero _ Hc).
Qed.

(** X18. [extract_with_best_psm] raises, at its log line, when no pass
    reports a positive average confidence ([best_psm] was never bound);
    and a text it returns is what the engine read in a mode whose average
    confidence is positive. *)
Theorem best_psm_unbound_or_read (img : image) :
  ((forall psm, In psm psm_modes ->
      (exists e, image_to_data img (pass_config psm) = inl e) \/
      (exists data, image_to_data img (pass_config psm) = inr data /\
                    forall c, In c (data_conf data) -> (c <= 0)%Z)) ->
   exists e, best_psm_of img = inl e) /\
  (forall text, best_psm_of img = inr text ->
     exists psm data,
       In psm psm_modes /\
       image_to_string img (pass_config psm) = inr text /\
       image_to_data img (pass_config psm) = inr data /\
       0 < avg_of (positive_confidences (data_conf data))).
Proof.
  unfold extract_with_best_psm. split.
  - intros H. rewrite (fold_try_psm_idle img psm_modes H). now eexists.
  - intros text H.
    assert (Hok : best_ok img
              (fold_left (try_psm image image_to_string image_to_data img) psm_modes
                 (Best None 0 None))).
    { apply fold_try_psm_ok; [auto|]. split; [apply Qle_refl|discriminate]. }
    destruct Hok as [_ Hb].
    destruct (best_psm (fold_left _ psm_modes _)) as [psm|]; [|discriminate H].
    destruct (Hb psm eq_refl) as (Hpsm & t & data & Hr & Hs & Hd & Hpos).
    rewrite Hr in H. injection H as <-.
    exists psm, data. repeat split; try assumption.
    rewrite Hs. f_equal. destruct t; reflexivity.
Qed.

Lemma widen_encloses (current : option bbox) (row : token) :
  encloses (widen current (tok_left row) (tok_top row) (tok_width row) (tok_height row))
    row.
Proof.
  unfold widen, encloses. destruct current as [[[[x0 y0] x1] y1]|]; lia.
Qed.

Lemma widen_keeps (b : bbox) (row other : token) :
  encloses b other ->
  encloses (widen (Some b) (tok_left row) (tok_top row) (tok_width row) (tok_height row))
    other.
Proof.
  unfold widen, encloses. destruct b as [[[x0 y0] x1] y1]. lia.
Qed.

(** The block after the loop: the accepted texts in order, and a box that
    holds every accepted row. *)
Lemma fold_add_token (min_confidence : Z) (rows : list token) :
  forall current : block,
    let final := fold_left (add_token min_confidence) rows current in
    block_text final =
      block_text current ++
      List.map (fun row => Str.strip (tok_text row))
        (List.filter (accepted min_confidence) rows) /\
    (forall b other, block_bbox current = Some b -> encloses b other ->
       exists b', block_bbox final = Some b' /\ encloses b' other) /\
    (forall row, In row (List.filter (accepted min_confidence) rows) ->
       exists b', block_bbox final = Some b' /\ encloses b' row).
Proof.
  induction rows as [|row rows IH]; intros current; cbn zeta.
  - cbn. rewrite app_nil_r. split; [reflexivity|]. split; [|intros ? []].
    intros b other Hb He. now exists b.
  - cbn [fold_left List.filter].
    destruct (IH (add_token min_confidence current row)) as (Ht & Hkeep & Hnew).
    unfold add_token in Ht, Hkeep, Hnew |- *. fold (accepted min_confidence row) in *.
    destruct (accepted min_confidence row) eqn:Ea.
    + cbn [block_text block_bbox] in *. split; [|split].
      * rewrite Ht. cbn [List.map]. now rewrite <- app_assoc.
      * intros b other Hb He. eapply Hkeep; [reflexivity|].
        rewrite Hb. now apply widen_keeps.
      * intros r [<-|Hr]; [|now apply Hnew].
        eapply Hkeep; [reflexivity|]. apply widen_encloses.
    + split; [exact Ht|]. split; [exact Hkeep|exact Hnew].
Qed.

(** X19. When the engine answers, [extract_by_regions] puts every
    accepted row (confidence above the floor, text not blank) into one
    block: with no accepted row it returns no region; with at least one it
    returns exactly one region, whose text joins the stripped texts of the
    accepted rows in order and whose box holds the box of each of them.
    When the engine raises, it returns one region without a box, holding
    what the robust extraction reads. *)
Theorem regions_single_block (img : image) (min_confidence : Z) :
  (forall rows,
     image_to_rows img "--oem 3 --psm 11" = inr rows ->
     (List.filter (accepted min_confidence) rows = [] ->
      regions_of img min_confidence = []) /\
     (List.filter (accepted min_confidence) rows <> [] ->
      exists b,
        regions_of img min_confidence =
          [Region
             (join " " (List.map (fun row => Str.strip (tok_text row))
                          (List.filter (accepted min_confidence) rows)))
             (Some b)] /\
        forall row, In row (List.filter (accepted min_confidence) rows) ->
                    encloses b row)) /\
  (forall e,
     image_to_rows img "--oem 3 --psm 11" = inl e ->
     regions_of img min_confidence = [Region (robust img None) None]).
Proof.
  split.
  - intros rows Hrows. unfold extract_by_regions. rewrite Hrows.
    destruct (fold_add_token min_confidence rows (Block [] None)) as (Ht & _ & Hnew).
    cbn [block_text app] in Ht. rewrite Ht.
    destruct (List.filter (accepted min_confidence) rows) as [|row0 rest] eqn:Ef.
    + split; [reflexivity|]. intros H. now destruct H.
    + split; [discriminate|]. intros _. cbn [List.map].
      destruct (Hnew row0 (or_introl eq_refl)) as (b & Hb & _).
      exists b. rewrite Hb. split; [reflexivity|].
      intros row Hrow. destruct (Hnew row Hrow) as (b' & Hb' & He).
      rewrite Hb in Hb'. injection Hb' as <-. exact He.
  - intros e He. unfold extract_by_regions. rewrite He. reflexivity.
Qed.

End Service.

(** The loop of [extract_text_with_confidence] keeps the rows
    [extract_by_regions] accepts at a floor of 30. *)
Lemma fold_keep_token (rows : list token) :
  forall filtered : list str,
    fold_left OCRService.keep_token rows filtered =
    filtered ++ List.map (fun row => Str.strip (tok_text row))
                  (List.filter (accepted 30) rows).
Proof.
  induction rows as [|row rows IH]; intros filtered; cbn [fold_left List.filter].
  - cbn. now rewrite app_nil_r.
  - rewrite IH. unfold OCRService.keep_token, accepted.
    destruct (30 <? tok_conf row)%Z; [|reflexivity].
    destruct (negb (Str.is_empty (Str.strip (tok_text row)))); [|reflexivity].
    cbn [andb List.map]. now rewrite <- app_assoc.
Qed.

(** X25. The detailed extraction of [OCRService] keeps the rows
    [extract_by_regions] accepts at its default floor of 30: its text joins
    their stripped texts in order and its word count is their number; when
    the detailed read and the plain read both raise, it raises
    "OCR failed: ..." instead of returning. *)
Theorem detailed_text_of_accepted_rows (image : Type)
    (image_to_string : image -> str -> result str)
    (image_to_rows : image -> str -> result (list token)) (img : image) :
  (forall rows,
     image_to_rows img OCRService.config = inr rows ->
     exists d,
       OCRService.extract_text_with_confidence image image_to_string image_to_rows img
         = inr d /\
       OCRService.detailed_text d =
         join " " (List.map (fun row => Str.strip (tok_text row))
                     (List.filter (accepted 30) rows)) /\
       OCRService.detailed_word_count d =
         Z.of_nat (List.length (List.filter (accepted 30) rows))) /\
  (forall e e',
     image_to_rows img OCRService.config = inl e ->
     image_to_string img OCRService.config = inl e' ->
     OCRService.extract_text_with_confidence image image_to_string image_to_rows img
       = inl (Exception ("OCR failed: " ++ str_of_exn e')%str)).
Proof.
  unfold OCRService.extract_text_with_confidence. split.
  - intros rows ->. eexists. split; [reflexivity|].
    cbn [OCRService.detailed_text OCRService.detailed_word_count].
    rewrite fold_keep_token. cbn [app]. split; [reflexivity|].
    now rewrite length_map.
  - intros e e' -> He. unfold OCRService.extract_text. now rewrite He.
Qed.

End Runtime.

#[local] Existing Instance Sample.runtime.

Lemma all_passes_fail_empty_witness :
  extract_text_robust unit SampleData.no_engine Sample.blank_data tt None = Empty.
Proof.
  apply all_passes_fail_empty. intros name img' psm _ _. left. now eexists.
Defined.

Lemma best_psm_unbound_or_read_witness :
  exists e,
    extract_with_best_psm unit Sample.blank_string Sample.blank_data tt = inl e.
Proof.
  apply (proj1 (best_psm_unbound_or_read unit Sample.blank_string Sample.blank_data tt)).
  intros psm _. right. exists (OcrData [] []). split; [reflexivity|intros c []].
Defined.

Lemma regions_single_block_witness :
  exists b,
    extract_by_regions unit Sample.blank_string Sample.blank_data
      SampleData.rows_engine tt 30 =
      [Region
         (join " " (List.map (fun row => Str.strip (tok_text row))
                      (List.filter (accepted 30) SampleData.rows)))
         (Some b)] /\
    forall row, In row (List.filter (accepted 30) SampleData.rows) -> encloses b row.
Proof.
  apply (proj1 (regions_single_block unit Sample.blank_string Sample.blank_data
                  SampleData.rows_engine tt 30) SampleData.rows).
  - reflexivity.
  - discriminate.
Defined.

Example regions_sample :
  extract_by_regions unit Sample.blank_string Sample.blank_data
    SampleData.rows_engine tt 30
  = [Region "Net 250g" (Some (10, 8, 90, 22)%Z)].
Proof. reflexivity. Qed.

Lemma detailed_text_of_accepted_rows_witness :
  exists d,
    OCRService.extract_text_with_confidence unit Sample.blank_string
      SampleData.rows_engine tt = inr d /\
    OCRService.detailed_text d =
      join " " (List.map (fun row => Str.strip (tok_text row))
                  (List.filter (accepted 30) SampleData.rows)) /\
    OCRService.detailed_word_count d =
      Z.of_nat (List.length (List.filter (accepted 30) SampleData.rows)).
Proof.
  apply (proj1 (detailed_text_of_accepted_rows unit Sample.blank_string
                  SampleData.rows_engine tt)).
  reflexivity.
Defined.

End PassFacts.

(** ** Resizing and deskewing *)

Module GeometryFacts.

Import ImageProcessor OCRFacts.

Section Geometry.

Variable raster : Type.
Variable shape : raster -> nat * nat.
Variable scaled_height : nat -> nat -> nat.
Variable cv2_resize : raster -> nat -> nat -> result raster.
Variable foreground_count : raster -> nat.
Variable min_area_rect_angle : raster -> Q.
Variable rotate : raster -> Q -> raster.

(** X20. Given that [cv2.resize] returns an image of the size asked for:
    an image [_resize_image] returns is between 750 and 3000 wide; an image
    whose width is in that range already is returned as it is; so resizing
    what was resized changes nothing. *)
Theorem resize_width_in_range (image out : raster) :
  (forall img w h res, cv2_resize img w h = inr res -> shape res = (h, w)) ->
  _resize_image raster shape scaled_height cv2_resize image = inr out ->
  (750 <= snd (shape out) <= 3000)%nat /\
  ((750 <= snd (shape image) <= 3000)%nat -> out = image) /\
  _resize_image raster shape scaled_height cv2_resize out = inr out.
Proof.
  intros Hsize H. unfold _resize_image, target_width in *.
  destruct (shape image) as [height width] eqn:Es. cbn [snd].
  destruct ((2 * width <? 1500)%nat || (1500 * 2 <? width)%nat) eqn:Ec.
  - destruct (width =? 0)%nat; [discriminate H|].
    apply Hsize in H. rewrite H. cbn [snd]. split; [lia|]. split.
    + intros Hr. apply orb_true_iff in Ec.
      destruct Ec as [Ec|Ec]; apply Nat.ltb_lt in Ec; lia.
    + reflexivity.
  - injection H as <-. rewrite Es. cbn [snd]. rewrite Ec.
    apply orb_false_iff in Ec. destruct Ec as [E1 E2].
    apply Nat.ltb_ge in E1, E2. split; [lia|]. split; reflexivity.
Qed.

Lemma deskew_angle_range (angle : Q) :
  -90 <= angle <= 45 -> Qabs (deskew_angle angle) <= 45.
Proof.
  intros [Hlo Hhi]. unfold deskew_angle.
  destruct (Qlt_bool angle (-45)) eqn:E.
  - apply Qlt_bool_true in E. apply Qabs_Qle_condition. split; lra.
  - apply Qlt_bool_false in E. apply Qabs_Qle_condition. split; lra.
Qed.

(** The correction is under half a degree exactly when the rectangle's
    angle is within half a degree of 0 or of -90. *)
Lemma deskew_angle_small (angle : Q) :
  Qabs (deskew_angle angle) < 1 # 2 <->
  Qabs angle < 1 # 2 \/ Qabs (angle + 90) < 1 # 2.
Proof.
  unfold deskew_angle. rewrite !Qabs_Qlt_condition.
  destruct (Qlt_bool angle (-45)) eqn:E.
  - apply Qlt_bool_true in E. split.
    + intros [H1 H2]. right. split; lra.
    + intros [[H1 H2]|[H1 H2]]; split; lra.
  - apply Qlt_bool_false in E. split.
    + intros [H1 H2]. left. split; lra.
    + intros [[H1 H2]|[H1 H2]]; split; lra.
Qed.

(** X21. [_deskew_image] returns the image as it is when it has no
    foreground pixel, and when the angle of the bounding rectangle is
    within half a degree of 0 or of -90; in every other case it returns the
    image rotated by the correction angle, which is at least half a degree
    and, for a rectangle angle between -90 and 45, at most 45 degrees
    either way.  Angles are exact rationals here. *)
Theorem deskew_correction (image : raster) :
  let angle := min_area_rect_angle image in
  (foreground_count image = 0%nat \/
   Qabs angle < 1 # 2 \/ Qabs (angle + 90) < 1 # 2 ->
   _deskew_image raster foreground_count min_area_rect_angle rotate image = image) /\
  (foreground_count image <> 0%nat ->
   (1 # 2) <= Qabs angle ->
   (1 # 2) <= Qabs (angle + 90) ->
   _deskew_image raster foreground_count min_area_rect_angle rotate image
     = rotate image (deskew_angle angle) /\
   (1 # 2) <= Qabs (deskew_angle angle) /\
   (-90 <= angle <= 45 -> Qabs (deskew_angle angle) <= 45)).
Proof.
  intros angle. unfold _deskew_image. fold angle. split.
  - intros [H|H].
    + rewrite H. reflexivity.
    + destruct (foreground_count image =? 0)%nat; [reflexivity|].
      apply deskew_angle_small in H.
      destruct (Qlt_bool (Qabs (deskew_angle angle)) (1 # 2)) eqn:E; [reflexivity|].
      apply Qlt_bool_false in E. exfalso. apply (Qlt_not_le _ _ H E).
  - intros Hfg H0 H90.
    destruct (foreground_count image =? 0)%nat eqn:Ef;
      [apply Nat.eqb_eq in Ef; contradiction|].
    destruct (Qlt_bool (Qabs (deskew_angle angle)) (1 # 2)) eqn:E.
    + apply Qlt_bool_true, deskew_angle_small in E. exfalso.
      destruct E as [E|E]; [apply (Qlt_not_le _ _ E H0)|apply (Qlt_not_le _ _ E H90)].
    + apply Qlt_bool_false in E. split; [reflexivity|]. split; [exact E|].
      apply deskew_angle_range.
Qed.

End Geometry.

Lemma resize_width_in_range_witness :
  (750 <= snd (4500, 1500) <= 3000)%nat /\
  ((750 <= snd (1200, 400) <= 3000)%nat -> (4500, 1500)%nat = (1200, 400)%nat) /\
  _resize_image (nat * nat) (fun img => img) SampleData.exact_height
    SampleData.sized_resize (4500, 1500)%nat = inr (4500, 1500)%nat.
Proof.
  apply (resize_width_in_range (nat * nat) (fun img => img) SampleData.exact_height
           SampleData.sized_resize (1200, 400)%nat (4500, 1500)%nat).
  - intros img w h res H. now injection H as <-.
  - reflexivity.
Defined.

Lemma deskew_correction_witness :
  _deskew_image (nat * Q) fst snd (fun img a => (fst img, snd img + a)) (12%nat, -80)
    = (12%nat, -80 + deskew_angle (-80)) /\
  (1 # 2) <= Qabs (deskew_angle (-80)) /\
  (-90 <= -80 <= 45 -> Qabs (deskew_angle (-80)) <= 45).
Proof.
  apply (proj2 (deskew_correction (nat * Q) fst snd
                  (fun img a => (fst img, snd img + a)) (12%nat, -80))).
  - discriminate.
  - vm_compute. discriminate.
  - vm_compute. discriminate.
Defined.

Example deskew_small_angle :
  _deskew_image unit (fun _ => 10%nat) (fun _ => - (3 # 10)) (fun _ _ => tt) tt = tt /\
  deskew_angle (-80) = -10 /\ deskew_angle (-30) = 30.
Proof. repeat split. Qed.

End GeometryFacts.

(** ** More on the endpoint *)

Module ReplyFacts.

Import Main Notions MainFacts.

Section Runtime.

Context {py : CPython.runtime}.

Lemma take_length (n : nat) (s : str) : (Str.length (Str.take n s) <= n)%nat.
Proof.
  revert s. induction n as [|n IH]; intros s; [cbn; lia|].
  destruct s as [|c s]; cbn [Str.take Str.length]; [lia|].
  specialize (IH s). lia.
Qed.

Lemma take_prefix (n : nat) (s : str) : exists rest, s = (Str.take n s ++ rest)%str.
Proof.
  revert s. induction n as [|n IH]; intros s; [now exists s|].
  destruct s as [|c s]; [now exists Empty|].
  destruct (IH s) as [rest E]. exists rest. cbn [Str.take Str.app]. now rewrite <- E.
Qed.

Section Endpoint.

Variable image : Type.
Variable imdecode : str -> result (option image).
Variable is_color : image -> bool.
Variable cvtColor_gray : image -> result image.
Variable pyzbar_decode : image -> result (list BarcodeService.symbol).
Variable requests_get : str -> BarcodeService.http_outcome.
Variable preprocess : image -> result image.
Variable extract_text : image -> result str.

Local Abbreviation scan :=
  (BarcodeService.scan_and_fetch image is_color cvtColor_gray pyzbar_decode
     requests_get).
Local Abbreviation fallback := (ocr_fallback image preprocess extract_text).
Local Abbreviation process :=
  (process_image image is_color cvtColor_gray pyzbar_decode requests_get preprocess
     extract_text).
Local Abbreviation upload :=
  (upload_image image imdecode is_color cvtColor_gray pyzbar_decode requests_get
     preprocess extract_text).

Lemma fallback_classified (img : image) :
  match fallback img with
  | HTTPException status_code detail =>
      status_code = 500%Z /\ Str.startswith "Error processing image: " detail = true
  | JSONResponse content =>
      (keys_of content = ["success"; "message"; "method"; "data"] /\
       field "success" content = Some (PBool false) /\
       field "method" content = Some (PStr "ocr") /\
       field "data" content = Some PNone) \/
      (keys_of content = ["success"; "message"; "method"; "data"; "raw_text"] /\
       field "success" content = Some (PBool true) /\
       field "method" content = Some (PStr "ocr"))
  end.
Proof.
  unfold ocr_fallback, internal_error.
  destruct (bind (preprocess img) _) as [e|raw_text].
  - split; reflexivity.
  - destruct (Str.is_empty (Str.strip raw_text)).
    + left. repeat split.
    + right. repeat split.
Qed.

(** X22. How a request can end: with status 400 for a file that is no
    image or cannot be decoded, with status 500 and a detail starting
    "Error processing image: " for anything raised on the way, or with a
    JSON body that is the barcode reply (success, method barcode), the
    no-text reply (no success, method ocr, no data) or the OCR reply
    (success, method ocr, with raw_text). *)
Theorem upload_reply_classified (file : upload_file) :
  match upload file with
  | HTTPException status_code detail =>
      (status_code = 400%Z /\
       (detail = "File must be an image" \/ detail = "Invalid image file")) \/
      (status_code = 500%Z /\
       Str.startswith "Error processing image: " detail = true)
  | JSONResponse content =>
      (keys_of content = ["success"; "message"; "method"; "data"] /\
       field "success" content = Some (PBool true) /\
       field "method" content = Some (PStr "barcode")) \/
      (keys_of content = ["success"; "message"; "method"; "data"] /\
       field "success" content = Some (PBool false) /\
       field "method" content = Some (PStr "ocr") /\
       field "data" content = Some PNone) \/
      (keys_of content = ["success"; "message"; "method"; "data"; "raw_text"] /\
       field "success" content = Some (PBool true) /\
       field "method" content = Some (PStr "ocr"))
  end.
Proof.
  unfold upload_image, internal_error.
  destruct (content_type file) as [ct|]; [|right; split; reflexivity].
  destruct (negb (Str.startswith "image/" ct)); [left; split; [reflexivity|now left]|].
  destruct (imdecode (contents file)) as [e|[img|]].
  - right. split; reflexivity.
  - unfold process_image. destruct (Py.truthy (scan img)).
    + left. repeat split.
    + pose proof (fallback_classified img) as H.
      destruct (fallback img) as [status_code detail|content]; [now right|now right].
  - left. split; [reflexivity|now right].
Qed.

(** X23. The [raw_text] of a reply is the front of the text the OCR read on
    the preprocessed image, cut after 500 characters. *)
Theorem raw_text_is_front (file : upload_file) (content : pyval) (raw : str) :
  upload file = JSONResponse content ->
  field "raw_text" content = Some (PStr raw) ->
  (Str.length raw <= 500)%nat /\
  exists img processed text rest,
    preprocess img = inr processed /\
    extract_text processed = inr text /\
    text = (raw ++ rest)%str.
Proof.
  intros Hu Hraw. apply upload_image_json in Hu. destruct Hu as (img & Hp).
  destruct (process_image_cases image is_color cvtColor_gray pyzbar_decode
              requests_get preprocess extract_text img)
    as [(_ & Hb & _)|(_ & Hf)].
  - rewrite Hb in Hp. injection Hp as <-. discriminate Hraw.
  - rewrite Hf in Hp. unfold ocr_fallback, internal_error in Hp.
    destruct (preprocess img) as [e|processed] eqn:Epre; [discriminate Hp|].
    cbn [bind] in Hp.
    destruct (extract_text processed) as [e|text] eqn:Eocr; [discriminate Hp|].
    destruct (Str.is_empty (Str.strip text)).
    + injection Hp as <-. discriminate Hraw.
    + injection Hp as <-.
      assert (E : raw = Str.take 500 text).
      { change (Some (PStr (Str.take 500 text)) = Some (PStr raw)) in Hraw.
        congruence. }
      clear Hraw. subst raw.
      split; [apply take_length|].
      destruct (take_prefix 500 text) as [rest E].
      now exists img, processed, text, rest.
Qed.

End Endpoint.

Section WithOCRService.

Variable image : Type.
Variable imdecode : str -> result (option image).
Variable is_color : image -> bool.
Variable cvtColor_gray : image -> result image.
Variable pyzbar_decode : image -> result (list BarcodeService.symbol).
Variable requests_get : str -> BarcodeService.http_outcome.
Variable preprocess : image -> result image.
Variable image_to_string : image -> str -> result str.

(** X24. With [OCRService] as the endpoint's OCR: when no product is found
    and the engine raises on the preprocessed image, the request ends with
    status 500 and the detail "Error processing image: OCR failed: "
    followed by the engine's message. *)
Theorem engine_failure_is_500 (img processed : image) (e : exn) :
  Py.truthy (BarcodeService.scan_and_fetch image is_color cvtColor_gray pyzbar_decode
               requests_get img) = false ->
  preprocess img = inr processed ->
  image_to_string processed OCRService.config = inl e ->
  process_image image is_color cvtColor_gray pyzbar_decode requests_get preprocess
    (OCRService.extract_text image image_to_string) img
  = HTTPException 500 ("Error processing image: OCR failed: " ++ str_of_exn e)%str.
Proof.
  intros Hs Hp He. unfold process_image. rewrite Hs.
  unfold ocr_fallback. rewrite Hp. cbn [bind].
  unfold OCRService.extract_text. rewrite He. reflexivity.
Qed.

End WithOCRService.

End Runtime.

#[local] Existing Instance Sample.runtime.

Lemma raw_text_is_front_witness :
  (Str.length "Ingredients: sugar,,salt, Calories: 250" <= 500)%nat /\
  exists img processed text rest,
    Sample.preprocess img = inr processed /\
    Sample.extract_text processed = inr text /\
    text = ("Ingredients: sugar,,salt, Calories: 250" ++ rest)%str.
Proof.
  apply (raw_text_is_front bool Sample.imdecode Sample.is_color Sample.cvtColor_gray
           Sample.pyzbar_decode Sample.requests_get Sample.preprocess
           Sample.extract_text Sample.file_plain
           (Sample.content_of (Sample.upload Sample.file_plain))).
  - vm_compute. reflexivity.
  - vm_compute. reflexivity.
Defined.

Lemma engine_failure_is_500_witness :
  process_image bool Sample.is_color Sample.cvtColor_gray Sample.pyzbar_decode
    Sample.requests_get Sample.preprocess
    (OCRService.extract_text bool SampleData.no_engine) false
  = HTTPException 500
      ("Error processing image: OCR failed: " ++
       str_of_exn (Exception "tesseract is not installed"))%str.
Proof.
  apply (engine_failure_is_500 bool Sample.is_color Sample.cvtColor_gray
           Sample.pyzbar_decode Sample.requests_get Sample.preprocess
           SampleData.no_engine false false).
  - reflexivity.
  - reflexivity.
  - reflexivity.
Defined.

End ReplyFacts.

